(** * RF-pico: the OOK waveform encoder and the edge-timing decoder of
    [rpi_rf.py], embedded in Rocq.

    The Python class [RFDevice] becomes a record; its methods become
    computations in a small state-and-exception monad over a [World] that
    holds the device, the output wire, the two debug pins and a ghost log of
    the interval-buffer indices that were used.  Python exceptions
    (IndexError, AttributeError, ZeroDivisionError) are results of the
    computation, and the world at the point of the raise is kept, as in
    Python.  Calls to [print] are not modelled.  Python's true division [/]
    is taken exactly (over the rationals).  The transmitter script
    [rf_comm_transmitt.py] is the module [rf_comm_transmitt]. *)

From Stdlib Require Import ZArith QArith Ascii String List Lia Bool.
From stdpp Require Import base list numbers.

Close Scope Q_scope.
Local Open Scope Z_scope.

(** ** Python values and built-ins used by the source *)

Inductive exn := IndexError | AttributeError | ZeroDivisionError.

Inductive result (A : Type) :=
| Ok (a : A)
| Raise (e : exn).
Arguments Ok {A} a.
Arguments Raise {A} e.

(** [seq[i]] on a Python sequence: a negative index counts from the end,
    anything outside [-len, len) raises IndexError. *)
Definition py_index {A} (l : list A) (i : Z) : result A :=
  let n := Z.of_nat (length l) in
  let j := if i <? 0 then i + n else i in
  if (0 <=? j) && (j <? n) then
    match l !! Z.to_nat j with
    | Some x => Ok x
    | None => Raise IndexError
    end
  else Raise IndexError.

(** [seq[i] = v] on a Python list. *)
Definition py_setitem {A} (l : list A) (i : Z) (v : A) : result (list A) :=
  let n := Z.of_nat (length l) in
  let j := if i <? 0 then i + n else i in
  if (0 <=? j) && (j <? n) then Ok (<[Z.to_nat j := v]> l)
  else Raise IndexError.

(** [range(start, stop, step)] for a positive step. *)
Definition py_range (start stop step : Z) : list Z :=
  (λ k, start + Z.of_nat k * step) <$>
    seq 0 (Z.to_nat ((stop - start + step - 1) `div` step)).

(** [len(s)] *)
Definition len {A} (l : list A) : Z := Z.of_nat (length l).

(** [c * k] for a one-character string [c]: empty when [k <= 0]. *)
Definition py_str_mul (c : ascii) (k : Z) : list ascii :=
  replicate (Z.to_nat k) c.

(** Binary digits of a positive number, most significant first. *)
Fixpoint pos_digits (p : positive) : list ascii :=
  match p with
  | xH => ["1"%char]
  | xO q => pos_digits q ++ ["0"%char]
  | xI q => pos_digits q ++ ["1"%char]
  end.

(** [bin(n)]: "0b..." for a non-negative int, "-0b..." for a negative one. *)
Definition bin (n : Z) : list ascii :=
  match n with
  | Z0 => ["0"; "b"; "0"]%char
  | Zpos p => "0"%char :: "b"%char :: pos_digits p
  | Zneg p => "-"%char :: "0"%char :: "b"%char :: pos_digits p
  end.

(** [int(a / b)]: the exact quotient truncated toward zero.  The source
    divides in floating point; the two agree while [|a| < 2^31] and
    [0 < b <= 71] (see [exact_range]), and the source's OverflowError for
    operands beyond the floating-point range is not modelled. *)
Definition py_int_div (a b : Z) : result Z :=
  if b =? 0 then Raise ZeroDivisionError else Ok (a ÷ b).

(** [x < y] on rationals, as a boolean. *)
Definition Qltb (x y : Q) : bool := negb (Qle_bool y x).

(** ** Constants and the protocol table *)

Definition MAX_CHANGES : Z := 67.
Definition THRESHOLD_SYNC : Z := 15000.
Definition THRESHOLD_TICK : Z := 300.
Definition SCALE_TIME_US : Z := 3.

Record Protocol := mkProtocol {
  pulselength : Z;
  sync_high : Z; sync_low : Z;
  zero_high : Z; zero_low : Z;
  one_high : Z; one_low : Z
}.

Definition PROTOCOLS : list (option Protocol) :=
  [ None;
    Some (mkProtocol 350 1 31 1 3 3 1);
    Some (mkProtocol 650 1 10 1 2 2 1);
    Some (mkProtocol 100 30 71 4 11 9 6);
    Some (mkProtocol 380 1 6 1 3 3 1);
    Some (mkProtocol 500 6 14 1 2 2 1);
    Some (mkProtocol 200 1 10 1 5 1 1) ].

(** ** The device *)

Inductive PinMode := PinOut | PinInPullDown.

(** A [machine.Pin] object as the device holds it: its number, its mode and
    whether an edge handler is registered on it. *)
Record Pin := mkPin { pin_id : Z; pin_mode : PinMode; pin_irq : bool }.

Record Device := mkDevice {
  gpio : Z;
  tx_enabled : bool;
  tx_proto : Z;
  tx_pulselength : Z;
  tx_repeat : Z;
  tx_length : Z;
  rx_enabled : bool;
  rx_tolerance : Z;
  _rx_timings : list Z;
  _rx_last_timestamp : Z;
  _rx_change_count : Z;
  _rx_repeat_count : Z;
  rx_code : option Z;
  rx_code_timestamp : option Z;
  rx_proto : Z;
  rx_repeat : Z;
  rx_bitlength : option Z;
  rx_pulselength : option Z;
  tx_pin : option Pin;
  rx_pin : option Pin
}.

(** Attribute assignments [self.f = v]. *)
Definition set_tx_enabled (v : bool) (d : Device) : Device :=
  mkDevice (gpio d) v (tx_proto d) (tx_pulselength d) (tx_repeat d)
    (tx_length d) (rx_enabled d) (rx_tolerance d) (_rx_timings d)
    (_rx_last_timestamp d) (_rx_change_count d) (_rx_repeat_count d)
    (rx_code d) (rx_code_timestamp d) (rx_proto d) (rx_repeat d)
    (rx_bitlength d) (rx_pulselength d) (tx_pin d) (rx_pin d).

Definition set_tx_length (v : Z) (d : Device) : Device :=
  mkDevice (gpio d) (tx_enabled d) (tx_proto d) (tx_pulselength d)
    (tx_repeat d) v (rx_enabled d) (rx_tolerance d) (_rx_timings d)
    (_rx_last_timestamp d) (_rx_change_count d) (_rx_repeat_count d)
    (rx_code d) (rx_code_timestamp d) (rx_proto d) (rx_repeat d)
    (rx_bitlength d) (rx_pulselength d) (tx_pin d) (rx_pin d).

Definition set_rx_enabled (v : bool) (d : Device) : Device :=
  mkDevice (gpio d) (tx_enabled d) (tx_proto d) (tx_pulselength d)
    (tx_repeat d) (tx_length d) v (rx_tolerance d) (_rx_timings d)
    (_rx_last_timestamp d) (_rx_change_count d) (_rx_repeat_count d)
    (rx_code d) (rx_code_timestamp d) (rx_proto d) (rx_repeat d)
    (rx_bitlength d) (rx_pulselength d) (tx_pin d) (rx_pin d).

Definition set__rx_timings (v : list Z) (d : Device) : Device :=
  mkDevice (gpio d) (tx_enabled d) (tx_proto d) (tx_pulselength d)
    (tx_repeat d) (tx_length d) (rx_enabled d) (rx_tolerance d) v
    (_rx_last_timestamp d) (_rx_change_count d) (_rx_repeat_count d)
    (rx_code d) (rx_code_timestamp d) (rx_proto d) (rx_repeat d)
    (rx_bitlength d) (rx_pulselength d) (tx_pin d) (rx_pin d).

Definition set__rx_last_timestamp (v : Z) (d : Device) : Device :=
  mkDevice (gpio d) (tx_enabled d) (tx_proto d) (tx_pulselength d)
    (tx_repeat d) (tx_length d) (rx_enabled d) (rx_tolerance d)
    (_rx_timings d) v (_rx_change_count d) (_rx_repeat_count d)
    (rx_code d) (rx_code_timestamp d) (rx_proto d) (rx_repeat d)
    (rx_bitlength d) (rx_pulselength d) (tx_pin d) (rx_pin d).

Definition set__rx_change_count (v : Z) (d : Device) : Device :=
  mkDevice (gpio d) (tx_enabled d) (tx_proto d) (tx_pulselength d)
    (tx_repeat d) (tx_length d) (rx_enabled d) (rx_tolerance d)
    (_rx_timings d) (_rx_last_timestamp d) v (_rx_repeat_count d)
    (rx_code d) (rx_code_timestamp d) (rx_proto d) (rx_repeat d)
    (rx_bitlength d) (rx_pulselength d) (tx_pin d) (rx_pin d).

Definition set__rx_repeat_count (v : Z) (d : Device) : Device :=
  mkDevice (gpio d) (tx_enabled d) (tx_proto d) (tx_pulselength d)
    (tx_repeat d) (tx_length d) (rx_enabled d) (rx_tolerance d)
    (_rx_timings d) (_rx_last_timestamp d) (_rx_change_count d) v
    (rx_code d) (rx_code_timestamp d) (rx_proto d) (rx_repeat d)
    (rx_bitlength d) (rx_pulselength d) (tx_pin d) (rx_pin d).

Definition set_rx_code (v : option Z) (d : Device) : Device :=
  mkDevice (gpio d) (tx_enabled d) (tx_proto d) (tx_pulselength d)
    (tx_repeat d) (tx_length d) (rx_enabled d) (rx_tolerance d)
    (_rx_timings d) (_rx_last_timestamp d) (_rx_change_count d)
    (_rx_repeat_count d) v (rx_code_timestamp d) (rx_proto d) (rx_repeat d)
    (rx_bitlength d) (rx_pulselength d) (tx_pin d) (rx_pin d).

Definition set_rx_code_timestamp (v : option Z) (d : Device) : Device :=
  mkDevice (gpio d) (tx_enabled d) (tx_proto d) (tx_pulselength d)
    (tx_repeat d) (tx_length d) (rx_enabled d) (rx_tolerance d)
    (_rx_timings d) (_rx_last_timestamp d) (_rx_change_count d)
    (_rx_repeat_count d) (rx_code d) v (rx_proto d) (rx_repeat d)
    (rx_bitlength d) (rx_pulselength d) (tx_pin d) (rx_pin d).

Definition set_tx_pin (v : option Pin) (d : Device) : Device :=
  mkDevice (gpio d) (tx_enabled d) (tx_proto d) (tx_pulselength d)
    (tx_repeat d) (tx_length d) (rx_enabled d) (rx_tolerance d)
    (_rx_timings d) (_rx_last_timestamp d) (_rx_change_count d)
    (_rx_repeat_count d) (rx_code d) (rx_code_timestamp d) (rx_proto d)
    (rx_repeat d) (rx_bitlength d) (rx_pulselength d) v (rx_pin d).

Definition set_rx_pin (v : option Pin) (d : Device) : Device :=
  mkDevice (gpio d) (tx_enabled d) (tx_proto d) (tx_pulselength d)
    (tx_repeat d) (tx_length d) (rx_enabled d) (rx_tolerance d)
    (_rx_timings d) (_rx_last_timestamp d) (_rx_change_count d)
    (_rx_repeat_count d) (rx_code d) (rx_code_timestamp d) (rx_proto d)
    (rx_repeat d) (rx_bitlength d) (rx_pulselength d) (tx_pin d) v.

(** The attributes [RFDevice.__init__] sets, once the pulse length is
    known. *)
Definition new_device (gpio tx_proto tx_pulselength tx_repeat tx_length
    rx_tolerance : Z) : Device :=
  mkDevice gpio false tx_proto tx_pulselength tx_repeat tx_length false
    rx_tolerance (replicate (Z.to_nat (MAX_CHANGES + 1)) 0) 0 0 0
    None None tx_proto tx_repeat None None None None.

(** [RFDevice.__init__].  [tx_pulselength = None] is the default; a falsy
    override (None or 0) selects the protocol's own pulse length. *)
Definition RFDevice (gpio : Z) (tx_proto : Z) (tx_pulselength : option Z)
    (tx_repeat tx_length rx_tolerance : Z) : result Device :=
  let mk (pl : Z) :=
    new_device gpio tx_proto pl tx_repeat tx_length rx_tolerance in
  match tx_pulselength with
  | Some pl =>
      if negb (pl =? 0) then Ok (mk pl)
      else match py_index PROTOCOLS tx_proto with
           | Ok (Some p) => Ok (mk (pulselength p))
           | Ok None => Raise AttributeError
           | Raise e => Raise e
           end
  | None =>
      match py_index PROTOCOLS tx_proto with
      | Ok (Some p) => Ok (mk (pulselength p))
      | Ok None => Raise AttributeError
      | Raise e => Raise e
      end
  end.

(** ** The world and the monad of methods *)

Record World := mkWorld {
  device : Device;
  (** level of the output pin, and the pulses sent so far: each entry is the
      level held and for how many microseconds, oldest first *)
  pin_level : bool;
  wire : list (bool * Z);
  (** ghost: every index used on [_rx_timings], oldest first *)
  touched : list Z;
  (** levels of the module's debug pins 16 and 17 *)
  debug1 : bool;
  debug2 : bool
}.

Definition M (A : Type) : Type := World → result A * World.

#[global] Instance M_ret : MRet M := λ A a w, (Ok a, w).
#[global] Instance M_bind : MBind M := λ A B f m w,
  match m w with
  | (Ok a, w') => f a w'
  | (Raise e, w') => (Raise e, w')
  end.

Definition raise {A} (e : exn) : M A := λ w, (Raise e, w).

Definition lift {A} (r : result A) : M A := λ w, (r, w).

Definition self : M Device := λ w, (Ok (device w), w).

Definition assign (f : Device → Device) : M unit := λ w,
  (Ok tt, mkWorld (f (device w)) (pin_level w) (wire w) (touched w)
            (debug1 w) (debug2 w)).

(** [self.tx_pin.high()] / [.low()] *)
Definition pin_write (level : bool) : M unit := λ w,
  match tx_pin (device w) with
  | None => (Raise AttributeError, w)
  | Some _ =>
      (Ok tt, mkWorld (device w) level (wire w) (touched w)
                (debug1 w) (debug2 w))
  end.

(** [self._sleep(delay)]: the pin keeps its level for [delay] microseconds. *)
Definition _sleep (delay : Z) : M unit := λ w,
  (Ok tt, mkWorld (device w) (pin_level w) (wire w ++ [(pin_level w, delay)])
            (touched w) (debug1 w) (debug2 w)).

Definition Debug1_toggle : M unit := λ w,
  (Ok tt, mkWorld (device w) (pin_level w) (wire w) (touched w)
            (negb (debug1 w)) (debug2 w)).

Definition Debug2_toggle : M unit := λ w,
  (Ok tt, mkWorld (device w) (pin_level w) (wire w) (touched w)
            (debug1 w) (negb (debug2 w))).

(** [self._rx_timings[i]] *)
Definition timings_get (i : Z) : M Z := λ w,
  (py_index (_rx_timings (device w)) i,
   mkWorld (device w) (pin_level w) (wire w) (touched w ++ [i])
     (debug1 w) (debug2 w)).

(** [self._rx_timings[i] = v] *)
Definition timings_set (i v : Z) : M unit := λ w,
  match py_setitem (_rx_timings (device w)) i v with
  | Ok l =>
      (Ok tt, mkWorld (set__rx_timings l (device w)) (pin_level w) (wire w)
                (touched w ++ [i]) (debug1 w) (debug2 w))
  | Raise e =>
      (Raise e, mkWorld (device w) (pin_level w) (wire w) (touched w ++ [i])
                  (debug1 w) (debug2 w))
  end.

(** [PROTOCOLS[pnum]], then an attribute of it: index 0 holds None. *)
Definition protocol (pnum : Z) : M Protocol :=
  o ← lift (py_index PROTOCOLS pnum);
  match o with
  | Some p => mret p
  | None => raise AttributeError
  end.

(** The pattern [for x in xs: if not body(x): return False]: runs [body] on
    the elements in order and stops with [false] at the first one that
    returns [false]; [true] when the loop runs to its end. *)
Fixpoint for_each {X} (xs : list X) (body : X → M bool) : M bool :=
  match xs with
  | [] => mret true
  | x :: rest =>
      ok ← body x;
      if negb ok then mret false else for_each rest body
  end.

(** ** Enabling and disabling the two roles *)

Definition enable_tx : M bool :=
  d ← self;
  if rx_enabled d then mret false
  else
    (if negb (tx_enabled d) then
       assign (set_tx_enabled true);;
       d ← self;
       assign (set_tx_pin (Some (mkPin (gpio d) PinOut false)))
     else mret tt);;
    mret true.

Definition disable_tx : M bool :=
  d ← self;
  (if tx_enabled d then
     assign (set_tx_pin (Some (mkPin (gpio d) PinInPullDown false)));;
     assign (set_tx_enabled false)
   else mret tt);;
  mret true.

Definition enable_rx : M bool :=
  d ← self;
  if tx_enabled d then mret false
  else
    (if negb (rx_enabled d) then
       assign (set_rx_enabled true);;
       d ← self;
       assign (set_rx_pin (Some (mkPin (gpio d) PinInPullDown false)));;
       d ← self;
       match rx_pin d with
       | Some p => assign (set_rx_pin (Some (mkPin (pin_id p) (pin_mode p) true)))
       | None => raise AttributeError
       end
     else mret tt);;
    mret true.

Definition disable_rx : M bool :=
  d ← self;
  (if rx_enabled d then
     match rx_pin d with
     | Some p => assign (set_rx_pin (Some (mkPin (pin_id p) (pin_mode p) false)))
     | None => raise AttributeError
     end;;
     assign (set_rx_enabled false)
   else mret tt);;
  mret true.

Definition cleanup : M unit :=
  d ← self;
  (if tx_enabled d then _ ← disable_tx; mret tt else mret tt);;
  d ← self;
  (if rx_enabled d then _ ← disable_rx; mret tt else mret tt).

(** ** Transmitter *)

Definition tx_waveform (highpulses lowpulses : Z) : M bool :=
  d ← self;
  if negb (tx_enabled d) then mret false
  else
    pin_write true;;
    _sleep (highpulses * tx_pulselength d * SCALE_TIME_US);;
    pin_write false;;
    _sleep (lowpulses * tx_pulselength d * SCALE_TIME_US);;
    mret true.

Definition tx_l0 : M bool :=
  d ← self;
  if negb ((0 <? tx_proto d) && (tx_proto d <? len PROTOCOLS)) then mret false
  else
    p ← protocol (tx_proto d);
    tx_waveform (zero_high p) (zero_low p).

Definition tx_l1 : M bool :=
  d ← self;
  if negb ((0 <? tx_proto d) && (tx_proto d <? len PROTOCOLS)) then mret false
  else
    p ← protocol (tx_proto d);
    tx_waveform (one_high p) (one_low p).

Definition tx_sync : M bool :=
  d ← self;
  if negb ((0 <? tx_proto d) && (tx_proto d <? len PROTOCOLS)) then mret false
  else
    p ← protocol (tx_proto d);
    tx_waveform (sync_high p) (sync_low p).

(** The body of the inner loop of [tx_bin]: the waveform of
    [rawcode[byte]]. *)
Definition send_bit (rawcode : list ascii) (byte : Z) : M bool :=
  c ← lift (py_index rawcode byte);
  if Ascii.eqb c "0" then tx_l0 else tx_l1.

Definition tx_bin (rawcode : list ascii) : M bool :=
  d ← self;
  for_each (py_range 0 (tx_repeat d) 1) (λ _,
    d ← self;
    ok ← (if tx_proto d =? 6 then tx_sync else mret true);
    if negb ok then mret false
    else
      d ← self;
      ok ← for_each (py_range 0 (tx_length d) 1) (send_bit rawcode);
      if negb ok then mret false
      else tx_sync).

(** The protocol-6 substitution of [tx_code]: one pass of the loop body. *)
Definition nexa_step (nexacode : list ascii) (b : ascii) : list ascii :=
  let nexacode :=
    if Ascii.eqb b "0" then nexacode ++ ["0"; "1"]%char else nexacode in
  if Ascii.eqb b "1" then nexacode ++ ["1"; "0"]%char else nexacode.

Definition tx_code (code : Z) : M bool :=
  d ← self;
  let rawcode :=
    py_str_mul "0" (tx_length d + 0 - len (drop 2 (bin code)))
      ++ drop 2 (bin code) in
  rawcode ←
    (if tx_proto d =? 6 then
       let nexacode := fold_left nexa_step rawcode [] in
       assign (set_tx_length 64);;
       mret nexacode
     else mret rawcode);
  tx_bin rawcode.

(** ** Receiver *)

Definition received_rx : M (option Z) :=
  d ← self;
  let code := rx_code d in
  (match rx_code d with
   | Some c => if negb (c =? 0) then assign (set_rx_code None) else mret tt
   | None => mret tt
   end);;
  mret code.

(** [abs(t - expected) < delay_tolerance] *)
Definition within (t expected : Z) (delay_tolerance : Q) : bool :=
  Qltb (inject_Z (Z.abs (t - expected))) delay_tolerance.

(** One condition of the loop of [_rx_waveform]:
    [abs(timings[i] - delay * high) < tol and abs(timings[i+1] - delay * low) < tol];
    [and] reads its right operand only when the left one holds. *)
Definition template_match (delay : Z) (delay_tolerance : Q) (high low : Z)
    (i : Z) : M bool :=
  hi ← timings_get i;
  if within hi (delay * high) delay_tolerance then
    lo ← timings_get (i + 1);
    mret (within lo (delay * low) delay_tolerance)
  else mret false.

(** The [for i in range(1, change_count, 2)] loop of [_rx_waveform]:
    [None] is its [return False]. *)
Fixpoint decode_pairs (p : Protocol) (delay : Z) (delay_tolerance : Q)
    (idx : list Z) (code : Z) : M (option Z) :=
  match idx with
  | [] => mret (Some code)
  | i :: rest =>
      is_zero ← template_match delay delay_tolerance (zero_high p) (zero_low p) i;
      if is_zero : bool then
        decode_pairs p delay delay_tolerance rest (code ≪ 1)
      else
        is_one ← template_match delay delay_tolerance (one_high p) (one_low p) i;
        if is_one : bool then
          decode_pairs p delay delay_tolerance rest (Z.lor (code ≪ 1) 1)
        else mret None
  end.

(** [_rx_waveform].  [delay_tolerance = delay * self.rx_tolerance / 100] is
    kept as an exact rational; the source holds it in a float, which decides
    the comparisons below in the same way for a device in [exact_range]. *)
Definition _rx_waveform (pnum change_count timestamp : Z) : M bool :=
  let code := 0 in
  t0 ← timings_get 0;
  p ← protocol pnum;
  delay ← lift (py_int_div t0 (sync_low p));
  d ← self;
  let delay_tolerance := (inject_Z (delay * rx_tolerance d) / 100)%Q in
  r ← decode_pairs p delay delay_tolerance (py_range 1 change_count 2) code;
  match r with
  | None => mret false
  | Some code =>
      d ← self;
      if (_rx_change_count d >? 6) && negb (code =? 0) then
        assign (set_rx_code (Some code));;
        assign (set_rx_code_timestamp (Some timestamp));;
        mret true
      else mret false
  end.

(** The edge handler.  [timestamp] is the value of [utime.ticks_us()] read
    on entry. *)
Definition rx_callback (timestamp : Z) : M unit :=
  d ← self;
  let duration := timestamp - _rx_last_timestamp d in
  (if duration >? THRESHOLD_TICK then
     Debug1_toggle;;
     (if duration >? THRESHOLD_SYNC then
        Debug2_toggle;;
        assign (λ d, set__rx_repeat_count (_rx_repeat_count d + 1) d);;
        assign (λ d, set__rx_change_count (_rx_change_count d - 1) d);;
        d ← self;
        (if _rx_change_count d >? 1 then
           _ ← _rx_waveform (rx_proto d) (_rx_change_count d) timestamp;
           mret tt
         else mret tt);;
        assign (set__rx_change_count 0)
      else mret tt);;
     d ← self;
     (if _rx_change_count d >=? MAX_CHANGES then
        assign (set__rx_change_count 0);;
        assign (set__rx_repeat_count 0)
      else mret tt);;
     d ← self;
     timings_set (_rx_change_count d) duration;;
     assign (λ d, set__rx_change_count (_rx_change_count d + 1) d)
   else mret tt);;
  assign (set__rx_last_timestamp timestamp).

(** ** Running the program on concrete worlds *)

Definition world_of (d : Device) : World := mkWorld d false [] [] false false.

(** Delivering a list of edges, given by their timestamps, to the handler. *)
Fixpoint rx_edges (timestamps : list Z) : M unit :=
  match timestamps with
  | [] => mret tt
  | t :: rest => rx_callback t;; rx_edges rest
  end.

(** The timestamps of edges that are [durations] apart, after an edge at
    [t0]. *)
Fixpoint edge_times (t0 : Z) (durations : list Z) : list Z :=
  match durations with
  | [] => []
  | dur :: rest => (t0 + dur) :: edge_times (t0 + dur) rest
  end.

(** Handler invocations as the interrupt source makes them: one call per
    edge, each starting from the world the previous one left, whatever its
    outcome. *)
Definition irq_run (timestamps : list Z) (w : World) : World :=
  fold_left (λ w t, snd (rx_callback t w)) timestamps w.

(** Calls of the four role methods. *)
Inductive role_op := EnableTx | DisableTx | EnableRx | DisableRx.

Definition do_op (op : role_op) : M bool :=
  match op with
  | EnableTx => enable_tx
  | DisableTx => disable_tx
  | EnableRx => enable_rx
  | DisableRx => disable_rx
  end.

Fixpoint do_ops (ops : list role_op) : M unit :=
  match ops with
  | [] => mret tt
  | op :: rest => _ ← do_op op; do_ops rest
  end.

(** ** Reference definitions used to state the properties *)

(** The pulses of one waveform: high then low, in microseconds. *)
Definition pulses (d : Device) (highpulses lowpulses : Z) : list (bool * Z) :=
  [ (true, highpulses * tx_pulselength d * SCALE_TIME_US);
    (false, lowpulses * tx_pulselength d * SCALE_TIME_US) ].

(** The waveform of one character of a pattern, and the sync waveform. *)
Definition bit_pulses (d : Device) (p : Protocol) (c : ascii) : list (bool * Z) :=
  if Ascii.eqb c "0" then pulses d (zero_high p) (zero_low p)
  else pulses d (one_high p) (one_low p).

Definition sync_pulses (d : Device) (p : Protocol) : list (bool * Z) :=
  pulses d (sync_high p) (sync_low p).

(** One repetition of a frame: for protocol 6 a leading sync, then the bit
    waveforms, then the closing sync. *)
Definition frame (d : Device) (p : Protocol) (bits : list ascii) : list (bool * Z) :=
  (if tx_proto d =? 6 then sync_pulses d p else [])
    ++ concat (bit_pulses d p <$> bits) ++ sync_pulses d p.

(** [tx_repeat] repetitions of a frame. *)
Definition transmission (d : Device) (p : Protocol) (bits : list ascii) : list (bool * Z) :=
  concat (replicate (Z.to_nat (tx_repeat d)) (frame d p bits)).

(** The value of a bit string, most significant bit first. *)
Definition bits_value (bs : list bool) : Z :=
  fold_left (λ acc (b : bool), 2 * acc + (if b then 1 else 0)) bs 0.

(** Slot [i] of the interval buffer, for an index within it. *)
Definition slot (d : Device) (i : Z) : Z :=
  default 0 (_rx_timings d !! Z.to_nat i).

(** The pair of intervals at [i], [i+1] matches a (high, low) template. *)
Definition pair_matches (d : Device) (delay : Z) (delay_tolerance : Q)
    (high low : Z) (i : Z) : bool :=
  within (slot d i) (delay * high) delay_tolerance
  && within (slot d (i + 1)) (delay * low) delay_tolerance.

(** The bit a pair stands for: the zero template is tried first. *)
Definition pair_bit (d : Device) (p : Protocol) (delay : Z)
    (delay_tolerance : Q) (i : Z) : option bool :=
  if pair_matches d delay delay_tolerance (zero_high p) (zero_low p) i
  then Some false
  else if pair_matches d delay delay_tolerance (one_high p) (one_low p) i
  then Some true
  else None.

(** The timing unit and the tolerance window the decoder derives from
    slot 0, with the exact divisions of [py_int_div] and [_rx_waveform]. *)
Definition frame_delay (d : Device) (p : Protocol) : Z :=
  slot d 0 ÷ sync_low p.

Definition frame_tolerance (d : Device) (p : Protocol) : Q :=
  (inject_Z (frame_delay d p * rx_tolerance d) / 100)%Q.

(** The bits of the first [n] buffered intervals, when every pair matches. *)
Definition frame_bits (d : Device) (p : Protocol) (n : Z) : option (list bool) :=
  mapM (pair_bit d p (frame_delay d p) (frame_tolerance d p)) (py_range 1 n 2).

(** The code a frame is accepted with, if it is. *)
Definition accepted (d : Device) (p : Protocol) (n : Z) : option Z :=
  match frame_bits d p n with
  | Some bs =>
      if (_rx_change_count d >? 6) && negb (bits_value bs =? 0)
      then Some (bits_value bs) else None
  | None => None
  end.

(** Writing the mailbox. *)
Definition publish (r : option Z) (timestamp : Z) (d : Device) : Device :=
  match r with
  | Some code => set_rx_code_timestamp (Some timestamp) (set_rx_code (Some code) d)
  | None => d
  end.

(** A world with its device, or its ghost log, replaced. *)
Definition with_device (d : Device) (w : World) : World :=
  mkWorld d (pin_level w) (wire w) (touched w) (debug1 w) (debug2 w).

Definition with_touched (t : list Z) (w : World) : World :=
  mkWorld (device w) (pin_level w) (wire w) t (debug1 w) (debug2 w).

(** The buffer has its 68 slots and [change_count] points into it. *)
Definition buffer_ok (d : Device) : Prop :=
  length (_rx_timings d) = Z.to_nat (MAX_CHANGES + 1)
  ∧ 0 <= _rx_change_count d <= MAX_CHANGES.

(** An index within the buffer. *)
Definition in_buffer (i : Z) : Prop := 0 <= i < MAX_CHANGES + 1.

(** ** Further definitions used in the statements and proofs *)

(** Unfolds the monad's operations on a goal. *)
Ltac run_m :=
  unfold mbind, M_bind, mret, M_ret, self, assign, raise, lift,
    Debug1_toggle, Debug2_toggle; cbn.

(** At most one role is enabled, and an enabled receiver has its pin. *)
Definition roles_ok (d : Device) : Prop :=
  ¬ (tx_enabled d = true ∧ rx_enabled d = true)
  ∧ (rx_enabled d = true → is_Some (rx_pin d)).

(** Appending bits to a code: [code <<= 1], then [code |= 1] for a one. *)
Definition push_bits (code : Z) (bs : list bool) : Z :=
  fold_left (λ acc (b : bool), 2 * acc + (if b then 1 else 0)) bs code.

(** The world after more pulses have gone out. *)
Definition sent (ps : list (bool * Z)) (level : bool) (w : World) : World :=
  mkWorld (device w) level (wire w ++ ps) (touched w) (debug1 w) (debug2 w).

(** A computation that leaves the device as it is, whatever its outcome. *)
Definition keeps_device {A} (m : M A) : Prop :=
  ∀ w, device (snd (m w)) = device w.

(** The substitution of the protocol-6 loop: "0" becomes "01", "1" becomes
    "10", any other character is dropped. *)
Definition nexa_symbol (b : ascii) : list ascii :=
  if Ascii.eqb b "0" then ["0"; "1"]%char
  else if Ascii.eqb b "1" then ["1"; "0"]%char
  else [].

(** The time a list of intervals takes. *)
Definition total (durations : list Z) : Z := foldr Z.add 0 durations.

(** The device after a run of data intervals: they fill consecutive slots
    from [change_count] on. *)
Definition buffered (durations : list Z) (d : Device) : Device :=
  set__rx_last_timestamp (_rx_last_timestamp d + total durations)
    (set__rx_change_count (_rx_change_count d + len durations)
       (set__rx_timings
          (list_inserts (Z.to_nat (_rx_change_count d)) durations (_rx_timings d))
          d)).

(** An interval the handler classifies as data. *)
Definition data_interval (x : Z) : Prop := THRESHOLD_TICK < x <= THRESHOLD_SYNC.

(** The pulse length suits the receiver's thresholds: every bit pulse and
    the high part of the sync are data intervals, the low part of the sync
    is longer than the sync threshold. *)
Definition timing_ok (p : Protocol) (pl : Z) : Prop :=
  data_interval (zero_high p * pl * SCALE_TIME_US)
  ∧ data_interval (zero_low p * pl * SCALE_TIME_US)
  ∧ data_interval (one_high p * pl * SCALE_TIME_US)
  ∧ data_interval (one_low p * pl * SCALE_TIME_US)
  ∧ data_interval (sync_high p * pl * SCALE_TIME_US)
  ∧ THRESHOLD_SYNC < sync_low p * pl * SCALE_TIME_US.

(** The bit a character of a pattern is sent as: [tx_bin] sends a zero
    for "0" and a one for anything else. *)
Definition bit_of (c : ascii) : bool := negb (Ascii.eqb c "0").

(** The two intervals of a bit, and the intervals of a frame, for pulse
    length [pl]. *)
Definition bit_intervals (p : Protocol) (pl : Z) (c : ascii) : list Z :=
  if Ascii.eqb c "0"
  then [zero_high p * pl * SCALE_TIME_US; zero_low p * pl * SCALE_TIME_US]
  else [one_high p * pl * SCALE_TIME_US; one_low p * pl * SCALE_TIME_US].

Definition data_intervals (p : Protocol) (pl : Z) (bits : list ascii) : list Z :=
  concat (bit_intervals p pl <$> bits) ++ [sync_high p * pl * SCALE_TIME_US].

Definition frame_intervals (p : Protocol) (pl : Z) (bits : list ascii) : list Z :=
  data_intervals p pl bits ++ [sync_low p * pl * SCALE_TIME_US].

(** Sending [code] from a new device with the given settings and
    delivering the intervals sent, one edge at the end of each interval, to
    a second new device with the same settings: what [tx_code] returned,
    how the deliveries ended, and the mailbox of the receiver. *)
Definition round_trip_outcome (pnum pl r l tol code : Z)
    : result bool * result unit * option Z :=
  let d := new_device 6 pnum pl r l tol in
  let sent := tx_code code (snd (enable_tx (world_of d))) in
  let received :=
    rx_edges (edge_times 0 (snd <$> wire (snd sent)))
      (snd (enable_rx (world_of d))) in
  (fst sent, fst received, rx_code (device (snd received))).

(** A device whose buffer holds a sync gap in slot 0 and then the
    intervals of [bits]. *)
Definition holds_frame (p : Protocol) (pl tol : Z) (d : Device)
    (bits : list ascii) : Prop :=
  length (_rx_timings d) = 68%nat
  ∧ rx_tolerance d = tol
  ∧ _rx_timings d !! 0%nat = Some (sync_low p * pl * SCALE_TIME_US)
  ∧ ∀ i x, concat (bit_intervals p pl <$> bits) !! i = Some x →
           _rx_timings d !! S i = Some x.


(** ** Further definitions: configuration, mailbox, script *)

(** Two devices with the same configuration, role flags and pins: all the
    attributes but the interval buffer, its counters and the mailbox. *)
Definition same_config (d d' : Device) : Prop :=
  gpio d' = gpio d ∧ tx_enabled d' = tx_enabled d
  ∧ tx_proto d' = tx_proto d ∧ tx_pulselength d' = tx_pulselength d
  ∧ tx_repeat d' = tx_repeat d ∧ tx_length d' = tx_length d
  ∧ rx_enabled d' = rx_enabled d ∧ rx_tolerance d' = rx_tolerance d
  ∧ rx_proto d' = rx_proto d ∧ rx_repeat d' = rx_repeat d
  ∧ rx_bitlength d' = rx_bitlength d ∧ rx_pulselength d' = rx_pulselength d
  ∧ tx_pin d' = tx_pin d ∧ rx_pin d' = rx_pin d.

(** The mailbox holds the same code and timestamp in two devices. *)
Definition same_mailbox (d d' : Device) : Prop :=
  rx_code d' = rx_code d ∧ rx_code_timestamp d' = rx_code_timestamp d.

(** The device as the sync branch of the handler passes it to the decoder. *)
Definition at_sync (d : Device) : Device :=
  set__rx_change_count (_rx_change_count d - 1)
    (set__rx_repeat_count (_rx_repeat_count d + 1) d).

(** The mailbox of a device that has been delivered the edges [seen]: empty,
    or a positive code of at most 33 bits together with the timestamp of one
    of these edges. *)
Definition mailbox_ok (seen : list Z) (d : Device) : Prop :=
  match rx_code d with
  | None => True
  | Some c => 0 < c < 2 ^ 33
              ∧ ∃ t, rx_code_timestamp d = Some t ∧ t ∈ seen
  end.

(** The edge handler is registered on the receive pin exactly while the
    receive role is enabled; a device that never enabled it has no receive
    pin. *)
Definition irq_ok (d : Device) : Prop :=
  match rx_pin d with
  | Some p => pin_irq p = rx_enabled d
  | None => rx_enabled d = false
  end.

(** ** The transmitter script [rf_comm_transmitt.py]

    The script constructs a device on pin 6 with protocol 1 and the default
    settings, enables the transmitter and then loops for ever: each pass
    reads the button (pulled up, so 0 when pressed) and sends the code when
    it reads 0.  [loop] runs the passes whose button readings are given. *)
Module rf_comm_transmitt.

Definition RF_TX : Z := 6.
Definition code : Z := 255.

(** [rfdevice = RFDevice(RF_TX,1)] *)
Definition rfdevice : result Device := RFDevice RF_TX 1 None 10 24 70.

(** [if (not(Button.value())): rfdevice.tx_code(code)] *)
Definition loop_body (value : Z) : M unit :=
  if value =? 0 then _ ← tx_code code; mret tt else mret tt.

Fixpoint loop (values : list Z) : M unit :=
  match values with
  | [] => mret tt
  | value :: rest => loop_body value;; loop rest
  end.

(** The script up to the end of the given passes: the constructor may
    raise before there is a device. *)
Definition main (values : list Z) : result (result unit * World) :=
  match rfdevice with
  | Ok d => Ok ((_ ← enable_tx; loop values) (world_of d))
  | Raise e => Raise e
  end.

End rf_comm_transmitt.

(** The number of passes in which the button reads 0. *)
Fixpoint presses (values : list Z) : nat :=
  match values with
  | [] => 0
  | value :: rest => (if value =? 0 then 1 else 0) + presses rest
  end.

(** The 24-symbol pattern of code 255. *)
Definition pattern_255 : list ascii :=
  replicate 16 "0"%char ++ replicate 8 "1"%char.

(** A computation that, from any world and in any outcome, adds to the wire
    only complete waveforms (the pin held high, then held low) and, if it
    adds any, leaves the pin low. *)
Definition whole_waveforms {A} (m : M A) : Prop :=
  ∀ w, ∃ n : nat,
    fst <$> wire (snd (m w))
    = (fst <$> wire w) ++ concat (replicate n [true; false])
    ∧ pin_level (snd (m w)) = (if n is O then pin_level w else false).

(** ** The monad: evaluation lemmas *)

Lemma bind_ok {A B} (m : M A) (f : A → M B) w a w' :
  m w = (Ok a, w') → (m ≫= f) w = f a w'.
Proof. intros H. unfold mbind, M_bind. by rewrite H. Qed.

Lemma bind_raise {A B} (m : M A) (f : A → M B) w e w' :
  m w = (Raise e, w') → (m ≫= f) w = (Raise e, w').
Proof. intros H. unfold mbind, M_bind. by rewrite H. Qed.

Lemma world_eta w :
  mkWorld (device w) (pin_level w) (wire w) (touched w) (debug1 w) (debug2 w) = w.
Proof. by destruct w. Qed.

(** ** Mutual exclusion of the two roles *)

Lemma do_op_roles_ok op w :
  roles_ok (device w) →
  ∃ b w', do_op op w = (Ok b, w') ∧ roles_ok (device w').
Proof.
  intros [Hex Hpin]. destruct w as [d lvl wr tch d1 d2]; cbn in *.
  destruct op; unfold do_op, enable_tx, disable_tx, enable_rx, disable_rx;
    run_m;
    destruct (tx_enabled d) eqn:Etx, (rx_enabled d) eqn:Erx; cbn;
    try (destruct Hex; by split);
    try (destruct (Hpin eq_refl) as [pin ->]; cbn);
    eexists _, _; (split; [reflexivity|]);
    unfold roles_ok; cbn; rewrite ?Etx, ?Erx;
    (split; [intros [? ?]; congruence | intros ?; eauto; congruence]).
Qed.

Lemma do_ops_roles_ok ops w :
  roles_ok (device w) →
  ∃ w', do_ops ops w = (Ok tt, w') ∧ roles_ok (device w').
Proof.
  revert w. induction ops as [|op ops IH]; intros w Hok.
  - exists w. by split.
  - destruct (do_op_roles_ok op w Hok) as (b & w1 & Hop & Hok1).
    destruct (IH w1 Hok1) as (w' & Hrun & Hok').
    exists w'. split; [|done].
    cbn [do_ops]. by rewrite (bind_ok _ _ _ _ _ Hop).
Qed.

Lemma RFDevice_fresh g pn pl r l tol d :
  RFDevice g pn pl r l tol = Ok d →
  tx_enabled d = false ∧ rx_enabled d = false
  ∧ _rx_timings d = replicate (Z.to_nat (MAX_CHANGES + 1)) 0
  ∧ _rx_change_count d = 0 ∧ _rx_last_timestamp d = 0
  ∧ _rx_repeat_count d = 0 ∧ rx_code d = None
  ∧ rx_proto d = pn ∧ tx_proto d = pn ∧ rx_tolerance d = tol
  ∧ tx_repeat d = r ∧ tx_length d = l.
Proof.
  unfold RFDevice. intros H.
  destruct pl as [pl|]; [destruct (negb (pl =? 0))|];
    try destruct (py_index PROTOCOLS pn) as [[p|]|]; try discriminate;
    injection H as <-; cbn; tauto.
Qed.

(** C9.  From a freshly constructed device, any sequence of enable_tx,
    disable_tx, enable_rx and disable_rx calls runs without an exception and
    never leaves tx_enabled and rx_enabled both true; enable_tx on a world
    whose receive role is enabled returns False and leaves the world as it
    was, and symmetrically for enable_rx. *)
Theorem roles_mutually_exclusive :
  (∀ g pn pl r l tol d ops,
     RFDevice g pn pl r l tol = Ok d →
     ∃ w', do_ops ops (world_of d) = (Ok tt, w')
           ∧ ¬ (tx_enabled (device w') = true ∧ rx_enabled (device w') = true))
  ∧ (∀ w, rx_enabled (device w) = true → enable_tx w = (Ok false, w))
  ∧ (∀ w, tx_enabled (device w) = true → enable_rx w = (Ok false, w)).
Proof.
  split; [|split].
  - intros g pn pl r l tol d ops Hd.
    destruct (RFDevice_fresh _ _ _ _ _ _ _ Hd) as (Htx & Hrx & _).
    destruct (do_ops_roles_ok ops (world_of d)) as (w' & Hrun & Hok & _).
    + split; cbn; [intros [? ?]|]; congruence.
    + eauto.
  - intros w H. unfold enable_tx. run_m. by rewrite H.
  - intros w H. unfold enable_rx. run_m. by rewrite H.
Qed.

Lemma roles_mutually_exclusive_witness :
  RFDevice 6 1 None 10 24 70 = Ok (new_device 6 1 350 10 24 70)
  ∧ (∃ w', do_ops [EnableTx; EnableRx; DisableTx; EnableRx; EnableTx]
             (world_of (new_device 6 1 350 10 24 70)) = (Ok tt, w')
           ∧ ¬ (tx_enabled (device w') = true ∧ rx_enabled (device w') = true))
  ∧ (let w := snd (enable_rx (world_of (new_device 6 1 350 10 24 70))) in
     rx_enabled (device w) = true ∧ enable_tx w = (Ok false, w)).
Proof.
  destruct roles_mutually_exclusive as (Hseq & Htx & Hrx).
  split; [reflexivity|]. split.
  - eapply (Hseq 6 1 None 10 24 70). reflexivity.
  - split; [reflexivity|]. apply Htx. reflexivity.
Defined.

(** ** The interval buffer *)

Lemma py_index_ok {A} (l : list A) i x :
  0 <= i → l !! Z.to_nat i = Some x → py_index l i = Ok x.
Proof.
  intros Hi Hx. unfold py_index.
  pose proof (lookup_lt_Some _ _ _ Hx) as Hlt.
  replace (i <? 0) with false by lia.
  replace ((0 <=? i) && (i <? Z.of_nat (length l))) with true by lia.
  by rewrite Hx.
Qed.

Lemma timings_get_ok w i :
  0 <= i < len (_rx_timings (device w)) →
  timings_get i w = (Ok (slot (device w) i), with_touched (touched w ++ [i]) w).
Proof.
  intros Hi. unfold timings_get, with_touched, slot, len in *.
  destruct (lookup_lt_is_Some_2 (_rx_timings (device w)) (Z.to_nat i))
    as [x Hx]; [lia|].
  rewrite (py_index_ok _ _ _ (proj1 Hi) Hx), Hx. done.
Qed.

Lemma timings_set_ok w i v :
  0 <= i < len (_rx_timings (device w)) →
  timings_set i v w =
    (Ok tt, with_touched (touched w ++ [i])
              (with_device
                 (set__rx_timings (<[Z.to_nat i := v]> (_rx_timings (device w)))
                    (device w)) w)).
Proof.
  intros Hi. unfold timings_set, py_setitem, len in *.
  replace (i <? 0) with false by lia.
  replace ((0 <=? i) && (i <? Z.of_nat (length (_rx_timings (device w)))))
    with true by lia.
  done.
Qed.

(** ** The frame decoder *)

Lemma shift_in_zero code : code ≪ 1 = 2 * code.
Proof. rewrite Z.shiftl_mul_pow2 by lia. lia. Qed.

Lemma shift_in_one code : Z.lor (code ≪ 1) 1 = 2 * code + 1.
Proof.
  rewrite shift_in_zero. apply Z.bits_inj'. intros n Hn.
  rewrite Z.lor_spec.
  destruct (Z.eq_dec n 0) as [->|Hne].
  - rewrite Z.testbit_odd_0, Z.testbit_even_0. done.
  - replace n with (Z.succ (n - 1)) by lia.
    rewrite Z.testbit_odd_succ, Z.testbit_even_succ by lia.
    pose proof (Z.testbit_succ_r 0 true (n - 1) ltac:(lia)) as H1.
    change (2 * 0 + Z.b2z true) with 1 in H1. rewrite H1, Z.testbit_0_l.
    by rewrite orb_false_r.
Qed.

Lemma with_touched_app t v w :
  with_touched (touched (with_touched t w) ++ v) (with_touched t w)
  = with_touched (t ++ v) w.
Proof. done. Qed.

Lemma device_with_touched t w : device (with_touched t w) = device w.
Proof. done. Qed.

Section Decoder.
Variables (p : Protocol) (delay : Z) (delay_tolerance : Q).

Lemma template_match_spec w high low i :
  0 <= i → i + 1 < len (_rx_timings (device w)) →
  ∃ visited,
    template_match delay delay_tolerance high low i w =
      (Ok (pair_matches (device w) delay delay_tolerance high low i),
       with_touched (touched w ++ visited) w)
    ∧ Forall (λ j, 0 <= j < len (_rx_timings (device w))) visited.
Proof.
  intros Hi0 Hi1. unfold template_match, pair_matches.
  rewrite (bind_ok _ _ _ _ _ (timings_get_ok w i ltac:(lia))).
  destruct (within (slot (device w) i) (delay * high) delay_tolerance).
  - rewrite (bind_ok _ _ _ _ _
      (timings_get_ok (with_touched (touched w ++ [i]) w) (i + 1)
         ltac:(cbn; lia))).
    exists [i; i + 1]. cbn. rewrite <- app_assoc. split; [done|].
    repeat constructor; lia.
  - exists [i]. split; [done|]. repeat constructor; lia.
Qed.

(** The loop reads only the slots of its pairs, changes nothing but the
    ghost log, and computes the bits of [pair_bit]. *)
Lemma decode_pairs_spec idx : ∀ code w,
  Forall (λ i, 0 <= i ∧ i + 1 < len (_rx_timings (device w))) idx →
  ∃ visited,
    decode_pairs p delay delay_tolerance idx code w =
      (Ok (push_bits code <$>
             mapM (pair_bit (device w) p delay delay_tolerance) idx),
       with_touched (touched w ++ visited) w)
    ∧ Forall (λ j, 0 <= j < len (_rx_timings (device w))) visited.
Proof.
  induction idx as [|i rest IH]; intros code w Hidx.
  - exists []. rewrite app_nil_r. split; [|done].
    cbn. unfold mret, M_ret. f_equal. by destruct w.
  - inversion_clear Hidx as [|? ? [Hi0 Hi1] Hrest].
    cbn [decode_pairs mapM].
    destruct (template_match_spec w (zero_high p) (zero_low p) i Hi0 Hi1)
      as (v0 & E0 & Hv0).
    rewrite (bind_ok _ _ _ _ _ E0).
    destruct (pair_matches (device w) delay delay_tolerance
                (zero_high p) (zero_low p) i) eqn:Ez.
    + assert (pair_bit (device w) p delay delay_tolerance i = Some false)
        as -> by (unfold pair_bit; by rewrite Ez).
      destruct (IH (code ≪ 1) (with_touched (touched w ++ v0) w) Hrest)
        as (v & -> & Hv).
      exists (v0 ++ v). cbn [device with_touched touched].
      rewrite <- app_assoc. split; [|by apply Forall_app].
      f_equal. rewrite shift_in_zero.
      destruct (mapM _ rest); cbn; [|done].
      unfold push_bits. cbn. by rewrite Z.add_0_r.
    + destruct (template_match_spec (with_touched (touched w ++ v0) w)
                  (one_high p) (one_low p) i Hi0 Hi1) as (v1 & E1 & Hv1).
      rewrite (bind_ok _ _ _ _ _ E1), with_touched_app, device_with_touched in *.
      destruct (pair_matches (device w) delay delay_tolerance
                  (one_high p) (one_low p) i) eqn:Eo.
      * assert (pair_bit (device w) p delay delay_tolerance i = Some true)
          as -> by (unfold pair_bit; by rewrite Ez, Eo).
        destruct (IH (Z.lor (code ≪ 1) 1)
                    (with_touched ((touched w ++ v0) ++ v1) w) Hrest)
          as (v & -> & Hv).
        exists (v0 ++ v1 ++ v). cbn [device with_touched touched].
        rewrite <- !app_assoc. split; [|by repeat apply Forall_app_2].
        f_equal. rewrite shift_in_one.
        destruct (mapM _ rest); cbn; done.
      * assert (pair_bit (device w) p delay delay_tolerance i = None)
          as -> by (unfold pair_bit; by rewrite Ez, Eo).
        exists (v0 ++ v1). rewrite <- app_assoc.
        split; [done|]. by apply Forall_app.
Qed.
End Decoder.
(** Every entry of the protocol table has positive multipliers. *)
Lemma table_entry pnum p :
  py_index PROTOCOLS pnum = Ok (Some p) →
  0 < pulselength p ∧ 0 < sync_high p ∧ 0 < sync_low p ∧ 0 < zero_high p
  ∧ 0 < zero_low p ∧ 0 < one_high p ∧ 0 < one_low p.
Proof.
  unfold py_index. cbn [length PROTOCOLS].
  destruct (_ && _); [|discriminate].
  destruct (Z.to_nat _) as [|[|[|[|[|[|[|k]]]]]]]; cbn;
    intros [= <-] || discriminate; cbn; lia.
Qed.

Lemma protocol_ok pnum p w :
  py_index PROTOCOLS pnum = Ok (Some p) → protocol pnum w = (Ok p, w).
Proof. intros H. unfold protocol. run_m. by rewrite H. Qed.

Lemma py_range_bounds start stop step i :
  0 < step → i ∈ py_range start stop step → start <= i < stop.
Proof.
  intros Hstep. unfold py_range. rewrite list_elem_of_fmap.
  intros (k & -> & Hk). apply elem_of_seq in Hk.
  pose proof (Z.mul_div_le (stop - start + step - 1) step Hstep).
  assert (Z.of_nat k < (stop - start + step - 1) `div` step) by lia.
  nia.
Qed.

(** The decoder on a valid protocol and a count within the buffer: it never
    raises, reads only slots of the buffer, and writes the mailbox exactly
    when the frame is accepted. *)
Lemma rx_waveform_spec pnum p n timestamp w :
  py_index PROTOCOLS pnum = Ok (Some p) →
  0 < len (_rx_timings (device w)) → n < len (_rx_timings (device w)) →
  ∃ visited,
    _rx_waveform pnum n timestamp w =
      (Ok (match accepted (device w) p n with Some _ => true | None => false end),
       with_touched (touched w ++ visited)
         (with_device (publish (accepted (device w) p n) timestamp (device w)) w))
    ∧ Forall (λ j, 0 <= j < len (_rx_timings (device w))) visited
    ∧ head visited = Some 0.
Proof.
  intros Hp Hlen Hn. unfold _rx_waveform.
  rewrite (bind_ok _ _ _ _ _ (timings_get_ok w 0 ltac:(lia))).
  rewrite (bind_ok _ _ _ _ _ (protocol_ok _ _ _ Hp)).
  destruct (table_entry _ _ Hp) as (_ & _ & Hsl & _).
  unfold py_int_div. replace (sync_low p =? 0) with false by lia.
  run_m.
  set (w0 := with_touched (touched w ++ [0]) w).
  destruct (decode_pairs_spec p (slot (device w) 0 ÷ sync_low p)
              (inject_Z (slot (device w) 0 ÷ sync_low p * rx_tolerance (device w)) / 100)%Q
              (py_range 1 n 2) 0 w0) as (v & E & Hv).
  { apply Forall_forall. intros i Hi.
    apply list_elem_of_In, py_range_bounds in Hi; [|lia]. cbn. lia. }
  fold w0. rewrite E. cbn [device w0 with_touched].
  unfold accepted, frame_bits, frame_delay, frame_tolerance.
  destruct (mapM _ _) as [bs|]; cbn.
  - change (push_bits 0 bs) with (bits_value bs).
    destruct ((_rx_change_count (device w) >? 6) && negb (bits_value bs =? 0));
      cbn; exists (0 :: v); rewrite <- app_assoc;
      (split; [done | split; [constructor; [lia | exact Hv] | done]]).
  - exists (0 :: v). rewrite <- app_assoc.
    split; [|split; [constructor; [lia | exact Hv] | done]].
    unfold with_touched, with_device. cbn. done.
Qed.
(** ** The edge handler, case by case *)

Lemma rx_callback_noise timestamp w :
  timestamp - _rx_last_timestamp (device w) <= THRESHOLD_TICK →
  rx_callback timestamp w =
    (Ok tt, with_device (set__rx_last_timestamp timestamp (device w)) w).
Proof.
  intros H. unfold rx_callback. run_m.
  replace (_ >? THRESHOLD_TICK) with false by lia. done.
Qed.

Lemma rx_callback_data timestamp w :
  let d := device w in
  let duration := timestamp - _rx_last_timestamp d in
  THRESHOLD_TICK < duration <= THRESHOLD_SYNC →
  0 <= _rx_change_count d < MAX_CHANGES →
  _rx_change_count d < len (_rx_timings d) →
  rx_callback timestamp w =
    (Ok tt,
     mkWorld
       (set__rx_last_timestamp timestamp
          (set__rx_change_count (_rx_change_count d + 1)
             (set__rx_timings
                (<[Z.to_nat (_rx_change_count d) := duration]> (_rx_timings d))
                d)))
       (pin_level w) (wire w) (touched w ++ [_rx_change_count d])
       (negb (debug1 w)) (debug2 w)).
Proof.
  intros d duration Hdur Hcc Hlen. subst d duration.
  unfold rx_callback. run_m.
  replace (_ >? THRESHOLD_TICK) with true by lia.
  replace (_ >? THRESHOLD_SYNC) with false by lia.
  cbn.
  replace (_ >=? MAX_CHANGES) with false by lia.
  cbn. rewrite timings_set_ok by (cbn; lia). done.
Qed.

Lemma rx_callback_overflow timestamp w :
  let d := device w in
  let duration := timestamp - _rx_last_timestamp d in
  THRESHOLD_TICK < duration <= THRESHOLD_SYNC →
  MAX_CHANGES <= _rx_change_count d →
  0 < len (_rx_timings d) →
  rx_callback timestamp w =
    (Ok tt,
     mkWorld
       (set__rx_last_timestamp timestamp
          (set__rx_change_count 1
             (set__rx_timings (<[0%nat := duration]> (_rx_timings d))
                (set__rx_repeat_count 0 d))))
       (pin_level w) (wire w) (touched w ++ [0])
       (negb (debug1 w)) (debug2 w)).
Proof.
  intros d duration Hdur Hcc Hlen. subst d duration.
  unfold rx_callback. run_m.
  replace (_ >? THRESHOLD_TICK) with true by lia.
  replace (_ >? THRESHOLD_SYNC) with false by lia.
  cbn.
  replace (_ >=? MAX_CHANGES) with true by lia.
  cbn. rewrite timings_set_ok by (cbn; lia). done.
Qed.

(** A sync edge: the counters are adjusted, the decoder runs when more than
    one interval is buffered, and then the sync interval itself opens the
    next frame in slot 0. *)
Lemma rx_callback_sync timestamp p w :
  let d := device w in
  let duration := timestamp - _rx_last_timestamp d in
  let d1 := set__rx_change_count (_rx_change_count d - 1)
              (set__rx_repeat_count (_rx_repeat_count d + 1) d) in
  THRESHOLD_SYNC < duration →
  (1 < _rx_change_count d - 1 → py_index PROTOCOLS (rx_proto d) = Ok (Some p)) →
  0 < len (_rx_timings d) →
  _rx_change_count d <= len (_rx_timings d) →
  ∃ visited,
    rx_callback timestamp w =
      (Ok tt,
       mkWorld
         (set__rx_last_timestamp timestamp
            (set__rx_change_count 1
               (set__rx_timings (<[0%nat := duration]> (_rx_timings d))
                  (publish
                     (if _rx_change_count d - 1 >? 1
                      then accepted d1 p (_rx_change_count d - 1) else None)
                     timestamp d1))))
         (pin_level w) (wire w) (touched w ++ visited ++ [0])
         (negb (debug1 w)) (negb (debug2 w)))
    ∧ Forall (λ j, 0 <= j < len (_rx_timings d)) visited
    ∧ (visited ≠ [] ↔ 1 < _rx_change_count d - 1).
Proof.
  intros d duration d1 Hdur Hp Hlen Hcc. subst d duration.
  unfold rx_callback. run_m.
  replace (_ >? THRESHOLD_TICK) with true by (unfold THRESHOLD_SYNC, THRESHOLD_TICK in *; lia).
  replace (_ >? THRESHOLD_SYNC) with true by lia.
  cbn. fold d1.
  destruct (_rx_change_count (device w) - 1 >? 1) eqn:Hgt.
  - set (w1 := mkWorld d1 _ _ _ _ _).
    destruct (rx_waveform_spec (rx_proto (device w)) p
                (_rx_change_count (device w) - 1) timestamp w1)
      as (v & E & Hv & Hhd); [apply Hp; lia | cbn; lia | cbn; lia |].
    rewrite E. cbn. 
    replace (0 >=? MAX_CHANGES) with false by done. cbn.
    rewrite timings_set_ok by (cbn; destruct (accepted _ _ _); cbn; lia).
    exists v. split; [|split; [exact Hv|]].
    + cbn. rewrite <- app_assoc. destruct (accepted _ _ _); done.
    + split; [lia|]. intros _ ->. discriminate Hhd.
  - cbn. replace (0 >=? MAX_CHANGES) with false by done. cbn.
    rewrite timings_set_ok by (cbn; lia).
    exists []. split; [done|]. split; [constructor|]. split; [done|lia].
Qed.

Lemma rx_waveform_invalid pnum n timestamp w :
  0 < len (_rx_timings (device w)) →
  (∀ p, py_index PROTOCOLS pnum ≠ Ok (Some p)) →
  ∃ e, _rx_waveform pnum n timestamp w =
         (Raise e, with_touched (touched w ++ [0]) w).
Proof.
  intros Hlen Hp. unfold _rx_waveform.
  rewrite (bind_ok _ _ _ _ _ (timings_get_ok w 0 ltac:(lia))).
  unfold protocol. run_m.
  destruct (py_index PROTOCOLS pnum) as [[p|]|e]; cbn.
  - by destruct (Hp p).
  - by eexists.
  - by eexists.
Qed.

Lemma rx_callback_sync_raise timestamp w :
  let d := device w in
  let duration := timestamp - _rx_last_timestamp d in
  THRESHOLD_SYNC < duration →
  1 < _rx_change_count d - 1 →
  (∀ p, py_index PROTOCOLS (rx_proto d) ≠ Ok (Some p)) →
  0 < len (_rx_timings d) →
  ∃ e,
    rx_callback timestamp w =
      (Raise e,
       mkWorld
         (set__rx_change_count (_rx_change_count d - 1)
            (set__rx_repeat_count (_rx_repeat_count d + 1) d))
         (pin_level w) (wire w) (touched w ++ [0])
         (negb (debug1 w)) (negb (debug2 w))).
Proof.
  intros d duration Hdur Hcc Hp Hlen. subst d duration.
  unfold rx_callback. run_m.
  replace (_ >? THRESHOLD_TICK) with true by (unfold THRESHOLD_SYNC, THRESHOLD_TICK in *; lia).
  replace (_ >? THRESHOLD_SYNC) with true by lia.
  cbn.
  replace (_ - 1 >? 1) with true by lia.
  set (w1 := mkWorld _ _ _ _ _ _).
  destruct (rx_waveform_invalid (rx_proto (device w))
              (_rx_change_count (device w) - 1) timestamp w1)
    as (e & E); [cbn; lia | done |].
  rewrite E. cbn. by exists e.
Qed.

(** One invocation keeps the buffer at its 68 slots, keeps [change_count]
    within it, and uses only indices of the buffer, whatever its outcome. *)
Lemma rx_callback_in_bounds timestamp w :
  buffer_ok (device w) → Forall in_buffer (touched w) →
  buffer_ok (device (snd (rx_callback timestamp w)))
  ∧ Forall in_buffer (touched (snd (rx_callback timestamp w))).
Proof.
  intros [Hlen Hcc] Htch. unfold MAX_CHANGES in *.
  assert (Hl : len (_rx_timings (device w)) = 68) by (unfold len; lia).
  destruct (Z.le_gt_cases (timestamp - _rx_last_timestamp (device w))
              THRESHOLD_TICK) as [Hn|Hn].
  { rewrite rx_callback_noise by done. split; [by split|done]. }
  destruct (Z.le_gt_cases (timestamp - _rx_last_timestamp (device w))
              THRESHOLD_SYNC) as [Hs|Hs].
  - destruct (Z.lt_ge_cases (_rx_change_count (device w)) MAX_CHANGES)
      as [Ho|Ho]; unfold MAX_CHANGES in *.
    + rewrite rx_callback_data by (unfold MAX_CHANGES; lia). cbn. split.
      * split; cbn; [by rewrite length_insert | unfold MAX_CHANGES; lia].
      * apply Forall_app. split; [done|].
        repeat constructor; unfold in_buffer, MAX_CHANGES; lia.
    + rewrite rx_callback_overflow by (unfold MAX_CHANGES; lia). cbn. split.
      * split; cbn; [by rewrite length_insert | unfold MAX_CHANGES; lia].
      * apply Forall_app. split; [done|].
        repeat constructor; unfold in_buffer, MAX_CHANGES; lia.
  - assert (Hin : ∀ v, Forall (λ j, 0 <= j < len (_rx_timings (device w))) v →
                       Forall in_buffer v).
    { intros v. apply Forall_impl. intros j. unfold in_buffer, MAX_CHANGES. lia. }
    destruct (Z.le_gt_cases (_rx_change_count (device w) - 1) 1) as [Hc|Hc].
    + destruct (rx_callback_sync timestamp (mkProtocol 0 0 0 0 0 0 0) w)
        as (v & -> & Hv & _); [lia.. |].
      cbn. replace (_ - 1 >? 1) with false by lia. cbn. split.
      * split; cbn; [by rewrite length_insert | unfold MAX_CHANGES; lia].
      * rewrite !Forall_app. split; [done|]. split; [by apply Hin|].
        repeat constructor; unfold in_buffer, MAX_CHANGES; lia.
    + destruct (py_index PROTOCOLS (rx_proto (device w))) as [[p|]|e] eqn:Ep.
      * destruct (rx_callback_sync timestamp p w)
          as (v & -> & Hv & _); [lia | done | lia..|].
        cbn. replace (_ - 1 >? 1) with true by lia. split.
        -- split; destruct (accepted _ _ _); cbn;
             rewrite ?length_insert; unfold MAX_CHANGES; done || lia.
        -- rewrite !Forall_app. split; [done|]. split; [by apply Hin|].
           repeat constructor; unfold in_buffer, MAX_CHANGES; lia.
      * destruct (rx_callback_sync_raise timestamp w) as (e & ->);
          [lia | lia | by rewrite Ep | lia |].
        cbn. split; [split; cbn; unfold MAX_CHANGES; lia|].
        apply Forall_app. split; [done|].
        repeat constructor; unfold in_buffer, MAX_CHANGES; lia.
      * destruct (rx_callback_sync_raise timestamp w) as (e' & ->);
          [lia | lia | by rewrite Ep | lia |].
        cbn. split; [split; cbn; unfold MAX_CHANGES; lia|].
        apply Forall_app. split; [done|].
        repeat constructor; unfold in_buffer, MAX_CHANGES; lia.
Qed.

Lemma irq_run_in_bounds timestamps : ∀ w,
  buffer_ok (device w) → Forall in_buffer (touched w) →
  buffer_ok (device (irq_run timestamps w))
  ∧ Forall in_buffer (touched (irq_run timestamps w)).
Proof.
  induction timestamps as [|t rest IH]; intros w Hok Htch; [done|].
  cbn. destruct (rx_callback_in_bounds t w Hok Htch) as [Hok' Htch'].
  by apply IH.
Qed.
(** ** Noise edges *)

(** C3, as stated, fails: a noise edge moves [_rx_last_timestamp].  On a
    fresh device (last timestamp 0) an edge at 100 microseconds is noise,
    and afterwards the last timestamp is 100. *)
Lemma noise_edge_moves_last_timestamp :
  let w := world_of (new_device 6 1 350 10 24 70) in
  let w' := snd (rx_callback 100 w) in
  100 - _rx_last_timestamp (device w) <= THRESHOLD_TICK
  ∧ ¬ (_rx_change_count (device w') = _rx_change_count (device w)
       ∧ _rx_timings (device w') = _rx_timings (device w)
       ∧ _rx_last_timestamp (device w') = _rx_last_timestamp (device w)).
Proof. cbn. split; [done|]. intros (_ & _ & H). discriminate H. Qed.

(** C3, amended.  An edge whose interval is at most 300 microseconds
    returns normally and changes one thing only: [_rx_last_timestamp]
    becomes the timestamp of the edge.  [change_count], every slot of the
    buffer, the repeat counter and the mailbox stay as they were, and no
    slot of the buffer is read or written. *)
Theorem noise_edge_only_moves_timestamp timestamp w :
  timestamp - _rx_last_timestamp (device w) <= THRESHOLD_TICK →
  ∃ w',
    rx_callback timestamp w = (Ok tt, w')
    ∧ device w' = set__rx_last_timestamp timestamp (device w)
    ∧ _rx_change_count (device w') = _rx_change_count (device w)
    ∧ _rx_timings (device w') = _rx_timings (device w)
    ∧ _rx_repeat_count (device w') = _rx_repeat_count (device w)
    ∧ rx_code (device w') = rx_code (device w)
    ∧ _rx_last_timestamp (device w') = timestamp
    ∧ touched w' = touched w.
Proof.
  intros H. eexists. split; [by apply rx_callback_noise|]. done.
Qed.

Lemma noise_edge_only_moves_timestamp_witness :
  ∃ w',
    rx_callback 1300 (snd (rx_callback 1050 (world_of (new_device 6 1 350 10 24 70))))
      = (Ok tt, w')
    ∧ _rx_change_count (device w') = 1
    ∧ _rx_timings (device w') !! 0%nat = Some 1050
    ∧ _rx_last_timestamp (device w') = 1300.
Proof.
  destruct (noise_edge_only_moves_timestamp 1300
              (snd (rx_callback 1050 (world_of (new_device 6 1 350 10 24 70)))))
    as (w' & E & _ & Hcc & Ht & _ & _ & Hts & _).
  - vm_compute. discriminate.
  - exists w'. rewrite Hcc, Ht, Hts. split; [exact E|]. by vm_compute.
Defined.

(** ** The tolerance window *)

Lemma within_spec t e m :
  within t e (inject_Z m / 100)%Q = true ↔ 100 * Z.abs (t - e) < m.
Proof.
  unfold within, Qltb, Qle_bool. cbn.
  rewrite negb_true_iff, Z.leb_gt. lia.
Qed.







(** ** Sync edges *)



(** ** Bounds of the interval buffer *)

(** C6.  From a freshly constructed device, after any sequence of handler
    invocations, every index that was used to read or write the interval
    buffer lies within its 68 slots, the buffer still has 68 slots and
    [change_count] points into it.  When a data interval arrives with
    [change_count >= MAX_CHANGES], the handler continues from a state in
    which [change_count] and [repeat_count] are both 0: it writes the
    interval at index 0, not out of bounds, and returns with [repeat_count]
    0 and the buffer restarted ([change_count] counts the one interval just
    stored). *)
Theorem buffer_indices_in_bounds :
  (∀ g pn pl r l tol d timestamps,
     RFDevice g pn pl r l tol = Ok d →
     let w' := irq_run timestamps (world_of d) in
     Forall in_buffer (touched w')
     ∧ length (_rx_timings (device w')) = 68%nat
     ∧ 0 <= _rx_change_count (device w') <= MAX_CHANGES)
  ∧ (∀ timestamp w,
       let d := device w in
       let duration := timestamp - _rx_last_timestamp d in
       let reset :=
         mkWorld (set__rx_repeat_count 0 (set__rx_change_count 0 d))
           (pin_level w) (wire w) (touched w) (negb (debug1 w)) (debug2 w) in
       buffer_ok d →
       THRESHOLD_TICK < duration <= THRESHOLD_SYNC →
       MAX_CHANGES <= _rx_change_count d →
       rx_callback timestamp w =
         (timings_set (_rx_change_count (device reset)) duration;;
          assign (λ d, set__rx_change_count (_rx_change_count d + 1) d);;
          assign (set__rx_last_timestamp timestamp)) reset
       ∧ ∃ w',
           rx_callback timestamp w = (Ok tt, w')
           ∧ touched w' = touched w ++ [0]
           ∧ _rx_repeat_count (device w') = 0
           ∧ _rx_change_count (device w') = 0 + 1
           ∧ _rx_timings (device w') = <[0%nat := duration]> (_rx_timings d)).
Proof.
  split.
  - intros g pn pl r l tol d timestamps Hd w'.
    destruct (RFDevice_fresh _ _ _ _ _ _ _ Hd)
      as (_ & _ & Ht & Hcc & _).
    destruct (irq_run_in_bounds timestamps (world_of d)) as [[Hlen Hc] Htch].
    + split; cbn; [by rewrite Ht, length_replicate | rewrite Hcc; done].
    + constructor.
    + done.
  - intros timestamp w d duration reset [Hlen Hcc] Hdur Hov.
    assert (Hl : 0 < len (_rx_timings (device w)))
      by (unfold len; fold d; unfold MAX_CHANGES in Hlen; lia).
    rewrite (rx_callback_overflow timestamp w Hdur Hov Hl).
    split.
    + unfold reset. run_m.
      rewrite timings_set_ok by (cbn; unfold len in *; lia). done.
    + eexists. split; [done|]. done.
Qed.

Lemma buffer_indices_in_bounds_witness :
  (let w' := irq_run [1000; 2000; 30000; 31000; 32000; 33000; 60000]
               (world_of (new_device 6 1 350 10 24 70)) in
   Forall in_buffer (touched w'))
  ∧ (let w := world_of (set__rx_change_count 67 (new_device 6 1 350 10 24 70)) in
     ∃ w', rx_callback 1000 w = (Ok tt, w')
           ∧ touched w' = [0]
           ∧ _rx_repeat_count (device w') = 0
           ∧ _rx_change_count (device w') = 1).
Proof.
  destruct buffer_indices_in_bounds as [Hseq Hov]. split.
  - intros w'. eapply (Hseq 6 1 None 10 24 70). reflexivity.
  - intros w.
    destruct (Hov 1000 w) as (_ & w' & E & Ht & Hrc & Hcc & _).
    + split; [reflexivity|]. vm_compute. split; discriminate.
    + vm_compute. split; [reflexivity | discriminate].
    + vm_compute. discriminate.
    + exists w'. rewrite Ht, Hrc, Hcc. done.
Defined.

(** ** The decoder is all-or-nothing *)



(** ** The transmitter *)

Lemma py_range_0_1 n : py_range 0 n 1 = Z.of_nat <$> seq 0 (Z.to_nat n).
Proof.
  unfold py_range. replace (n - 0 + 1 - 1) with n by lia.
  rewrite Z.div_1_r. apply list_fmap_ext. intros _ k _. lia.
Qed.

Lemma py_index_nat {A} (l : list A) (k : nat) x :
  l !! k = Some x → py_index l (Z.of_nat k) = Ok x.
Proof. intros H. apply py_index_ok; [lia|]. by rewrite Nat2Z.id. Qed.

Lemma py_index_past_end {A} (l : list A) (k : nat) :
  (length l <= k)%nat → py_index l (Z.of_nat k) = Raise IndexError.
Proof.
  intros H. unfold py_index.
  replace (Z.of_nat k <? 0) with false by lia.
  replace ((0 <=? Z.of_nat k) && (Z.of_nat k <? Z.of_nat (length l)))
    with false by lia.
  done.
Qed.

Lemma sent_sent ps qs l1 l2 w :
  sent qs l2 (sent ps l1 w) = sent (ps ++ qs) l2 w.
Proof. unfold sent. cbn. by rewrite app_assoc. Qed.

Section Transmit.
Variables (d : Device) (p : Protocol).
Hypothesis Henabled : tx_enabled d = true.
Hypothesis Hpin : is_Some (tx_pin d).
Hypothesis Hproto : 0 < tx_proto d < len PROTOCOLS.
Hypothesis Hp : py_index PROTOCOLS (tx_proto d) = Ok (Some p).

Lemma tx_waveform_ok high low w :
  device w = d →
  tx_waveform high low w = (Ok true, sent (pulses d high low) false w).
Proof.
  intros <-. destruct Hpin as [pin Hpin'].
  unfold tx_waveform, pin_write, _sleep. run_m.
  rewrite Henabled. cbn. rewrite Hpin'. cbn. rewrite Hpin'.
  unfold sent, pulses. cbn. by rewrite <- app_assoc.
Qed.

Lemma tx_l0_ok w :
  device w = d →
  tx_l0 w = (Ok true, sent (pulses d (zero_high p) (zero_low p)) false w).
Proof.
  intros Hw. unfold tx_l0. run_m. rewrite Hw.
  replace ((0 <? tx_proto d) && (tx_proto d <? len PROTOCOLS)) with true by lia.
  cbn. rewrite (protocol_ok _ _ _ Hp).
  by apply tx_waveform_ok.
Qed.

Lemma tx_l1_ok w :
  device w = d →
  tx_l1 w = (Ok true, sent (pulses d (one_high p) (one_low p)) false w).
Proof.
  intros Hw. unfold tx_l1. run_m. rewrite Hw.
  replace ((0 <? tx_proto d) && (tx_proto d <? len PROTOCOLS)) with true by lia.
  cbn. rewrite (protocol_ok _ _ _ Hp).
  by apply tx_waveform_ok.
Qed.

Lemma tx_sync_ok w :
  device w = d →
  tx_sync w = (Ok true, sent (sync_pulses d p) false w).
Proof.
  intros Hw. unfold tx_sync. run_m. rewrite Hw.
  replace ((0 <? tx_proto d) && (tx_proto d <? len PROTOCOLS)) with true by lia.
  cbn. rewrite (protocol_ok _ _ _ Hp).
  by apply tx_waveform_ok.
Qed.

Lemma send_bit_ok rawcode (k : nat) c w :
  device w = d → rawcode !! k = Some c →
  send_bit rawcode (Z.of_nat k) w = (Ok true, sent (bit_pulses d p c) false w).
Proof.
  intros Hw Hc. unfold send_bit, lift. 
  rewrite (bind_ok _ _ w c w) by (by rewrite (py_index_nat _ _ _ Hc)).
  unfold bit_pulses.
  destruct (Ascii.eqb c "0"); [by apply tx_l0_ok | by apply tx_l1_ok].
Qed.

(** The inner loop sends the waveforms of the symbols it ranges over. *)
Lemma send_bits_ok rawcode n : ∀ s w,
  device w = d → (s + n <= length rawcode)%nat →
  ∃ level,
    for_each (Z.of_nat <$> seq s n) (send_bit rawcode) w =
      (Ok true,
       sent (concat (bit_pulses d p <$> take n (drop s rawcode))) level w).
Proof.
  induction n as [|n IH]; intros s w Hw Hlen.
  - exists (pin_level w). cbn. unfold sent, mret, M_ret.
    rewrite app_nil_r. by destruct w.
  - destruct (lookup_lt_is_Some_2 rawcode s) as [c Hc]; [lia|].
    cbn [seq fmap list_fmap for_each].
    rewrite (bind_ok _ _ _ _ _ (send_bit_ok rawcode s c w Hw Hc)). cbn [negb].
    destruct (IH (S s) (sent (bit_pulses d p c) false w)) as [level ->];
      [done | lia |].
    exists level. rewrite sent_sent. do 2 f_equal.
    rewrite (drop_S _ _ _ Hc). done.
Qed.

Lemma for_each_sent {X} (xs : list X) (body : X → M bool) ps :
  (∀ x w, device w = d → body x w = (Ok true, sent ps false w)) →
  ∀ w, device w = d →
  ∃ level,
    for_each xs body w =
      (Ok true, sent (concat (replicate (length xs) ps)) level w).
Proof.
  intros Hbody. induction xs as [|x xs IH]; intros w Hw.
  - exists (pin_level w). cbn. unfold sent, mret, M_ret.
    rewrite app_nil_r. by destruct w.
  - cbn [for_each]. rewrite (bind_ok _ _ _ _ _ (Hbody x w Hw)). cbn [negb].
    destruct (IH (sent ps false w) Hw) as [level ->].
    exists level. by rewrite sent_sent.
Qed.

(** [tx_bin] sends [tx_repeat] frames of the first [tx_length] symbols
    of its argument, when it has that many. *)
Lemma tx_bin_ok rawcode w :
  device w = d → tx_length d <= len rawcode →
  ∃ level,
    tx_bin rawcode w =
      (Ok true,
       sent (transmission d p (take (Z.to_nat (tx_length d)) rawcode)) level w).
Proof.
  intros Hw Hlen. unfold tx_bin.
  rewrite (bind_ok _ _ w (device w) w) by done. rewrite Hw.
  unfold transmission.
  replace (Z.to_nat (tx_repeat d))
    with (length (py_range 0 (tx_repeat d) 1))
    by (by rewrite py_range_0_1, length_fmap, length_seq).
  apply for_each_sent; [|done].
  clear w Hw. intros _ w Hw.
  rewrite (bind_ok _ _ w (device w) w) by done. rewrite Hw.
  destruct (send_bits_ok rawcode (Z.to_nat (tx_length d)) 0
              (sent (if tx_proto d =? 6 then sync_pulses d p else []) 
                 (if tx_proto d =? 6 then false else pin_level w) w))
    as [level Hbits]; [done | unfold len in Hlen; lia |].
  rewrite drop_0, <- py_range_0_1 in Hbits.
  assert (Hpre :
    (if tx_proto d =? 6 then tx_sync else mret true) w =
    (Ok true, sent (if tx_proto d =? 6 then sync_pulses d p else [])
                (if tx_proto d =? 6 then false else pin_level w) w)).
  { destruct (tx_proto d =? 6); [by apply tx_sync_ok|].
    unfold sent, mret, M_ret. rewrite app_nil_r. by destruct w. }
  rewrite (bind_ok _ _ _ _ _ Hpre). cbn [negb].
  rewrite (bind_ok _ _ _ (device w) _) by done. rewrite Hw.
  rewrite (bind_ok _ _ _ _ _ Hbits). cbn [negb].
  rewrite tx_sync_ok by done.
  rewrite !sent_sent. done.
Qed.
End Transmit.
(** Dropping low-order bits of a number keeps the leading digits. *)
Lemma pos_digits_shiftr q : ∀ k,
  (k < length (pos_digits q))%nat →
  drop 2 (bin (Zpos q ≫ Z.of_nat k))
  = take (length (pos_digits q) - k) (pos_digits q).
Proof.
  induction q as [q IH|q IH|]; intros k Hk; cbn [pos_digits] in *.
  - destruct k as [|k].
    + rewrite Z.shiftr_0_r, Nat.sub_0_r, firstn_all. done.
    + rewrite length_app in *. cbn [length] in *.
      replace (Z.of_nat (S k)) with (1 + Z.of_nat k) by lia.
      rewrite <- Z.shiftr_shiftr by lia.
      change (Z.pos q~1 ≫ 1) with (Z.pos q).
      rewrite IH by lia. rewrite take_app_le by lia. f_equal. lia.
  - destruct k as [|k].
    + rewrite Z.shiftr_0_r, Nat.sub_0_r, firstn_all. done.
    + rewrite length_app in *. cbn [length] in *.
      replace (Z.of_nat (S k)) with (1 + Z.of_nat k) by lia.
      rewrite <- Z.shiftr_shiftr by lia.
      change (Z.pos q~0 ≫ 1) with (Z.pos q).
      rewrite IH by lia. rewrite take_app_le by lia. f_equal. lia.
  - cbn in Hk. replace k with 0%nat by lia. done.
Qed.

Lemma length_rawcode l code :
  l <= len (py_str_mul "0" (l + 0 - len (drop 2 (bin code))) ++ drop 2 (bin code)).
Proof.
  unfold len, py_str_mul. rewrite length_app, length_replicate. lia.
Qed.

(** [tx_code] on a protocol other than 6. *)
Lemma tx_code_ok d p code w :
  tx_enabled d = true → is_Some (tx_pin d) →
  0 < tx_proto d < len PROTOCOLS → tx_proto d ≠ 6 →
  py_index PROTOCOLS (tx_proto d) = Ok (Some p) →
  device w = d →
  let rawcode :=
    py_str_mul "0" (tx_length d + 0 - len (drop 2 (bin code)))
      ++ drop 2 (bin code) in
  ∃ level,
    tx_code code w =
      (Ok true,
       sent (transmission d p (take (Z.to_nat (tx_length d)) rawcode)) level w).
Proof.
  intros Hen Hpin Hproto H6 Hp Hw rawcode. unfold tx_code.
  rewrite (bind_ok _ _ w (device w) w) by done. rewrite Hw.
  replace (tx_proto d =? 6) with false by lia.
  rewrite (bind_ok _ _ w rawcode w) by done.
  apply tx_bin_ok; try done. apply length_rawcode.
Qed.

(** ** Codes wider than the frame *)

(** C10.  On an enabled transmitter with a protocol id in 1..5, a
    non-negative code whose binary representation has more digits than
    [tx_length] is not rejected: [tx_code] returns True, leaves the device
    as it was, and sends [tx_repeat] frames whose bits are the first
    [tx_length] digits of the representation, which are the digits of the
    code shifted right by the number of digits dropped. *)
Theorem overwide_code_is_truncated d p code w :
  let digits := drop 2 (bin code) in
  let dropped := len digits - tx_length d in
  device w = d →
  tx_enabled d = true → is_Some (tx_pin d) →
  1 <= tx_proto d <= 5 →
  py_index PROTOCOLS (tx_proto d) = Ok (Some p) →
  0 <= code → 0 <= tx_length d < len digits →
  ∃ w',
    tx_code code w = (Ok true, w')
    ∧ device w' = d
    ∧ wire w' = wire w
               ++ transmission d p (take (Z.to_nat (tx_length d)) digits)
    ∧ length (take (Z.to_nat (tx_length d)) digits) = Z.to_nat (tx_length d)
    ∧ (0 < tx_length d →
       take (Z.to_nat (tx_length d)) digits = drop 2 (bin (code ≫ dropped))).
Proof.
  intros digits dropped Hw Hen Hpin Hproto Hp Hcode Hlen.
  destruct (tx_code_ok d p code w) as [level E]; try done.
  { unfold len. cbn. lia. }
  { lia. }
  rewrite E. eexists. split; [done|]. cbn. split; [done|].
  assert (Hpad : py_str_mul "0" (tx_length d + 0 - len digits) = []).
  { unfold py_str_mul. replace (Z.to_nat _) with 0%nat by lia. done. }
  fold digits. rewrite Hpad. cbn [app]. split; [done|].
  split; [rewrite length_take; unfold len in Hlen; lia|].
  intros Hpos. subst digits dropped.
  destruct code as [|q|q]; [cbn in Hlen; unfold len in Hlen; cbn in Hlen; lia| |lia].
  cbn [bin drop] in *. rewrite !drop_0 in *. unfold len in *.
  replace (Z.of_nat (length (pos_digits q)) - tx_length d)
    with (Z.of_nat (length (pos_digits q) - Z.to_nat (tx_length d))) by lia.
  rewrite pos_digits_shiftr by lia. f_equal. lia.
Qed.

Lemma overwide_code_is_truncated_witness :
  let d := snd (enable_tx (world_of (new_device 6 1 350 2 4 70))) in
  ∃ w',
    tx_code 255 d = (Ok true, w')
    ∧ wire w' =
        transmission (device d) (mkProtocol 350 1 31 1 3 3 1)
          ["1"; "1"; "1"; "1"]%char.
Proof.
  intros d.
  destruct (overwide_code_is_truncated (device d) (mkProtocol 350 1 31 1 3 3 1)
              255 d) as (w' & E & _ & Hwire & _);
    [reflexivity | reflexivity | by eexists | done | reflexivity | done
    | by vm_compute | ].
  exists w'. split; [exact E|]. rewrite Hwire. reflexivity.
Defined.
(** ** Protocol 6 *)

Lemma keeps_bind {A B} (m : M A) (f : A → M B) :
  keeps_device m → (∀ a, keeps_device (f a)) → keeps_device (m ≫= f).
Proof.
  intros Hm Hf w. unfold mbind, M_bind. specialize (Hm w).
  destruct (m w) as [[a|e] w1]; cbn in *; [|done].
  by rewrite Hf.
Qed.

Lemma keeps_ret {A} (a : A) : keeps_device (mret a).
Proof. done. Qed.

Lemma keeps_lift {A} (r : result A) : keeps_device (lift r).
Proof. done. Qed.

Lemma keeps_self : keeps_device self.
Proof. done. Qed.

Lemma keeps_pin_write level : keeps_device (pin_write level).
Proof. intros w. unfold pin_write. by destruct (tx_pin (device w)). Qed.

Lemma keeps__sleep delay : keeps_device (_sleep delay).
Proof. done. Qed.

Lemma keeps_protocol pnum : keeps_device (protocol pnum).
Proof.
  apply keeps_bind; [apply keeps_lift|]. intros [p|]; done.
Qed.

Lemma keeps_tx_waveform high low : keeps_device (tx_waveform high low).
Proof.
  apply keeps_bind; [apply keeps_self|]. intros d.
  destruct (negb (tx_enabled d)); [apply keeps_ret|].
  repeat (apply keeps_bind;
          [apply keeps_pin_write || apply keeps__sleep | intros _]).
  apply keeps_ret.
Qed.

Lemma keeps_tx_l0 : keeps_device tx_l0.
Proof.
  apply keeps_bind; [apply keeps_self|]. intros d.
  destruct (negb _); [apply keeps_ret|].
  apply keeps_bind; [apply keeps_protocol|]. intros p.
  apply keeps_tx_waveform.
Qed.

Lemma keeps_tx_l1 : keeps_device tx_l1.
Proof.
  apply keeps_bind; [apply keeps_self|]. intros d.
  destruct (negb _); [apply keeps_ret|].
  apply keeps_bind; [apply keeps_protocol|]. intros p.
  apply keeps_tx_waveform.
Qed.

Lemma keeps_tx_sync : keeps_device tx_sync.
Proof.
  apply keeps_bind; [apply keeps_self|]. intros d.
  destruct (negb _); [apply keeps_ret|].
  apply keeps_bind; [apply keeps_protocol|]. intros p.
  apply keeps_tx_waveform.
Qed.

Lemma keeps_for_each {X} (xs : list X) (body : X → M bool) :
  (∀ x, keeps_device (body x)) → keeps_device (for_each xs body).
Proof.
  intros Hbody. induction xs as [|x xs IH]; [done|].
  cbn [for_each]. apply keeps_bind; [apply Hbody|].
  intros ok. destruct (negb ok); [apply keeps_ret | apply IH].
Qed.

Lemma keeps_send_bit rawcode byte : keeps_device (send_bit rawcode byte).
Proof.
  apply keeps_bind; [apply keeps_lift|]. intros c.
  destruct (Ascii.eqb c "0"); [apply keeps_tx_l0 | apply keeps_tx_l1].
Qed.

(** [tx_bin] never changes the device. *)
Lemma keeps_tx_bin rawcode : keeps_device (tx_bin rawcode).
Proof.
  apply keeps_bind; [apply keeps_self|]. intros d.
  apply keeps_for_each. intros _.
  apply keeps_bind; [apply keeps_self|]. intros d1.
  apply keeps_bind.
  { destruct (tx_proto d1 =? 6); [apply keeps_tx_sync | apply keeps_ret]. }
  intros ok. destruct (negb ok); [apply keeps_ret|].
  apply keeps_bind; [apply keeps_self|]. intros d2.
  apply keeps_bind; [apply keeps_for_each, keeps_send_bit|].
  intros ok2. destruct (negb ok2); [apply keeps_ret | apply keeps_tx_sync].
Qed.

Lemma nexa_expansion rawcode : ∀ acc,
  fold_left nexa_step rawcode acc = acc ++ concat (nexa_symbol <$> rawcode).
Proof.
  induction rawcode as [|b rest IH]; intros acc; cbn.
  - by rewrite app_nil_r.
  - rewrite IH. unfold nexa_step, nexa_symbol.
    destruct (Ascii.eqb_spec b "0") as [->|H0]; cbn.
    + by rewrite <- app_assoc.
    + destruct (Ascii.eqb b "1"); [by rewrite <- app_assoc | done].
Qed.

Lemma pos_digits_binary q :
  Forall (λ c, c = "0"%char ∨ c = "1"%char) (pos_digits q).
Proof.
  induction q as [q IH|q IH|]; cbn [pos_digits].
  - apply Forall_app. split; [exact IH|]. apply Forall_cons_2; [by right|constructor].
  - apply Forall_app. split; [exact IH|]. apply Forall_cons_2; [by left|constructor].
  - apply Forall_cons_2; [by right|constructor].
Qed.

Lemma length_nexa_expansion rawcode :
  Forall (λ c, c = "0"%char ∨ c = "1"%char) rawcode →
  length (concat (nexa_symbol <$> rawcode)) = (2 * length rawcode)%nat.
Proof.
  induction 1 as [|c rest Hc _ IH]; [done|].
  cbn. rewrite length_app, IH. destruct Hc as [->| ->]; cbn; lia.
Qed.

(** The expansion of the padded pattern of a non-negative code has twice
    as many symbols as the larger of [tx_length] and the width of the code. *)
Lemma len_nexacode l code :
  0 <= code →
  len (concat (nexa_symbol <$>
         (py_str_mul "0" (l + 0 - len (drop 2 (bin code))) ++ drop 2 (bin code))))
  = 2 * Z.max l (len (drop 2 (bin code))).
Proof.
  intros Hcode. unfold len. rewrite length_nexa_expansion.
  - unfold py_str_mul. rewrite length_app, length_replicate. lia.
  - apply Forall_app. split.
    + unfold py_str_mul. apply Forall_replicate. by left.
    + destruct code as [|q|q]; [|apply pos_digits_binary|lia].
      cbn. apply Forall_cons_2; [by left|constructor].
Qed.

Section TransmitShort.
Variables (d : Device) (p : Protocol).
Hypothesis Henabled : tx_enabled d = true.
Hypothesis Hpin : is_Some (tx_pin d).
Hypothesis Hproto : 0 < tx_proto d < len PROTOCOLS.
Hypothesis Hp : py_index PROTOCOLS (tx_proto d) = Ok (Some p).

(** The inner loop on a pattern that is too short: the symbols that exist
    are sent, and then [rawcode[byte]] raises IndexError. *)
Lemma send_bits_raise rawcode n : ∀ s w,
  device w = d → (s <= length rawcode < s + n)%nat →
  ∃ level,
    for_each (Z.of_nat <$> seq s n) (send_bit rawcode) w =
      (Raise IndexError,
       sent (concat (bit_pulses d p <$> drop s rawcode)) level w).
Proof.
  induction n as [|n IH]; intros s w Hw Hlen; [lia|].
  cbn [seq fmap list_fmap for_each].
  destruct (rawcode !! s) as [c|] eqn:Hc.
  - rewrite (bind_ok _ _ _ _ _
               (send_bit_ok d p Henabled Hpin Hproto Hp rawcode s c w Hw Hc)).
    cbn [negb]. apply lookup_lt_Some in Hc as Hlt.
    destruct (IH (S s) (sent (bit_pulses d p c) false w)) as [level ->];
      [done | lia |].
    exists level. rewrite sent_sent. do 2 f_equal.
    rewrite (drop_S _ _ _ Hc). done.
  - apply lookup_ge_None in Hc.
    exists (pin_level w). rewrite drop_ge by lia. cbn.
    unfold sent. rewrite app_nil_r, world_eta.
    apply bind_raise. unfold send_bit. apply bind_raise.
    unfold lift. by rewrite py_index_past_end.
Qed.

Lemma tx_bin_raise rawcode w :
  device w = d → len rawcode < tx_length d → 0 < tx_repeat d →
  ∃ level,
    tx_bin rawcode w =
      (Raise IndexError,
       sent ((if tx_proto d =? 6 then sync_pulses d p else [])
               ++ concat (bit_pulses d p <$> rawcode)) level w).
Proof.
  intros Hw Hlen Hrep. unfold tx_bin.
  rewrite (bind_ok _ _ w (device w) w) by done. rewrite Hw.
  rewrite py_range_0_1.
  destruct (Z.to_nat (tx_repeat d)) as [|r] eqn:Hr; [lia|].
  cbn [seq fmap list_fmap for_each].
  assert (Hpre :
    (if tx_proto d =? 6 then tx_sync else mret true) w =
    (Ok true, sent (if tx_proto d =? 6 then sync_pulses d p else [])
                (if tx_proto d =? 6 then false else pin_level w) w)).
  { destruct (tx_proto d =? 6); [by apply tx_sync_ok|].
    unfold sent, mret, M_ret. rewrite app_nil_r. by destruct w. }
  destruct (send_bits_raise rawcode (Z.to_nat (tx_length d)) 0
              (sent (if tx_proto d =? 6 then sync_pulses d p else [])
                 (if tx_proto d =? 6 then false else pin_level w) w))
    as [level Hbits]; [done | unfold len in Hlen; lia |].
  rewrite drop_0, <- py_range_0_1, sent_sent in Hbits.
  exists level. apply bind_raise.
  rewrite (bind_ok _ _ w (device w) w) by done. rewrite Hw.
  rewrite (bind_ok _ _ _ _ _ Hpre). cbn [negb].
  rewrite (bind_ok _ _ _ (device w) _) by done. rewrite Hw.
  by apply bind_raise.
Qed.
End TransmitShort.
(** C2.  What [tx_code] does on an enabled protocol-6 transmitter.  The
    padded pattern is expanded symbol by symbol ("0" to "01", "1" to "10")
    and [tx_length] is set to 64.  When the expansion has at least 64
    symbols, [tx_repeat] frames are sent, each a sync, the first 64 symbols
    and a closing sync.  When it has fewer, which is so whenever the
    configured [tx_length] and the width of the code are both below 32, the
    first repetition sends its leading sync and the symbols there are and
    then raises IndexError at [rawcode[byte]]: no 64-bit frame and no closing
    sync is sent. *)
Theorem nexa_frame d p code w :
  let rawcode :=
    py_str_mul "0" (tx_length d + 0 - len (drop 2 (bin code)))
      ++ drop 2 (bin code) in
  let nexacode := concat (nexa_symbol <$> rawcode) in
  let d' := set_tx_length 64 d in
  let bit_waves (bits : list ascii) := concat (bit_pulses d' p <$> bits) in
  device w = d →
  tx_enabled d = true → is_Some (tx_pin d) → tx_proto d = 6 →
  py_index PROTOCOLS 6 = Ok (Some p) →
  (64 <= len nexacode →
   ∃ w', tx_code code w = (Ok true, w')
         ∧ device w' = d'
         ∧ length (take 64 nexacode) = 64%nat
         ∧ wire w' =
             wire w ++
             concat (replicate (Z.to_nat (tx_repeat d))
                       (sync_pulses d' p ++ bit_waves (take 64 nexacode)
                          ++ sync_pulses d' p)))
  ∧ (len nexacode < 64 → 0 < tx_repeat d →
     ∃ w', tx_code code w = (Raise IndexError, w')
           ∧ device w' = d'
           ∧ wire w' = wire w ++ sync_pulses d' p ++ bit_waves nexacode)
  ∧ (0 <= code →
     len nexacode = 2 * Z.max (tx_length d) (len (drop 2 (bin code)))).
Proof.
  intros rawcode nexacode d' bit_waves Hw Hen Hpin H6 Hp.
  assert (Hcode : tx_code code w =
                  tx_bin nexacode (with_device d' w)).
  { unfold tx_code. rewrite (bind_ok _ _ w (device w) w) by done. rewrite Hw.
    replace (tx_proto d =? 6) with true by lia.
    fold rawcode. rewrite nexa_expansion. cbn [app]. fold nexacode.
    apply bind_ok. unfold assign. run_m. by rewrite Hw. }
  rewrite Hcode.
  assert (Hproto' : 0 < tx_proto d' < len PROTOCOLS) by (cbn; rewrite H6; done).
  assert (Hp' : py_index PROTOCOLS (tx_proto d') = Ok (Some p))
    by (cbn; by rewrite H6).
  split; [|split].
  - intros Hlen.
    destruct (tx_bin_ok d' p Hen Hpin Hproto' Hp' nexacode (with_device d' w))
      as [level ->]; [done | done |].
    eexists. split; [done|]. cbn. split; [done|].
    split; [rewrite length_take; unfold len in Hlen; lia|].
    unfold transmission, frame.
    replace (tx_proto d' =? 6) with true by (cbn; lia). done.
  - intros Hlen Hrep.
    destruct (tx_bin_raise d' p Hen Hpin Hproto' Hp' nexacode (with_device d' w))
      as [level ->]; [done | done | done |].
    eexists. split; [done|]. cbn.
    replace (tx_proto d =? 6) with true by lia. done.
  - intros Hnonneg. by apply len_nexacode.
Qed.

Lemma nexa_frame_witness :
  let w := snd (enable_tx (world_of (new_device 6 6 200 10 24 70))) in
  ∃ w', tx_code 255 w = (Raise IndexError, w')
        ∧ tx_length (device w') = 64
        ∧ length (wire w') = 98%nat.
Proof.
  intros w.
  destruct (nexa_frame (device w) (mkProtocol 200 1 10 1 5 1 1) 255 w)
    as (_ & Hshort & _); [reflexivity | reflexivity | by eexists | reflexivity
                   | reflexivity |].
  destruct Hshort as (w' & E & Hd & Hwire); [by vm_compute | done |].
  exists w'. split; [exact E|]. rewrite Hd, Hwire. split; reflexivity.
Defined.

(** C7.  The code overwrites the configured frame length: after [tx_code]
    on a protocol-6 device, whatever its outcome, [tx_length] is 64.  On an
    enabled protocol-6 device configured with [tx_length = 32] the first
    [tx_code 255] returns True and leaves [tx_length = 64]; a second
    [tx_code 255] on the same device then pads to 64 digits, and the frame it
    sends differs from the first one. *)
Theorem nexa_send_overwrites_tx_length :
  (∀ code w, tx_proto (device w) = 6 →
             tx_length (device (snd (tx_code code w))) = 64)
  ∧ (let w0 := snd (enable_tx (world_of (new_device 6 6 200 1 32 70))) in
     let first := tx_code 255 w0 in
     let second := tx_code 255 (with_device (device (snd first)) w0) in
     tx_length (device w0) = 32
     ∧ fst first = Ok true
     ∧ tx_length (device (snd first)) = 64
     ∧ fst second = Ok true
     ∧ wire (snd second) ≠ wire (snd first)).
Proof.
  split.
  - intros code w H6. unfold tx_code.
    unfold mbind at 1, M_bind at 1, self at 1. rewrite H6.
    replace (6 =? 6) with true by done.
    unfold mbind at 1, M_bind at 1. unfold mbind at 1, M_bind at 1, assign at 1.
    cbn [mret M_ret].
    rewrite keeps_tx_bin. done.
  - vm_compute. repeat split; discriminate.
Qed.

Lemma nexa_send_overwrites_tx_length_witness :
  tx_length (device (snd (tx_code 5
     (world_of (new_device 6 6 200 10 24 70))))) = 64.
Proof.
  exact (proj1 nexa_send_overwrites_tx_length 5
           (world_of (new_device 6 6 200 10 24 70)) eq_refl).
Defined.

(** ** Feeding edges to the receiver *)

Lemma rx_edges_app ts1 ts2 w w1 :
  rx_edges ts1 w = (Ok tt, w1) →
  rx_edges (ts1 ++ ts2) w = rx_edges ts2 w1.
Proof.
  revert w. induction ts1 as [|t ts1 IH]; intros w H.
  - cbn in H. by injection H as <-.
  - cbn [rx_edges app] in *. unfold mbind, M_bind in *.
    destruct (rx_callback t w) as [[[]|e] w0]; [|discriminate].
    by apply IH.
Qed.

Lemma edge_times_app t0 ds1 ds2 :
  edge_times t0 (ds1 ++ ds2)
  = edge_times t0 ds1 ++ edge_times (t0 + total ds1) ds2.
Proof.
  revert t0. induction ds1 as [|x ds1 IH]; intros t0.
  - cbn. by rewrite Z.add_0_r.
  - cbn [edge_times app]. change (total (x :: ds1)) with (x + total ds1).
    rewrite IH. by rewrite Z.add_assoc.
Qed.

Lemma total_app ds1 ds2 : total (ds1 ++ ds2) = total ds1 + total ds2.
Proof. unfold total. induction ds1 as [|x ds1 IH]; cbn; lia. Qed.

Lemma device_ext d1 d2 :
  gpio d1 = gpio d2 → tx_enabled d1 = tx_enabled d2 →
  tx_proto d1 = tx_proto d2 → tx_pulselength d1 = tx_pulselength d2 →
  tx_repeat d1 = tx_repeat d2 → tx_length d1 = tx_length d2 →
  rx_enabled d1 = rx_enabled d2 → rx_tolerance d1 = rx_tolerance d2 →
  _rx_timings d1 = _rx_timings d2 →
  _rx_last_timestamp d1 = _rx_last_timestamp d2 →
  _rx_change_count d1 = _rx_change_count d2 →
  _rx_repeat_count d1 = _rx_repeat_count d2 →
  rx_code d1 = rx_code d2 → rx_code_timestamp d1 = rx_code_timestamp d2 →
  rx_proto d1 = rx_proto d2 → rx_repeat d1 = rx_repeat d2 →
  rx_bitlength d1 = rx_bitlength d2 → rx_pulselength d1 = rx_pulselength d2 →
  tx_pin d1 = tx_pin d2 → rx_pin d1 = rx_pin d2 →
  d1 = d2.
Proof.
  destruct d1, d2. cbn. intros. subst. reflexivity.
Qed.

Lemma buffered_nil d : buffered [] d = d.
Proof.
  apply device_ext; cbn; try reflexivity; unfold total, len; cbn; lia.
Qed.

Lemma buffered_cons x rest d :
  0 <= _rx_change_count d →
  buffered rest
    (set__rx_last_timestamp (_rx_last_timestamp d + x)
       (set__rx_change_count (_rx_change_count d + 1)
          (set__rx_timings
             (<[Z.to_nat (_rx_change_count d) := x]> (_rx_timings d)) d)))
  = buffered (x :: rest) d.
Proof.
  intros Hcc. apply device_ext; cbn; try reflexivity.
  - replace (Z.to_nat (_rx_change_count d + 1))
      with (S (Z.to_nat (_rx_change_count d))) by lia.
    by rewrite list_insert_inserts_lt by lia.
  - unfold total. cbn. lia.
  - unfold len. cbn [length]. lia.
Qed.

(** A run of data intervals fills consecutive slots of the buffer. *)
Lemma rx_data_run durations : ∀ w,
  Forall (λ x, THRESHOLD_TICK < x <= THRESHOLD_SYNC) durations →
  0 <= _rx_change_count (device w) →
  _rx_change_count (device w) + len durations <= MAX_CHANGES →
  length (_rx_timings (device w)) = 68%nat →
  ∃ w',
    rx_edges (edge_times (_rx_last_timestamp (device w)) durations) w = (Ok tt, w')
    ∧ device w' = buffered durations (device w).
Proof.
  induction durations as [|x rest IH]; intros w Hall Hcc Hmax Hlen.
  - exists w. split; [done|]. by rewrite buffered_nil.
  - inversion_clear Hall as [|? ? Hx Hrest].
    unfold len in *. cbn [length] in Hmax. unfold MAX_CHANGES in *.
    cbn [edge_times rx_edges].
    pose proof (rx_callback_data (_rx_last_timestamp (device w) + x) w) as Hstep.
    cbn zeta in Hstep.
    replace (_rx_last_timestamp (device w) + x - _rx_last_timestamp (device w))
      with x in Hstep by lia.
    rewrite (bind_ok _ _ _ _ _
               (Hstep Hx ltac:(unfold MAX_CHANGES; lia) ltac:(unfold len; lia))).
    set (w1 := mkWorld _ _ _ _ _ _).
    destruct (IH w1) as (w' & E & Hd);
      [done | cbn; lia | cbn; lia | cbn; by rewrite length_insert |].
    exists w'. split; [exact E|]. rewrite Hd.
    by apply buffered_cons.
Qed.
(** ** Round trip *)

(** The zero and one templates of the table differ in their high part or
    in their low part. *)
Lemma table_separated pnum p :
  py_index PROTOCOLS pnum = Ok (Some p) →
  zero_high p ≠ one_high p ∨ zero_low p ≠ one_low p.
Proof.
  unfold py_index. cbn [length PROTOCOLS].
  destruct (_ && _); [|discriminate].
  destruct (Z.to_nat _) as [|[|[|[|[|[|[|k]]]]]]]; cbn;
    intros [= <-] || discriminate; cbn; lia.
Qed.

Lemma frame_of_intervals d p bits :
  tx_proto d ≠ 6 →
  snd <$> frame d p bits = frame_intervals p (tx_pulselength d) bits.
Proof.
  intros H6. unfold frame, frame_intervals, data_intervals.
  replace (tx_proto d =? 6) with false by lia. cbn [app].
  rewrite fmap_app. cbn. rewrite <- app_assoc. cbn. f_equal.
  induction bits as [|c bits IH]; [done|].
  cbn. rewrite fmap_app, IH. f_equal.
  unfold bit_pulses, bit_intervals. by destruct (Ascii.eqb c "0").
Qed.

Lemma transmission_of_intervals d p bits :
  tx_proto d ≠ 6 →
  snd <$> transmission d p bits
  = concat (replicate (Z.to_nat (tx_repeat d))
              (frame_intervals p (tx_pulselength d) bits)).
Proof.
  intros H6. unfold transmission.
  induction (Z.to_nat (tx_repeat d)) as [|n IH]; [done|].
  cbn. by rewrite fmap_app, IH, frame_of_intervals.
Qed.

Lemma lookup_bit_intervals p pl bits : ∀ i c,
  bits !! i = Some c →
  concat (bit_intervals p pl <$> bits) !! (2 * i)%nat
    = bit_intervals p pl c !! 0%nat
  ∧ concat (bit_intervals p pl <$> bits) !! (2 * i + 1)%nat
    = bit_intervals p pl c !! 1%nat.
Proof.
  induction bits as [|b bits IH]; intros i c Hc; [done|].
  destruct i as [|i].
  - injection Hc as ->. cbn. unfold bit_intervals.
    by destruct (Ascii.eqb c "0").
  - cbn in Hc. destruct (IH i c Hc) as [H0 H1].
    replace (2 * S i)%nat with (2 + 2 * i)%nat by lia.
    replace (2 + 2 * i + 1)%nat with (2 + (2 * i + 1))%nat by lia.
    cbn [fmap list_fmap concat].
    assert (Hb : ∃ x y, bit_intervals p pl b = [x; y])
      by (unfold bit_intervals; destruct (Ascii.eqb b "0"); eauto).
    destruct Hb as (x & y & ->). done.
Qed.

Lemma length_bit_intervals p pl bits :
  length (concat (bit_intervals p pl <$> bits)) = (2 * length bits)%nat.
Proof.
  induction bits as [|b bits IH]; [done|].
  cbn. rewrite length_app, IH. unfold bit_intervals.
  destruct (Ascii.eqb b "0"); cbn; lia.
Qed.

Lemma length_data_intervals p pl bits :
  length (data_intervals p pl bits) = (2 * length bits + 1)%nat.
Proof.
  unfold data_intervals. rewrite length_app, length_bit_intervals. cbn. lia.
Qed.

Lemma push_bits_app acc bs1 bs2 :
  push_bits acc (bs1 ++ bs2) = push_bits (push_bits acc bs1) bs2.
Proof. apply fold_left_app. Qed.

Lemma bits_value_pos_digits q : bits_value (bit_of <$> pos_digits q) = Zpos q.
Proof.
  change (push_bits 0 (bit_of <$> pos_digits q) = Z.pos q).
  induction q as [q IH|q IH|]; cbn [pos_digits]; [| |done];
    rewrite fmap_app, push_bits_app, IH; cbn; lia.
Qed.

Lemma bits_value_padded k q :
  bits_value (bit_of <$> (replicate k "0"%char ++ pos_digits q)) = Zpos q.
Proof.
  rewrite fmap_app. change (bits_value ?bs) with (push_bits 0 bs).
  rewrite push_bits_app.
  replace (push_bits 0 (bit_of <$> replicate k "0"%char)) with 0.
  - apply bits_value_pos_digits.
  - induction k as [|k IH]; [done|]. cbn. exact IH.
Qed.

Lemma pos_digits_bounds q :
  2 ^ (len (pos_digits q) - 1) <= Zpos q < 2 ^ len (pos_digits q).
Proof.
  unfold len. induction q as [q IH|q IH|]; cbn [pos_digits]; [| |cbn; lia].
  - rewrite length_app. cbn [length].
    assert (0 < length (pos_digits q))%nat by (destruct q; cbn; rewrite ?length_app; cbn; lia).
    replace (Z.of_nat (length (pos_digits q) + 1) - 1)
      with (Z.succ (Z.of_nat (length (pos_digits q)) - 1)) by lia.
    replace (Z.of_nat (length (pos_digits q) + 1))
      with (Z.succ (Z.of_nat (length (pos_digits q)))) by lia.
    rewrite !Z.pow_succ_r by lia. lia.
  - rewrite length_app. cbn [length].
    assert (0 < length (pos_digits q))%nat by (destruct q; cbn; rewrite ?length_app; cbn; lia).
    replace (Z.of_nat (length (pos_digits q) + 1) - 1)
      with (Z.succ (Z.of_nat (length (pos_digits q)) - 1)) by lia.
    replace (Z.of_nat (length (pos_digits q) + 1))
      with (Z.succ (Z.of_nat (length (pos_digits q)))) by lia.
    rewrite !Z.pow_succ_r by lia. lia.
Qed.

(** A positive code has at most [l] binary digits exactly when it is below
    [2 ^ l]. *)
Lemma code_fits l code :
  0 < code → 0 <= l → len (drop 2 (bin code)) <= l ↔ code < 2 ^ l.
Proof.
  intros Hcode Hl. destruct code as [|q|q]; [lia| |lia].
  cbn [bin drop]. rewrite drop_0.
  pose proof (pos_digits_bounds q) as [Hlo Hhi].
  split; intros H.
  - eapply Z.lt_le_trans; [exact Hhi|]. apply Z.pow_le_mono_r; lia.
  - destruct (Z.le_gt_cases (len (pos_digits q)) l) as [|Hgt]; [done|].
    assert (2 ^ l <= 2 ^ (len (pos_digits q) - 1))
      by (apply Z.pow_le_mono_r; lia).
    lia.
Qed.

Section RoundTrip.
Variables (pnum : Z) (p : Protocol) (pl tol : Z).
Hypothesis Hp : py_index PROTOCOLS pnum = Ok (Some p).
Hypothesis Htiming : timing_ok p pl.
Hypothesis Htol : 1 <= tol <= 100.

Let unit_us := pl * SCALE_TIME_US.
Let sync_gap := sync_low p * pl * SCALE_TIME_US.

Lemma pl_pos : 0 < pl.
Proof.
  destruct (table_entry _ _ Hp) as (_ & _ & _ & Hzh & _).
  destruct Htiming as ([Hlo _] & _).
  unfold THRESHOLD_TICK, SCALE_TIME_US in *. nia.
Qed.

Lemma sync_gap_delay : sync_gap ÷ sync_low p = unit_us.
Proof.
  destruct (table_entry _ _ Hp) as (_ & _ & Hsl & _).
  unfold sync_gap, unit_us.
  replace (sync_low p * pl * SCALE_TIME_US)
    with (pl * SCALE_TIME_US * sync_low p) by lia.
  apply Z.quot_mul. lia.
Qed.

Lemma within_exact m :
  within (m * pl * SCALE_TIME_US) (unit_us * m)
    (inject_Z (unit_us * tol) / 100)%Q = true.
Proof.
  apply within_spec. pose proof pl_pos.
  replace (m * pl * SCALE_TIME_US - unit_us * m) with 0
    by (unfold unit_us; lia).
  unfold unit_us, SCALE_TIME_US. cbn. nia.
Qed.

Lemma within_apart a b :
  a ≠ b →
  within (a * pl * SCALE_TIME_US) (unit_us * b)
    (inject_Z (unit_us * tol) / 100)%Q = false.
Proof.
  intros Hab. apply not_true_is_false. rewrite within_spec.
  pose proof pl_pos. unfold unit_us, SCALE_TIME_US.
  replace (a * pl * 3 - pl * 3 * b) with ((a - b) * (pl * 3)) by lia.
  rewrite Z.abs_mul. rewrite (Z.abs_eq (pl * 3)) by lia.
  assert (1 <= Z.abs (a - b)) by lia. nia.
Qed.

Lemma holds_frame_pair_bit d bits i c :
  holds_frame p pl tol d bits → bits !! i = Some c →
  pair_bit d p (frame_delay d p) (frame_tolerance d p)
    (1 + Z.of_nat i * 2) = Some (bit_of c).
Proof.
  intros (Hlen & Ht & H0 & Hbits) Hc.
  assert (Hdelay : frame_delay d p = unit_us).
  { unfold frame_delay, slot. change (Z.to_nat 0) with 0%nat.
    rewrite H0. apply sync_gap_delay. }
  unfold frame_tolerance. rewrite Hdelay, Ht.
  destruct (lookup_bit_intervals p pl bits i c Hc) as [Hhi Hlo].
  assert (Hs1 : slot d (1 + Z.of_nat i * 2)
                = default 0 (bit_intervals p pl c !! 0%nat)).
  { unfold slot. replace (Z.to_nat (1 + Z.of_nat i * 2)) with (S (2 * i)) by lia.
    rewrite <- Hhi. destruct (concat _ !! (2 * i)%nat) as [x|] eqn:E;
      [by rewrite (Hbits _ _ E)|].
    apply lookup_ge_None in E. rewrite length_bit_intervals in E.
    apply lookup_lt_Some in Hc. lia. }
  assert (Hs2 : slot d (1 + Z.of_nat i * 2 + 1)
                = default 0 (bit_intervals p pl c !! 1%nat)).
  { unfold slot.
    replace (Z.to_nat (1 + Z.of_nat i * 2 + 1)) with (S (2 * i + 1)) by lia.
    rewrite <- Hlo. destruct (concat _ !! (2 * i + 1)%nat) as [x|] eqn:E;
      [by rewrite (Hbits _ _ E)|].
    apply lookup_ge_None in E. rewrite length_bit_intervals in E.
    apply lookup_lt_Some in Hc. lia. }
  unfold pair_bit, pair_matches. rewrite Hs1, Hs2.
  unfold bit_intervals, bit_of. destruct (Ascii.eqb c "0"); cbn.
  - by rewrite !within_exact.
  - destruct (table_separated _ _ Hp) as [Hsep|Hsep].
    + rewrite (within_apart (one_high p) (zero_high p)) by done. cbn.
      by rewrite !within_exact.
    + rewrite (within_apart (one_low p) (zero_low p)) by done.
      rewrite andb_false_r. by rewrite !within_exact.
Qed.

Lemma holds_frame_bits d bits :
  holds_frame p pl tol d bits →
  frame_bits d p (2 * len bits + 1) = Some (bit_of <$> bits).
Proof.
  intros Hd. unfold frame_bits, py_range, len.
  replace (Z.to_nat ((2 * Z.of_nat (length bits) + 1 - 1 + 2 - 1) `div` 2))
    with (length bits).
  2:{ replace (2 * Z.of_nat (length bits) + 1 - 1 + 2 - 1)
        with (1 + Z.of_nat (length bits) * 2) by lia.
      rewrite Z.div_add by lia. change (1 `div` 2) with 0. lia. }
  apply mapM_Some, Forall2_same_length_lookup.
  split; [by rewrite !length_fmap, length_seq|].
  intros i x b Hx Hb.
  rewrite list_lookup_fmap in Hx. rewrite list_lookup_fmap in Hb.
  destruct (seq 0 (length bits) !! i) as [k|] eqn:Hk; [|done].
  apply lookup_seq in Hk as [-> _]. injection Hx as <-.
  destruct (bits !! i) as [c|] eqn:Hc; [|done]. injection Hb as <-.
  by apply holds_frame_pair_bit with bits.
Qed.

Lemma data_intervals_ok bits :
  Forall (λ x, THRESHOLD_TICK < x <= THRESHOLD_SYNC) (data_intervals p pl bits).
Proof.
  destruct Htiming as (Hzh & Hzl & Hoh & Hol & Hsh & _).
  unfold data_intervals. apply Forall_app.
  split; [|by apply Forall_cons_2; [|apply Forall_nil_2]].
  induction bits as [|c bits IH]; [constructor|].
  cbn. apply Forall_app. split; [|exact IH].
  unfold bit_intervals.
  destruct (Ascii.eqb c "0");
    by repeat (apply Forall_cons_2; [|try apply Forall_nil_2]).
Qed.

(** One repetition of a frame delivered to the handler.  Whatever the
    buffer held, the handler ends with the sync gap in slot 0 and
    [change_count = 1]; if it started that way, the frame is decoded and
    its value is in the mailbox. *)
Lemma rx_frame bits w :
  rx_proto (device w) = pnum → rx_tolerance (device w) = tol →
  length (_rx_timings (device w)) = 68%nat →
  0 <= _rx_change_count (device w) <= 1 →
  1 <= len bits <= 32 →
  ∃ w',
    rx_edges (edge_times (_rx_last_timestamp (device w))
                (frame_intervals p pl bits)) w = (Ok tt, w')
    ∧ rx_proto (device w') = pnum ∧ rx_tolerance (device w') = tol
    ∧ length (_rx_timings (device w')) = 68%nat
    ∧ _rx_change_count (device w') = 1
    ∧ _rx_timings (device w') !! 0%nat = Some sync_gap
    ∧ _rx_last_timestamp (device w')
      = _rx_last_timestamp (device w) + total (frame_intervals p pl bits)
    ∧ (_rx_change_count (device w) = 1 →
       _rx_timings (device w) !! 0%nat = Some sync_gap →
       3 <= len bits → bits_value (bit_of <$> bits) ≠ 0 →
       rx_code (device w') = Some (bits_value (bit_of <$> bits))).
Proof.
  intros Hproto Htl Hlen Hcc Hbits.
  pose proof (length_data_intervals p pl bits) as Hdl.
  destruct (rx_data_run (data_intervals p pl bits) w (data_intervals_ok bits))
    as (w1 & E1 & Hd1);
    [lia | unfold len in *; unfold MAX_CHANGES; lia | done |].
  unfold frame_intervals. rewrite edge_times_app, (rx_edges_app _ _ _ _ E1).
  cbn [edge_times rx_edges].
  set (t1 := _rx_last_timestamp (device w) + total (data_intervals p pl bits)).
  assert (Hlast1 : _rx_last_timestamp (device w1) = t1) by (by rewrite Hd1).
  assert (Hcc1 : _rx_change_count (device w1)
                 = _rx_change_count (device w) + (2 * len bits + 1))
    by (rewrite Hd1; cbn; unfold len in *; lia).
  assert (Htm1 : _rx_timings (device w1)
                 = list_inserts (Z.to_nat (_rx_change_count (device w)))
                     (data_intervals p pl bits) (_rx_timings (device w)))
    by (by rewrite Hd1).
  assert (Hlen1 : length (_rx_timings (device w1)) = 68%nat)
    by (by rewrite Htm1, length_inserts).
  destruct Htiming as (_ & _ & _ & _ & _ & Hgap). fold sync_gap in Hgap.
  destruct (rx_callback_sync (t1 + sync_gap) p w1) as (v & E2 & _ & _).
  { rewrite Hlast1. lia. }
  { intros _. rewrite Hd1. cbn. by rewrite Hproto. }
  { unfold len. lia. }
  { unfold len in *. lia. }
  rewrite (bind_ok _ _ _ _ _ E2). eexists. split; [done|].
  cbn [device].
  set (d1 := set__rx_change_count _ (set__rx_repeat_count _ (device w1))).
  set (r := if _ >? 1 then _ else _).
  assert (Hpub : ∀ r', rx_proto (publish r' (t1 + sync_gap) d1) = rx_proto (device w)
                       ∧ rx_tolerance (publish r' (t1 + sync_gap) d1)
                         = rx_tolerance (device w)).
  { intros [c|]; cbn; by rewrite Hd1. }
  destruct (Hpub r) as [Hpp Hpt].
  split; [cbn; by rewrite Hpp|]. split; [cbn; by rewrite Hpt|].
  split; [cbn; by rewrite length_insert|]. split; [done|].
  split; [cbn; rewrite list_lookup_insert_eq by lia; f_equal; lia|].
  split; [cbn; rewrite total_app; unfold t1, total; cbn; lia|].
  intros Hone Hslot0 H3 Hnz. cbn.
  assert (Hr : r = Some (bits_value (bit_of <$> bits))).
  { unfold r. rewrite Hcc1, Hone.
    replace (1 + (2 * len bits + 1) - 1 >? 1) with true by lia.
    replace (1 + (2 * len bits + 1) - 1) with (2 * len bits + 1) by lia.
    unfold accepted. rewrite (holds_frame_bits d1 bits).
    - replace (_rx_change_count d1 >? 6) with true by (cbn; lia).
      destruct (Z.eqb_spec (bits_value (bit_of <$> bits)) 0); done.
    - split; [done|]. split; [cbn; by rewrite Hd1|].
      change (_rx_timings d1) with (_rx_timings (device w1)).
      rewrite Htm1, Hone. change (Z.to_nat 1) with 1%nat.
      split.
      + by rewrite list_lookup_inserts_lt by lia.
      + intros i x Hix. apply lookup_lt_Some in Hix as Hlt.
        rewrite length_bit_intervals in Hlt. unfold len in Hbits.
        rewrite list_lookup_inserts by lia.
        replace (S i - 1)%nat with i by lia.
        unfold data_intervals. by rewrite lookup_app_l
          by (rewrite length_bit_intervals; lia). }
  rewrite Hr. done.
Qed.

(** Further repetitions, once the buffer starts with a sync gap. *)
Lemma rx_frames bits n : ∀ w,
  rx_proto (device w) = pnum → rx_tolerance (device w) = tol →
  length (_rx_timings (device w)) = 68%nat →
  _rx_change_count (device w) = 1 →
  _rx_timings (device w) !! 0%nat = Some sync_gap →
  3 <= len bits <= 32 → bits_value (bit_of <$> bits) ≠ 0 →
  ∃ w',
    rx_edges (edge_times (_rx_last_timestamp (device w))
                (concat (replicate (S n) (frame_intervals p pl bits)))) w
      = (Ok tt, w')
    ∧ rx_code (device w') = Some (bits_value (bit_of <$> bits)).
Proof.
  induction n as [|n IH]; intros w Hproto Htl Hlen Hcc Hslot Hbits Hnz.
  - cbn [replicate concat]. rewrite app_nil_r.
    destruct (rx_frame bits w) as (w' & E & _ & _ & _ & _ & _ & _ & Hcode);
      [done | done | done | lia | lia |].
    exists w'. split; [exact E|]. apply Hcode; [done | done | lia | done].
  - change (concat (replicate (S (S n)) (frame_intervals p pl bits)))
      with (frame_intervals p pl bits
              ++ concat (replicate (S n) (frame_intervals p pl bits))).
    destruct (rx_frame bits w)
      as (w1 & E & Hp1 & Ht1 & Hl1 & Hc1 & Hs1 & Hlast1 & _);
      [done | done | done | lia | lia |].
    rewrite edge_times_app, (rx_edges_app _ _ _ _ E), <- Hlast1.
    by apply IH.
Qed.
End RoundTrip.

Lemma enable_tx_fresh d :
  tx_enabled d = false → rx_enabled d = false →
  enable_tx (world_of d) =
    (Ok true,
     world_of (set_tx_pin (Some (mkPin (gpio d) PinOut false))
                 (set_tx_enabled true d))).
Proof. intros Ht Hr. unfold enable_tx. run_m. by rewrite Hr, Ht. Qed.

Lemma enable_rx_fresh d :
  tx_enabled d = false → rx_enabled d = false →
  enable_rx (world_of d) =
    (Ok true,
     world_of (set_rx_pin (Some (mkPin (gpio d) PinInPullDown true))
                 (set_rx_enabled true d))).
Proof. intros Ht Hr. unfold enable_rx. run_m. by rewrite Ht, Hr. Qed.

(** The default pulse lengths of protocols 1, 2, 3 and 5 suit the
    receiver's thresholds; that of protocol 4 does not: its sync gap is
    6 * 380 * 3 = 6840 microseconds, below the sync threshold. *)
Lemma default_timing pnum p :
  py_index PROTOCOLS pnum = Ok (Some p) →
  pnum = 1 ∨ pnum = 2 ∨ pnum = 3 ∨ pnum = 5 →
  timing_ok p (pulselength p).
Proof.
  intros Hp Hn.
  destruct Hn as [Hn|[Hn|[Hn|Hn]]]; subst pnum; injection Hp as <-;
    unfold timing_ok, data_interval, THRESHOLD_TICK, THRESHOLD_SYNC,
      SCALE_TIME_US; cbn; lia.
Qed.

(** The whole transmission delivered to a fresh receiver. *)
Lemma round_trip_frames pnum p pl tol r bits w :
  py_index PROTOCOLS pnum = Ok (Some p) →
  timing_ok p pl → 1 <= tol <= 100 →
  rx_proto (device w) = pnum → rx_tolerance (device w) = tol →
  length (_rx_timings (device w)) = 68%nat →
  _rx_change_count (device w) = 0 → _rx_last_timestamp (device w) = 0 →
  3 <= len bits <= 32 → bits_value (bit_of <$> bits) ≠ 0 →
  2 <= r →
  ∃ w',
    rx_edges (edge_times 0
                (concat (replicate (Z.to_nat r) (frame_intervals p pl bits)))) w
      = (Ok tt, w')
    ∧ rx_code (device w') = Some (bits_value (bit_of <$> bits)).
Proof.
  intros Hp Htiming Htol Hproto Htl Hlen Hcc Hlast Hbits Hnz Hr.
  destruct (Z.to_nat r) as [|[|n]] eqn:Hn; [lia | lia |].
  change (concat (replicate (S (S n)) (frame_intervals p pl bits)))
    with (frame_intervals p pl bits
            ++ concat (replicate (S n) (frame_intervals p pl bits))).
  destruct (rx_frame pnum p pl tol Hp Htiming Htol bits w)
    as (w1 & E & Hp1 & Ht1 & Hl1 & Hc1 & Hs1 & Hlast1 & _);
    [done | done | done | lia | lia |].
  rewrite Hlast in *.
  rewrite edge_times_app, (rx_edges_app _ _ _ _ E), <- Hlast1.
  by apply (rx_frames pnum p pl tol Hp Htiming Htol).
Qed.

(** C1, as stated, fails for protocol 4: at its own pulse length the sync
    gap is 6 * 380 * 3 = 6840 microseconds, which the handler takes for data,
    so nothing is ever decoded.  A protocol-4 device with the default
    settings sends 255; a fresh protocol-4 receiver fed the resulting
    intervals ends with an empty mailbox.  On protocol 1 the mailbox stays
    empty as well with a bit length of 2 (fewer than 7 transitions) or of 33
    (the buffer overflows), with a single repetition (no earlier sync gap to
    calibrate on) and with a tolerance of 0. *)
Lemma round_trip_fails :
  (let d := new_device 6 4 380 10 24 70 in
   let sent := tx_code 255 (snd (enable_tx (world_of d))) in
   let received :=
     rx_edges (edge_times 0 (snd <$> wire (snd sent)))
       (snd (enable_rx (world_of d))) in
   RFDevice 6 4 None 10 24 70 = Ok d
   ∧ fst sent = Ok true
   ∧ fst received = Ok tt
   ∧ rx_code (device (snd received)) ≠ Some 255)
  ∧ round_trip_outcome 1 350 10 2 70 3 = (Ok true, Ok tt, None)
  ∧ round_trip_outcome 1 350 10 33 70 255 = (Ok true, Ok tt, None)
  ∧ round_trip_outcome 1 350 1 24 70 255 = (Ok true, Ok tt, None)
  ∧ round_trip_outcome 1 350 10 24 0 255 = (Ok true, Ok tt, None).
Proof. vm_compute. repeat split; discriminate. Qed.

(** C1, amended.  Let a device be constructed with a protocol id in 1..5,
    a pulse length at which every bit pulse and the high part of the sync
    last more than 300 and at most 15000 microseconds and the low part of
    the sync lasts more than 15000 microseconds (so for the default pulse
    lengths of protocols 1, 2, 3 and 5, not 4), a bit length from 3 to 32, at
    least 2 repetitions and a tolerance from 1 to 100 percent.  For every
    nonzero code whose binary representation fits in the bit length,
    [tx_code] on the enabled transmitter returns True, and delivering the
    intervals it sent, one edge per interval with the exact durations, to the
    handler of a fresh receiver of the same configuration returns normally
    and leaves the code in the mailbox. *)
Theorem round_trip g pnum plo r l tol code d p :
  RFDevice g pnum plo r l tol = Ok d →
  1 <= pnum <= 5 →
  py_index PROTOCOLS pnum = Ok (Some p) →
  timing_ok p (tx_pulselength d) →
  3 <= l <= 32 → 2 <= r → 1 <= tol <= 100 →
  0 < code → len (drop 2 (bin code)) <= l →
  ∃ wt wr,
    tx_code code (snd (enable_tx (world_of d))) = (Ok true, wt)
    ∧ rx_edges (edge_times 0 (snd <$> wire wt)) (snd (enable_rx (world_of d)))
      = (Ok tt, wr)
    ∧ rx_code (device wr) = Some code.
Proof.
  intros Hd Hpn Hp Htiming Hl Hr Htol Hcode Hfits.
  destruct (RFDevice_fresh _ _ _ _ _ _ _ Hd)
    as (Htx & Hrx & Htm & Hcc & Hlast & _ & _ & Hrp & Htp & Hrt & Hrep & Hlen).
  rewrite (enable_tx_fresh d Htx Hrx), (enable_rx_fresh d Htx Hrx). cbn [snd].
  set (dt := set_tx_pin _ (set_tx_enabled true d)).
  set (dr := set_rx_pin _ (set_rx_enabled true d)).
  destruct code as [|q|q]; [lia| |lia].
  set (bits := py_str_mul "0" (tx_length dt + 0 - len (drop 2 (bin (Z.pos q))))
                 ++ drop 2 (bin (Z.pos q))).
  assert (Hbl : len bits = l).
  { unfold bits, len, py_str_mul in *. rewrite length_app, length_replicate.
    change (tx_length dt) with (tx_length d). lia. }
  destruct (tx_code_ok dt p (Z.pos q) (world_of dt)) as [level E];
    [done | by eexists | cbn; rewrite Htp; unfold len; cbn; lia
    | cbn; lia | cbn; by rewrite Htp | done |].
  fold bits in E.
  rewrite firstn_all2 in E
    by (change (tx_length dt) with (tx_length d); unfold len in Hbl; lia).
  assert (Hval : bits_value (bit_of <$> bits) = Z.pos q)
    by apply bits_value_padded.
  destruct (round_trip_frames pnum p (tx_pulselength d) tol r bits (world_of dr))
    as (wr & Erx & Hrc); try done.
  { cbn. by rewrite Htm, length_replicate. }
  { lia. }
  { lia. }
  rewrite E. eexists _, wr. split; [done|].
  cbn [wire sent world_of app].
  rewrite transmission_of_intervals by (cbn; lia).
  change (tx_repeat dt) with (tx_repeat d).
  change (tx_pulselength dt) with (tx_pulselength d). rewrite Hrep.
  split; [exact Erx|]. by rewrite Hrc, Hval.
Qed.

Lemma round_trip_witness :
  ∃ wt wr,
    tx_code 255 (snd (enable_tx (world_of (new_device 6 1 350 10 24 70))))
      = (Ok true, wt)
    ∧ rx_edges (edge_times 0 (snd <$> wire wt))
        (snd (enable_rx (world_of (new_device 6 1 350 10 24 70))))
      = (Ok tt, wr)
    ∧ rx_code (device wr) = Some 255.
Proof.
  apply (round_trip 6 1 None 10 24 70 255 (new_device 6 1 350 10 24 70)
           (mkProtocol 350 1 31 1 3 3 1)).
  - reflexivity.
  - lia.
  - reflexivity.
  - apply (default_timing 1); [reflexivity | by left].
  - lia.
  - lia.
  - lia.
  - lia.
  - by vm_compute.
Defined.

(** ** The constructor *)

Lemma table_lookup pn :
  0 < pn < len PROTOCOLS → ∃ p, py_index PROTOCOLS pn = Ok (Some p).
Proof.
  unfold len. cbn [length PROTOCOLS]. intros H.
  assert (pn = 1 ∨ pn = 2 ∨ pn = 3 ∨ pn = 4 ∨ pn = 5 ∨ pn = 6) as Hpn by lia.
  destruct Hpn as [->|[->|[->|[->|[->| ->]]]]]; eexists; reflexivity.
Qed.

(** X1.  Without a pulse-length override (None or 0) the constructor
    looks the protocol up with Python's indexing: ids 1..6 and, counting
    from the end of the table, -6..-1 give a device with that protocol's
    pulse length; 0 and -7 reach the None entry and raise AttributeError;
    every other id raises IndexError.  With a nonzero override no look-up is
    made and any id, known or not, is accepted. *)
Theorem RFDevice_protocol_lookup g pn r l tol :
  (∀ plo, plo = None ∨ plo = Some 0 →
     (1 <= pn <= 6 ∨ -6 <= pn <= -1 →
      ∃ p, py_index PROTOCOLS pn = Ok (Some p)
           ∧ RFDevice g pn plo r l tol
             = Ok (new_device g pn (pulselength p) r l tol))
     ∧ (pn = 0 ∨ pn = -7 → RFDevice g pn plo r l tol = Raise AttributeError)
     ∧ (pn < -7 ∨ 6 < pn → RFDevice g pn plo r l tol = Raise IndexError))
  ∧ (∀ pl, pl ≠ 0 →
       RFDevice g pn (Some pl) r l tol = Ok (new_device g pn pl r l tol)).
Proof.
  split.
  - intros plo Hplo.
    assert (Hdef : RFDevice g pn plo r l tol =
                   match py_index PROTOCOLS pn with
                   | Ok (Some p) => Ok (new_device g pn (pulselength p) r l tol)
                   | Ok None => Raise AttributeError
                   | Raise e => Raise e
                   end)
      by (destruct Hplo as [->| ->]; reflexivity).
    rewrite Hdef. clear Hdef. split; [|split].
    + intros Hpn.
      assert (pn = 1 ∨ pn = 2 ∨ pn = 3 ∨ pn = 4 ∨ pn = 5 ∨ pn = 6
              ∨ pn = -6 ∨ pn = -5 ∨ pn = -4 ∨ pn = -3 ∨ pn = -2 ∨ pn = -1)
        as Hcases by lia.
      destruct Hcases as [->|[->|[->|[->|[->|[->|[->|[->|[->|[->|[->| ->]]]]]]]]]]];
        eexists; split; reflexivity.
    + intros [->| ->]; reflexivity.
    + intros Hpn. unfold py_index.
      change (Z.of_nat (length PROTOCOLS)) with 7. cbn zeta.
      destruct (Z.ltb_spec pn 0).
      * replace ((0 <=? pn + 7) && (pn + 7 <? 7)) with false by lia. done.
      * replace ((0 <=? pn) && (pn <? 7)) with false by lia. done.
  - intros pl Hpl. unfold RFDevice.
    replace (negb (pl =? 0)) with true by lia. done.
Qed.

Lemma RFDevice_protocol_lookup_witness :
  RFDevice 6 (-1) None 10 24 70 = Ok (new_device 6 (-1) 200 10 24 70)
  ∧ RFDevice 6 0 (Some 0) 10 24 70 = Raise AttributeError
  ∧ RFDevice 6 7 None 10 24 70 = Raise IndexError
  ∧ RFDevice 6 7 (Some 350) 10 24 70 = Ok (new_device 6 7 350 10 24 70).
Proof.
  destruct (RFDevice_protocol_lookup 6 (-1) 10 24 70) as [H1 _].
  destruct (H1 None (or_introl eq_refl)) as (Hok & _ & _).
  destruct (RFDevice_protocol_lookup 6 0 10 24 70) as [H2 _].
  destruct (H2 (Some 0) (or_intror eq_refl)) as (_ & Hattr & _).
  destruct (RFDevice_protocol_lookup 6 7 10 24 70) as [H3 H4].
  destruct (H3 None (or_introl eq_refl)) as (_ & _ & Hidx).
  split; [|split; [|split]].
  - destruct Hok as (p & Hp & ->); [lia|]. injection Hp as <-. reflexivity.
  - apply Hattr. by left.
  - apply Hidx. lia.
  - apply H4. lia.
Defined.

(** ** A transmitter that is not ready *)

Lemma tx_waveform_disabled high low w :
  tx_enabled (device w) = false → tx_waveform high low w = (Ok false, w).
Proof. intros H. unfold tx_waveform. run_m. by rewrite H. Qed.

(** Disabled, or with a protocol id outside the table, none of the three
    waveform methods sends anything. *)
Lemma tx_primitives_not_ready w :
  tx_enabled (device w) = false
  ∨ ¬ (0 < tx_proto (device w) < len PROTOCOLS) →
  tx_l0 w = (Ok false, w) ∧ tx_l1 w = (Ok false, w) ∧ tx_sync w = (Ok false, w).
Proof.
  intros H. unfold tx_l0, tx_l1, tx_sync. run_m.
  destruct ((0 <? tx_proto (device w)) && (tx_proto (device w) <? len PROTOCOLS))
    eqn:Hrange; cbn; [|done].
  destruct H as [Hdis|Hbad]; [|lia].
  destruct (table_lookup (tx_proto (device w))) as [p Hp]; [lia|].
  rewrite (protocol_ok _ _ _ Hp).
  by rewrite !tx_waveform_disabled.
Qed.

Lemma py_range_0_1_cons n :
  0 < n → ∃ rest, py_range 0 n 1 = 0 :: rest.
Proof.
  intros Hn. rewrite py_range_0_1.
  destruct (Z.to_nat n) as [|k] eqn:Hk; [lia|]. by eexists.
Qed.

Lemma py_range_0_1_nil n : n <= 0 → py_range 0 n 1 = [].
Proof. intros Hn. rewrite py_range_0_1. by replace (Z.to_nat n) with 0%nat by lia. Qed.

Lemma tx_bin_not_ready rawcode w :
  tx_enabled (device w) = false
  ∨ ¬ (0 < tx_proto (device w) < len PROTOCOLS) →
  0 < tx_repeat (device w) →
  tx_proto (device w) = 6 ∨ tx_length (device w) <= 0 ∨ 0 < len rawcode →
  tx_bin rawcode w = (Ok false, w).
Proof.
  intros Hnot Hrep Hraw.
  destruct (tx_primitives_not_ready w Hnot) as (Hl0 & Hl1 & Hsync).
  unfold tx_bin. rewrite (bind_ok _ _ w (device w) w) by done.
  destruct (py_range_0_1_cons _ Hrep) as [rest ->]. cbn [for_each].
  match goal with
  | |- (?body ≫= _) w = _ =>
      assert (Hbody : body w = (Ok false, w));
        [|by rewrite (bind_ok _ _ _ _ _ Hbody)]
  end.
  rewrite (bind_ok _ _ w (device w) w) by done.
  destruct (tx_proto (device w) =? 6) eqn:H6.
  { by rewrite (bind_ok _ _ _ _ _ Hsync). }
  rewrite (bind_ok _ _ w true w) by done. cbn [negb].
  rewrite (bind_ok _ _ w (device w) w) by done.
  destruct (Z.le_gt_cases (tx_length (device w)) 0) as [Hlen|Hlen].
  - rewrite py_range_0_1_nil by done. cbn [for_each].
    rewrite (bind_ok _ _ w true w) by done. done.
  - destruct (py_range_0_1_cons _ Hlen) as [rest' ->]. cbn [for_each].
    destruct Hraw as [Hraw|[Hraw|Hraw]]; [lia | lia |].
    destruct rawcode as [|c rawcode]; [unfold len in Hraw; cbn in Hraw; lia|].
    assert (Hbit : send_bit (c :: rawcode) 0 w = (Ok false, w)).
    { unfold send_bit. rewrite (bind_ok _ _ w c w) by done.
      by destruct (Ascii.eqb c "0"). }
    rewrite (bind_ok _ _ _ _ _ (bind_ok _ _ _ _ _ Hbit)). done.
Qed.

(** X2.  [tx_code] on a transmitter that is disabled, or whose protocol
    id is outside 1..6, returns False without an exception and without
    touching the output pin (with at least one repetition configured).  The
    device is unchanged, except that protocol 6 has set [tx_length] to 64
    before the failure is noticed. *)
Theorem tx_code_not_ready code w :
  tx_enabled (device w) = false
  ∨ ¬ (0 < tx_proto (device w) < len PROTOCOLS) →
  0 < tx_repeat (device w) →
  tx_code code w =
    (Ok false,
     if tx_proto (device w) =? 6
     then with_device (set_tx_length 64 (device w)) w else w).
Proof.
  intros Hnot Hrep. unfold tx_code.
  rewrite (bind_ok _ _ w (device w) w) by done.
  destruct (tx_proto (device w) =? 6) eqn:H6.
  - erewrite bind_ok; [|unfold assign; run_m; reflexivity].
    apply tx_bin_not_ready; cbn; [done | done | left; lia].
  - rewrite (bind_ok _ _ w _ w) by done.
    apply tx_bin_not_ready; [done | done |].
    destruct (Z.le_gt_cases (tx_length (device w)) 0) as [Hl|Hl]; [by right; left|].
    right; right. pose proof (length_rawcode (tx_length (device w)) code). lia.
Qed.

Lemma tx_code_not_ready_witness :
  tx_code 255 (world_of (new_device 6 1 350 10 24 70))
    = (Ok false, world_of (new_device 6 1 350 10 24 70))
  ∧ fst (tx_code 255 (snd (enable_tx (world_of (new_device 6 9 350 10 24 70)))))
    = Ok false.
Proof.
  split.
  - apply (tx_code_not_ready 255 (world_of (new_device 6 1 350 10 24 70)));
      [by left | done].
  - rewrite (tx_code_not_ready 255
               (snd (enable_tx (world_of (new_device 6 9 350 10 24 70)))));
      [done | right; vm_compute; intros [_ H]; discriminate H | done].
Defined.

(** X3.  With [tx_repeat <= 0] the repetition loop of [tx_bin] does not
    run: [tx_bin] and [tx_code] return True and send nothing, whatever the
    pattern, and even on a disabled transmitter or an unknown protocol. *)
Theorem no_repetitions_reports_success w :
  tx_repeat (device w) <= 0 →
  (∀ rawcode, tx_bin rawcode w = (Ok true, w))
  ∧ (∀ code, fst (tx_code code w) = Ok true
             ∧ wire (snd (tx_code code w)) = wire w).
Proof.
  intros Hrep.
  assert (Hbin : ∀ rawcode w0, tx_repeat (device w0) <= 0 →
                               tx_bin rawcode w0 = (Ok true, w0)).
  { intros rawcode w0 H0. unfold tx_bin.
    rewrite (bind_ok _ _ w0 (device w0) w0) by done.
    by rewrite py_range_0_1_nil. }
  split; [intros; by apply Hbin|].
  intros code. unfold tx_code.
  rewrite (bind_ok _ _ w (device w) w) by done.
  destruct (tx_proto (device w) =? 6).
  - erewrite bind_ok; [|unfold assign; run_m; reflexivity].
    rewrite Hbin by done. done.
  - rewrite (bind_ok _ _ w _ w) by done. rewrite Hbin by done. done.
Qed.

Lemma no_repetitions_reports_success_witness :
  fst (tx_code 255 (world_of (new_device 6 1 350 0 24 70))) = Ok true
  ∧ wire (snd (tx_code 255 (world_of (new_device 6 1 350 0 24 70)))) = [].
Proof.
  destruct (no_repetitions_reports_success
              (world_of (new_device 6 1 350 0 24 70))) as [_ H]; [done|].
  apply (H 255).
Defined.

(** ** Patterns and codes on the wire *)

(** X4.  [tx_bin] on an enabled transmitter with a protocol of the table
    sends the first [tx_length] symbols of its pattern in every repetition
    and ignores the rest.  A pattern with fewer than [tx_length] symbols,
    the empty one included, makes the first repetition raise IndexError
    after the leading sync of protocol 6 and the symbols that exist have
    been sent. *)
Theorem tx_bin_pattern_length d p rawcode w :
  device w = d →
  tx_enabled d = true → is_Some (tx_pin d) →
  0 < tx_proto d < len PROTOCOLS →
  py_index PROTOCOLS (tx_proto d) = Ok (Some p) →
  (tx_length d <= len rawcode →
   ∃ w', tx_bin rawcode w = (Ok true, w')
         ∧ device w' = d
         ∧ wire w' = wire w
                     ++ transmission d p (take (Z.to_nat (tx_length d)) rawcode))
  ∧ (len rawcode < tx_length d → 0 < tx_repeat d →
     ∃ w', tx_bin rawcode w = (Raise IndexError, w')
           ∧ device w' = d
           ∧ wire w' = wire w
                       ++ (if tx_proto d =? 6 then sync_pulses d p else [])
                       ++ concat (bit_pulses d p <$> rawcode)).
Proof.
  intros Hw Hen Hpin Hproto Hp. split.
  - intros Hlen.
    destruct (tx_bin_ok d p Hen Hpin Hproto Hp rawcode w Hw Hlen) as [level ->].
    eexists. split; [done|]. by split.
  - intros Hlen Hrep.
    destruct (tx_bin_raise d p Hen Hpin Hproto Hp rawcode w Hw Hlen Hrep)
      as [level ->].
    eexists. split; [done|]. by split.
Qed.

Lemma tx_bin_pattern_length_witness :
  let w := snd (enable_tx (world_of (new_device 6 1 350 2 4 70))) in
  (∃ w', tx_bin (list_ascii_of_string "101100") w = (Ok true, w')
         ∧ wire w' = transmission (device w) (mkProtocol 350 1 31 1 3 3 1)
                       (list_ascii_of_string "1011"))
  ∧ (∃ w', tx_bin [] w = (Raise IndexError, w') ∧ wire w' = []).
Proof.
  intros w.
  destruct (tx_bin_pattern_length (device w) (mkProtocol 350 1 31 1 3 3 1)
              (list_ascii_of_string "101100") w) as [Hok _];
    [reflexivity | reflexivity | by eexists | done | reflexivity |].
  destruct (tx_bin_pattern_length (device w) (mkProtocol 350 1 31 1 3 3 1)
              [] w) as [_ Hshort];
    [reflexivity | reflexivity | by eexists | done | reflexivity |].
  split.
  - destruct Hok as (w' & E & _ & Hwire); [by vm_compute|].
    exists w'. split; [exact E|]. rewrite Hwire. vm_compute. reflexivity.
  - destruct Hshort as (w' & E & _ & Hwire); [by vm_compute | by vm_compute |].
    exists w'. split; [exact E|]. rewrite Hwire. vm_compute. reflexivity.
Defined.

Lemma push_bits_zeros k acc :
  push_bits acc (bit_of <$> replicate k "0"%char) = acc * 2 ^ Z.of_nat k.
Proof.
  revert acc. induction k as [|k IH]; intros acc; [cbn; lia|].
  cbn [replicate fmap list_fmap]. unfold push_bits in *. cbn [fold_left].
  change (bit_of "0") with false. cbn iota.
  rewrite IH. rewrite Nat2Z.inj_succ, Z.pow_succ_r by lia. lia.
Qed.

(** The pattern [tx_code] builds for a non-negative code reads back as the
    code, whatever the padding. *)
Lemma pattern_value l code :
  0 <= code →
  bits_value (bit_of <$> (py_str_mul "0" (l + 0 - len (drop 2 (bin code)))
                            ++ drop 2 (bin code))) = code.
Proof.
  intros Hcode. destruct code as [|q|q]; [|apply bits_value_padded|lia].
  unfold py_str_mul. cbn [bin drop].
  change (bits_value ?bs) with (push_bits 0 bs).
  rewrite fmap_app, push_bits_app, push_bits_zeros. done.
Qed.

Lemma levels_of_transmission d p bits :
  tx_proto d ≠ 6 →
  fst <$> transmission d p bits
  = concat (replicate (Z.to_nat (tx_repeat d) * (length bits + 1)) [true; false]).
Proof.
  intros H6. unfold transmission.
  assert (Hframe : fst <$> frame d p bits
                   = concat (replicate (length bits + 1) [true; false])).
  { unfold frame. replace (tx_proto d =? 6) with false by lia. cbn [app].
    induction bits as [|c bits IH]; [done|].
    cbn [fmap list_fmap concat length Nat.add replicate].
    rewrite <- app_assoc, (fmap_app fst), IH.
    unfold bit_pulses. by destruct (Ascii.eqb c "0"). }
  induction (Z.to_nat (tx_repeat d)) as [|n IH]; [done|].
  cbn [replicate concat Nat.mul]. rewrite fmap_app, IH, Hframe.
  by rewrite (replicate_add (length bits + 1) (n * (length bits + 1))),
    concat_app.
Qed.

Lemma tx_code_fits d p code w :
  device w = d →
  tx_enabled d = true → is_Some (tx_pin d) →
  1 <= tx_proto d <= 5 →
  py_index PROTOCOLS (tx_proto d) = Ok (Some p) →
  0 <= code → len (drop 2 (bin code)) <= tx_length d →
  ∃ w' pattern,
    tx_code code w = (Ok true, w')
    ∧ device w' = d
    ∧ wire w' = wire w ++ transmission d p pattern
    ∧ len pattern = tx_length d
    ∧ bits_value (bit_of <$> pattern) = code.
Proof.
  intros Hw Hen Hpin Hproto Hp Hcode Hfits.
  destruct (tx_code_ok d p code w) as [level E]; try done.
  { unfold len. cbn. lia. }
  { lia. }
  set (pattern := py_str_mul "0" (tx_length d + 0 - len (drop 2 (bin code)))
                    ++ drop 2 (bin code)) in *.
  assert (Hlen : len pattern = tx_length d).
  { unfold pattern, len, py_str_mul in *.
    rewrite length_app, length_replicate. lia. }
  rewrite firstn_all2 in E by (unfold len in Hlen; lia).
  exists (sent (transmission d p pattern) level w), pattern.
  split; [exact E|]. split; [done|]. split; [done|]. split; [exact Hlen|].
  by apply pattern_value.
Qed.

(** X5.  Encoding.  On an enabled transmitter with a protocol id in 1..5,
    [tx_code] of a non-negative code that fits in [tx_length] bits (0
    included) returns True, leaves the device as it was, and sends
    [tx_repeat] frames of a pattern of exactly [tx_length] symbols whose
    value, most significant bit first, is the code.  The pin goes high, low,
    high, low, ...: 2 * (tx_length + 1) level changes per repetition. *)
Theorem tx_code_sends_the_code d p code w :
  device w = d →
  tx_enabled d = true → is_Some (tx_pin d) →
  1 <= tx_proto d <= 5 →
  py_index PROTOCOLS (tx_proto d) = Ok (Some p) →
  0 <= code → len (drop 2 (bin code)) <= tx_length d →
  ∃ w' pattern,
    tx_code code w = (Ok true, w')
    ∧ device w' = d
    ∧ wire w' = wire w ++ transmission d p pattern
    ∧ len pattern = tx_length d
    ∧ bits_value (bit_of <$> pattern) = code
    ∧ fst <$> transmission d p pattern
      = concat (replicate (Z.to_nat (tx_repeat d) * Z.to_nat (tx_length d + 1))
                  [true; false]).
Proof.
  intros Hw Hen Hpin Hproto Hp Hcode Hfits.
  destruct (tx_code_fits d p code w Hw Hen Hpin Hproto Hp Hcode Hfits)
    as (w' & pattern & E & Hd & Hwire & Hlen & Hval).
  exists w', pattern. repeat (split; [done|]).
  rewrite levels_of_transmission by lia. do 2 f_equal.
  unfold len in Hlen. lia.
Qed.

Lemma tx_code_sends_the_code_witness :
  let w := snd (enable_tx (world_of (new_device 6 1 350 10 24 70))) in
  ∃ w' pattern,
    tx_code 0 w = (Ok true, w')
    ∧ wire w' = transmission (device w) (mkProtocol 350 1 31 1 3 3 1) pattern
    ∧ len pattern = 24
    ∧ bits_value (bit_of <$> pattern) = 0.
Proof.
  intros w.
  destruct (tx_code_sends_the_code (device w) (mkProtocol 350 1 31 1 3 3 1) 0 w)
    as (w' & pattern & E & _ & Hwire & Hlen & Hval & _);
    [reflexivity | reflexivity | by eexists | done | reflexivity | done
    | by vm_compute |].
  exists w', pattern. split; [exact E|]. split; [exact Hwire|]. by split.
Defined.

Lemma bit_intervals_inj p pl bits1 : ∀ bits2,
  pl ≠ 0 →
  zero_high p ≠ one_high p ∨ zero_low p ≠ one_low p →
  concat (bit_intervals p pl <$> bits1) = concat (bit_intervals p pl <$> bits2) →
  bit_of <$> bits1 = bit_of <$> bits2.
Proof.
  induction bits1 as [|c1 bits1 IH]; intros bits2 Hpl Hsep Heq.
  - destruct bits2 as [|c2 bits2]; [done|].
    cbn in Heq. unfold bit_intervals in Heq.
    destruct (Ascii.eqb c2 "0"); discriminate.
  - destruct bits2 as [|c2 bits2].
    { cbn in Heq. unfold bit_intervals in Heq.
      destruct (Ascii.eqb c1 "0"); discriminate. }
    cbn [fmap list_fmap concat] in *. unfold bit_intervals at 1 3 in Heq.
    unfold bit_of at 1 3. unfold SCALE_TIME_US in Heq.
    destruct (Ascii.eqb c1 "0"), (Ascii.eqb c2 "0");
      cbn [app] in Heq; cbn [negb].
    + injection Heq as Hrest. f_equal. by apply IH.
    + injection Heq as Hh Hl Hrest.
      exfalso. destruct Hsep as [Hsep|Hsep]; apply Hsep; nia.
    + injection Heq as Hh Hl Hrest.
      exfalso. destruct Hsep as [Hsep|Hsep]; apply Hsep; nia.
    + injection Heq as Hrest. f_equal. by apply IH.
Qed.

Lemma transmission_inj d p bits1 bits2 :
  tx_proto d ≠ 6 → 0 < tx_repeat d → tx_pulselength d ≠ 0 →
  zero_high p ≠ one_high p ∨ zero_low p ≠ one_low p →
  length bits1 = length bits2 →
  transmission d p bits1 = transmission d p bits2 →
  bit_of <$> bits1 = bit_of <$> bits2.
Proof.
  intros H6 Hrep Hpl Hsep Hlen Heq.
  apply (f_equal (fmap snd)) in Heq.
  rewrite !transmission_of_intervals in Heq by done.
  destruct (Z.to_nat (tx_repeat d)) as [|n] eqn:Hn; [lia|].
  cbn [replicate concat] in Heq.
  apply app_inj_1 in Heq as [Hframe _].
  2:{ unfold frame_intervals. rewrite !length_app, !length_data_intervals. lia. }
  unfold frame_intervals, data_intervals in Hframe.
  apply app_inj_2 in Hframe as [Hdata _]; [|done].
  apply app_inj_2 in Hdata as [Hbits _]; [|done].
  by apply (bit_intervals_inj p (tx_pulselength d)).
Qed.

(** X6.  Distinct codes give distinct waveforms.  On an enabled
    transmitter with a protocol id in 1..5, a nonzero pulse length and at
    least one repetition, two different non-negative codes that fit in
    [tx_length] bits and are sent from the same state never put the same
    pulses on the wire. *)
Theorem tx_code_injective d p code1 code2 w :
  device w = d →
  tx_enabled d = true → is_Some (tx_pin d) →
  1 <= tx_proto d <= 5 →
  py_index PROTOCOLS (tx_proto d) = Ok (Some p) →
  tx_pulselength d ≠ 0 → 0 < tx_repeat d →
  0 <= code1 → len (drop 2 (bin code1)) <= tx_length d →
  0 <= code2 → len (drop 2 (bin code2)) <= tx_length d →
  code1 ≠ code2 →
  wire (snd (tx_code code1 w)) ≠ wire (snd (tx_code code2 w)).
Proof.
  intros Hw Hen Hpin Hproto Hp Hpl Hrep Hc1 Hf1 Hc2 Hf2 Hne Hwire.
  destruct (tx_code_fits d p code1 w)
    as (w1 & pat1 & E1 & _ & Hw1 & Hl1 & Hv1); try done.
  destruct (tx_code_fits d p code2 w)
    as (w2 & pat2 & E2 & _ & Hw2 & Hl2 & Hv2); try done.
  rewrite E1, E2 in Hwire. cbn [snd] in Hwire. rewrite Hw1, Hw2 in Hwire.
  apply app_inv_head in Hwire.
  apply transmission_inj in Hwire;
    [| lia | done | done | by apply (table_separated (tx_proto d))
     | unfold len in *; lia].
  apply Hne. by rewrite <- Hv1, <- Hv2, Hwire.
Qed.

Lemma tx_code_injective_witness :
  let w := snd (enable_tx (world_of (new_device 6 1 350 10 24 70))) in
  wire (snd (tx_code 255 w)) ≠ wire (snd (tx_code 254 w)).
Proof.
  intros w.
  apply (tx_code_injective (device w) (mkProtocol 350 1 31 1 3 3 1) 255 254 w).
  - reflexivity.
  - reflexivity.
  - by eexists.
  - vm_compute. split; discriminate.
  - reflexivity.
  - vm_compute. discriminate.
  - reflexivity.
  - lia.
  - vm_compute. discriminate.
  - lia.
  - vm_compute. discriminate.
  - lia.
Defined.

Lemma pos_digits_lead q :
  ∃ q', Zpos q' = 2 ^ len (pos_digits q) + Zpos q
        ∧ pos_digits q' = "1"%char :: pos_digits q.
Proof.
  unfold len. induction q as [q (q' & Hv & Hd)|q (q' & Hv & Hd)|].
  - exists (q'~1)%positive. cbn [pos_digits]. rewrite Hd, length_app.
    split; [|done]. cbn [length].
    rewrite Nat2Z.inj_add, Z.pow_add_r by lia. cbn. lia.
  - exists (q'~0)%positive. cbn [pos_digits]. rewrite Hd, length_app.
    split; [|done]. cbn [length].
    rewrite Nat2Z.inj_add, Z.pow_add_r by lia. cbn. lia.
  - exists 3%positive. done.
Qed.

(** What is sent for a pattern depends only on which of its characters are
    "0". *)
Lemma transmission_ext d p bits1 bits2 :
  bit_of <$> bits1 = bit_of <$> bits2 →
  transmission d p bits1 = transmission d p bits2.
Proof.
  intros Heq. unfold transmission, frame.
  assert (Hc : concat (bit_pulses d p <$> bits1)
               = concat (bit_pulses d p <$> bits2)); [|by rewrite Hc].
  revert bits2 Heq. induction bits1 as [|c1 bits1 IH]; intros [|c2 bits2] Heq;
    try discriminate; [done|].
  cbn [fmap list_fmap concat] in *. injection Heq as Hc Hrest.
  f_equal; [|by apply IH].
  unfold bit_pulses, bit_of in *.
  by destruct (Ascii.eqb c1 "0"), (Ascii.eqb c2 "0").
Qed.

(** X7.  A negative code is not rejected.  [bin(code)[2:]] of a negative
    code is "b" followed by the digits of its absolute value, and [tx_bin]
    sends every character other than "0" as a one: when that string fits in
    [tx_length], [tx_code] returns True and puts on the wire exactly what it
    sends for the positive code [2 ^ k + |code|], where [k] is the number of
    binary digits of [|code|]. *)
Theorem negative_code_is_sent d p q w :
  let k := len (pos_digits q) in
  device w = d →
  tx_enabled d = true → is_Some (tx_pin d) →
  1 <= tx_proto d <= 5 →
  py_index PROTOCOLS (tx_proto d) = Ok (Some p) →
  k + 1 <= tx_length d →
  fst (tx_code (Zneg q) w) = Ok true
  ∧ fst (tx_code (2 ^ k + Zpos q) w) = Ok true
  ∧ wire (snd (tx_code (Zneg q) w)) = wire (snd (tx_code (2 ^ k + Zpos q) w)).
Proof.
  intros k Hw Hen Hpin Hproto Hp Hfits.
  destruct (pos_digits_lead q) as (q' & Hv & Hd). fold k in Hv.
  rewrite <- Hv.
  assert (Hready : 0 < tx_proto d < len PROTOCOLS) by (unfold len; cbn; lia).
  destruct (tx_code_ok d p (Zneg q) w) as [l1 E1]; try done; [lia|].
  destruct (tx_code_ok d p (Zpos q') w) as [l2 E2]; try done; [lia|].
  rewrite E1, E2. split; [done|]. split; [done|].
  cbn [snd sent wire bin drop]. rewrite !drop_0, Hd. f_equal.
  apply transmission_ext. rewrite !fmap_take. f_equal.
  unfold len. cbn [length]. rewrite !fmap_app. done.
Qed.

Lemma negative_code_is_sent_witness :
  let w := snd (enable_tx (world_of (new_device 6 1 350 10 24 70))) in
  fst (tx_code (-5) w) = Ok true
  ∧ wire (snd (tx_code (-5) w)) = wire (snd (tx_code 13 w)).
Proof.
  intros w.
  destruct (negative_code_is_sent (device w) (mkProtocol 350 1 31 1 3 3 1)
              5%positive w) as (H1 & _ & H2);
    [reflexivity | reflexivity | by eexists | done | reflexivity
    | by vm_compute |].
  split; [exact H1 | exact H2].
Defined.

(** ** What the handler changes *)

Lemma same_config_refl d : same_config d d.
Proof. by repeat split. Qed.

Lemma same_config_trans d1 d2 d3 :
  same_config d1 d2 → same_config d2 d3 → same_config d1 d3.
Proof.
  unfold same_config. intros H1 H2.
  destruct H1 as (?&?&?&?&?&?&?&?&?&?&?&?&?&?).
  destruct H2 as (?&?&?&?&?&?&?&?&?&?&?&?&?&?).
  repeat split; congruence.
Qed.

(** One invocation of the handler, whatever its outcome: the configuration
    and the wire are as before, and the mailbox is as before unless this is a
    sync edge after which the decoder accepted a frame; then the mailbox holds
    that code and the timestamp of this edge. *)
Lemma rx_callback_effect timestamp w :
  buffer_ok (device w) →
  same_config (device w) (device (snd (rx_callback timestamp w)))
  ∧ wire (snd (rx_callback timestamp w)) = wire w
  ∧ pin_level (snd (rx_callback timestamp w)) = pin_level w
  ∧ (same_mailbox (device w) (device (snd (rx_callback timestamp w)))
     ∨ ∃ p c,
         THRESHOLD_SYNC < timestamp - _rx_last_timestamp (device w)
         ∧ 1 < _rx_change_count (device w) - 1
         ∧ py_index PROTOCOLS (rx_proto (device w)) = Ok (Some p)
         ∧ accepted (at_sync (device w)) p (_rx_change_count (device w) - 1)
           = Some c
         ∧ rx_code (device (snd (rx_callback timestamp w))) = Some c
         ∧ rx_code_timestamp (device (snd (rx_callback timestamp w)))
           = Some timestamp).
Proof.
  intros [Hlen Hcc]. unfold MAX_CHANGES in *.
  assert (Hl : len (_rx_timings (device w)) = 68) by (unfold len; lia).
  destruct (Z.le_gt_cases (timestamp - _rx_last_timestamp (device w))
              THRESHOLD_TICK) as [Hn|Hn].
  { rewrite rx_callback_noise by done. cbn.
    split; [by repeat split|]. split; [done|]. split; [done|]. by left. }
  destruct (Z.le_gt_cases (timestamp - _rx_last_timestamp (device w))
              THRESHOLD_SYNC) as [Hs|Hs].
  - destruct (Z.lt_ge_cases (_rx_change_count (device w)) MAX_CHANGES)
      as [Ho|Ho]; unfold MAX_CHANGES in *.
    + rewrite rx_callback_data by (unfold MAX_CHANGES; lia). cbn.
      split; [by repeat split|]. split; [done|]. split; [done|]. by left.
    + rewrite rx_callback_overflow by (unfold MAX_CHANGES; lia). cbn.
      split; [by repeat split|]. split; [done|]. split; [done|]. by left.
  - destruct (Z.le_gt_cases (_rx_change_count (device w) - 1) 1) as [Hc|Hc].
    + destruct (rx_callback_sync timestamp (mkProtocol 0 0 0 0 0 0 0) w)
        as (v & -> & _); [lia.. |].
      cbn. replace (_ - 1 >? 1) with false by lia. cbn.
      split; [by repeat split|]. split; [done|]. split; [done|]. by left.
    + destruct (py_index PROTOCOLS (rx_proto (device w))) as [[p|]|e] eqn:Ep.
      * destruct (rx_callback_sync timestamp p w)
          as (v & -> & _); [lia | done | lia..|].
        cbn. replace (_ - 1 >? 1) with true by lia.
        fold (at_sync (device w)).
        destruct (accepted (at_sync (device w)) p
                    (_rx_change_count (device w) - 1)) as [c|] eqn:Hacc; cbn.
        -- split; [by repeat split|]. split; [done|]. split; [done|].
           right. exists p, c. by repeat split.
        -- split; [by repeat split|]. split; [done|]. split; [done|]. by left.
      * destruct (rx_callback_sync_raise timestamp w) as (e & ->);
          [lia | lia | by rewrite Ep | lia |].
        cbn. split; [by repeat split|]. split; [done|]. split; [done|]. by left.
      * destruct (rx_callback_sync_raise timestamp w) as (e' & ->);
          [lia | lia | by rewrite Ep | lia |].
        cbn. split; [by repeat split|]. split; [done|]. split; [done|]. by left.
Qed.

(** ** The mailbox *)

Lemma push_bits_bounds bs : ∀ acc,
  0 <= acc →
  0 <= push_bits acc bs < (acc + 1) * 2 ^ Z.of_nat (length bs).
Proof.
  induction bs as [|b bs IH]; intros acc Hacc.
  - cbn. lia.
  - change (push_bits acc (b :: bs))
      with (push_bits (2 * acc + (if b then 1 else 0)) bs).
    cbn [length]. rewrite Nat2Z.inj_succ, Z.pow_succ_r by lia.
    specialize (IH (2 * acc + (if b then 1 else 0))).
    assert (0 < 2 ^ Z.of_nat (length bs)) by (apply Z.pow_pos_nonneg; lia).
    destruct b; nia.
Qed.

Lemma length_py_range_pairs n : n <= 66 → (length (py_range 1 n 2) <= 33)%nat.
Proof.
  intros Hn. unfold py_range. rewrite length_fmap, length_seq.
  replace (n - 1 + 2 - 1) with n by lia.
  assert (n `div` 2 <= 33) by (apply Z.div_le_upper_bound; lia). lia.
Qed.

(** A code the decoder accepts is positive and has at most one bit per
    buffered pair. *)
Lemma accepted_bounds d p n c :
  accepted d p n = Some c → n <= 66 → 0 < c < 2 ^ 33.
Proof.
  unfold accepted, frame_bits. intros Hacc Hn.
  destruct (mapM _ _) as [bs|] eqn:Hbs; [|discriminate].
  destruct (_ && _) eqn:Hcond; [|discriminate]. injection Hacc as <-.
  apply length_mapM in Hbs. pose proof (length_py_range_pairs n Hn) as Hlen.
  pose proof (push_bits_bounds bs 0 ltac:(lia)) as Hb.
  change (push_bits 0 bs) with (bits_value bs) in Hb.
  assert (2 ^ Z.of_nat (length bs) <= 2 ^ 33) by (apply Z.pow_le_mono_r; lia).
  apply andb_true_iff in Hcond as [_ Hnz].
  apply negb_true_iff, Z.eqb_neq in Hnz.
  lia.
Qed.

Lemma mailbox_ok_mono seen seen' d :
  seen ⊆ seen' → mailbox_ok seen d → mailbox_ok seen' d.
Proof.
  unfold mailbox_ok. intros Hsub. destruct (rx_code d); [|done].
  intros (Hc & t & Ht & Hin). split; [done|]. exists t. split; [done|].
  by apply Hsub.
Qed.

Lemma rx_callback_mailbox t seen w :
  buffer_ok (device w) → mailbox_ok seen (device w) →
  mailbox_ok (seen ++ [t]) (device (snd (rx_callback t w))).
Proof.
  intros Hok Hmb.
  destruct (rx_callback_effect t w Hok) as (_ & _ & _ & [[Hc Ht]|Hnew]).
  - unfold mailbox_ok in *. rewrite Hc, Ht.
    destruct (rx_code (device w)); [|done].
    destruct Hmb as (Hb & t' & Ht' & Hin). split; [done|].
    exists t'. split; [done|]. apply elem_of_app. by left.
  - destruct Hnew as (p & c & _ & _ & _ & Hacc & Hc & Ht).
    unfold mailbox_ok. rewrite Hc, Ht. split.
    + apply (accepted_bounds _ _ _ _ Hacc).
      destruct Hok as [_ Hcc]. unfold MAX_CHANGES in Hcc. lia.
    + exists t. split; [done|]. apply elem_of_app. right. by apply list_elem_of_singleton.
Qed.

Lemma irq_run_mailbox timestamps : ∀ seen w,
  buffer_ok (device w) → Forall in_buffer (touched w) →
  mailbox_ok seen (device w) →
  mailbox_ok (seen ++ timestamps) (device (irq_run timestamps w)).
Proof.
  induction timestamps as [|t rest IH]; intros seen w Hok Htch Hmb.
  - by rewrite app_nil_r.
  - change (irq_run (t :: rest) w) with (irq_run rest (snd (rx_callback t w))).
    replace (seen ++ t :: rest) with ((seen ++ [t]) ++ rest)
      by (by rewrite <- app_assoc).
    destruct (rx_callback_in_bounds t w Hok Htch) as [Hok' Htch'].
    apply IH; [done..|]. by apply rx_callback_mailbox.
Qed.

Lemma fresh_buffer_ok g pn pl r l tol d :
  RFDevice g pn pl r l tol = Ok d →
  buffer_ok d ∧ rx_code d = None.
Proof.
  intros H. destruct (RFDevice_fresh _ _ _ _ _ _ _ H)
    as (_ & _ & Ht & Hcc & _ & _ & Hc & _).
  split; [|done]. split.
  - by rewrite Ht, length_replicate.
  - rewrite Hcc. unfold MAX_CHANGES. lia.
Qed.

(** X8. The edge handler only ever writes the interval buffer, its counters,
    the last timestamp and the mailbox: whatever edges are delivered to a
    device with a well-formed buffer, and whether or not invocations raise,
    the configuration, the role flags, the pins, the pin level and the wire
    are as before. *)
Theorem handler_keeps_configuration timestamps w :
  buffer_ok (device w) → Forall in_buffer (touched w) →
  same_config (device w) (device (irq_run timestamps w))
  ∧ wire (irq_run timestamps w) = wire w
  ∧ pin_level (irq_run timestamps w) = pin_level w.
Proof.
  revert w. induction timestamps as [|t rest IH]; intros w Hok Htch.
  - cbn. split; [apply same_config_refl|done].
  - change (irq_run (t :: rest) w) with (irq_run rest (snd (rx_callback t w))).
    destruct (rx_callback_in_bounds t w Hok Htch) as [Hok' Htch'].
    destruct (rx_callback_effect t w Hok) as (Hcfg & Hwire & Hpin & _).
    destruct (IH _ Hok' Htch') as (Hcfg' & Hwire' & Hpin').
    split; [by eapply same_config_trans|].
    split; congruence.
Qed.

Lemma handler_keeps_configuration_witness :
  let w := world_of (new_device 6 1 350 10 24 80) in
  same_config (device w) (device (irq_run [400; 20000; 20400] w))
  ∧ wire (irq_run [400; 20000; 20400] w) = wire w
  ∧ pin_level (irq_run [400; 20000; 20400] w) = pin_level w.
Proof.
  apply (handler_keeps_configuration [400; 20000; 20400]
           (world_of (new_device 6 1 350 10 24 80))).
  - split; [reflexivity | vm_compute; split; discriminate].
  - apply Forall_nil_2.
Defined.

Lemma fresh_mailbox g pn pl r l tol d timestamps :
  RFDevice g pn pl r l tol = Ok d →
  mailbox_ok timestamps (device (irq_run timestamps (world_of d))).
Proof.
  intros Hd. destruct (fresh_buffer_ok _ _ _ _ _ _ _ Hd) as [Hok Hc].
  apply (irq_run_mailbox timestamps [] (world_of d)); [done| apply Forall_nil_2 |].
  unfold mailbox_ok. cbn. by rewrite Hc.
Qed.

(** X9. Whatever edges are delivered to a device as the constructor leaves
    it, the mailbox is empty or holds a positive code below 2^33 together
    with the timestamp of one of the delivered edges: the decoder never
    publishes 0, a negative code or a code of more than 33 bits. *)
Theorem mailbox_holds_positive_code g pn pl r l tol d timestamps :
  RFDevice g pn pl r l tol = Ok d →
  match rx_code (device (irq_run timestamps (world_of d))) with
  | None => True
  | Some c =>
      0 < c < 2 ^ 33
      ∧ ∃ t, rx_code_timestamp (device (irq_run timestamps (world_of d))) = Some t
             ∧ t ∈ timestamps
  end.
Proof.
  intros Hd. destruct (fresh_buffer_ok _ _ _ _ _ _ _ Hd) as [Hok Hc].
  change (mailbox_ok ([] ++ timestamps)
            (device (irq_run timestamps (world_of d)))).
  apply irq_run_mailbox; [done | apply Forall_nil_2 |].
  unfold mailbox_ok. cbn. by rewrite Hc.
Qed.

(** X9 witness: the edges of one transmission of code 5. *)
Lemma mailbox_holds_positive_code_witness :
  let d := new_device 6 1 350 2 24 80 in
  let timestamps :=
    edge_times 0 (snd <$> transmission d (mkProtocol 350 1 31 1 3 3 1)
                            (bin 5)) in
  RFDevice 6 1 None 2 24 80 = Ok d
  ∧ match rx_code (device (irq_run timestamps (world_of d))) with
    | None => True
    | Some c =>
        0 < c < 2 ^ 33
        ∧ ∃ t, rx_code_timestamp (device (irq_run timestamps (world_of d)))
               = Some t
               ∧ t ∈ timestamps
    end.
Proof.
  split; [reflexivity|].
  apply (mailbox_holds_positive_code 6 1 None 2 24 80
           (new_device 6 1 350 2 24 80)).
  reflexivity.
Defined.

(** ** Polling the mailbox *)

Lemma received_rx_nonzero w :
  rx_code (device w) ≠ Some 0 →
  received_rx w
  = (Ok (rx_code (device w)),
     match rx_code (device w) with
     | Some _ => with_device (set_rx_code None (device w)) w
     | None => w
     end).
Proof.
  intros Hnz. unfold received_rx. run_m.
  destruct (rx_code (device w)) as [c|] eqn:Hc; cbn; [|done].
  destruct (Z.eqb_spec c 0) as [->|Hne]; [done|]. cbn.
  by destruct w.
Qed.

(** X10. Polling after any edges were delivered to a constructed device:
    [received_rx] returns the mailbox and leaves it empty, keeps the
    timestamp of the code it handed out and everything else of the device,
    and a second poll returns None and changes nothing.  A code is handed
    out once. *)
Theorem received_rx_hands_out_once g pn pl r l tol d timestamps :
  RFDevice g pn pl r l tol = Ok d →
  let w := irq_run timestamps (world_of d) in
  ∃ w',
    received_rx w = (Ok (rx_code (device w)), w')
    ∧ device w' = set_rx_code None (device w)
    ∧ wire w' = wire w ∧ touched w' = touched w
    ∧ received_rx w' = (Ok None, w').
Proof.
  intros Hd w.
  pose proof (fresh_mailbox _ _ _ _ _ _ _ timestamps Hd) as Hmb.
  fold w in Hmb. unfold mailbox_ok in Hmb.
  assert (Hnz : rx_code (device w) ≠ Some 0).
  { intros E. rewrite E in Hmb. lia. }
  rewrite (received_rx_nonzero w Hnz).
  destruct (rx_code (device w)) as [c|] eqn:Hc.
  - eexists. split; [reflexivity|]. cbn. split; [done|].
    split; [done|]. split; [done|].
    by rewrite received_rx_nonzero.
  - exists w. split; [done|]. split.
    + apply device_ext; cbn; try reflexivity. by rewrite Hc.
    + split; [done|]. split; [done|].
      rewrite received_rx_nonzero by (by rewrite Hc). by rewrite Hc.
Qed.

Lemma rx_code_set_rx_code v d : rx_code (set_rx_code v d) = v.
Proof. done. Qed.

Lemma rx_code_timestamp_set_rx_code v d :
  rx_code_timestamp (set_rx_code v d) = rx_code_timestamp d.
Proof. done. Qed.

Lemma received_rx_hands_out_once_witness :
  let d := new_device 6 1 350 2 24 80 in
  let timestamps :=
    edge_times 0 (snd <$> transmission d (mkProtocol 350 1 31 1 3 3 1)
                            (bin 5)) in
  let w := irq_run timestamps (world_of d) in
  ∃ w',
    received_rx w = (Ok (Some 13), w')
    ∧ rx_code (device w') = None
    ∧ rx_code_timestamp (device w') = Some 109200
    ∧ received_rx w' = (Ok None, w').
Proof.
  intros d timestamps w.
  destruct (received_rx_hands_out_once 6 1 None 2 24 80 d timestamps eq_refl)
    as (w' & E & Hd & _ & _ & E2).
  assert (Hc : rx_code (device (irq_run timestamps (world_of d))) = Some 13)
    by (vm_compute; reflexivity).
  assert (Ht : rx_code_timestamp (device (irq_run timestamps (world_of d)))
               = Some 109200)
    by (vm_compute; reflexivity).
  exists w'. rewrite Hc in E. split; [exact E|].
  rewrite Hd, rx_code_set_rx_code, rx_code_timestamp_set_rx_code.
  split; [reflexivity|]. split; [exact Ht | exact E2].
Defined.

(** ** A receive protocol outside the table *)

Lemma table_no_entry pn :
  (pn = 0 ∨ pn = -7 → py_index PROTOCOLS pn = Ok None)
  ∧ (pn < -7 ∨ 6 < pn → py_index PROTOCOLS pn = Raise IndexError).
Proof.
  split.
  - intros [->| ->]; reflexivity.
  - intros Hpn. unfold py_index.
    change (Z.of_nat (length PROTOCOLS)) with 7. cbn zeta.
    destruct (Z.ltb_spec pn 0).
    + replace ((0 <=? pn + 7) && (pn + 7 <? 7)) with false by lia. done.
    + replace ((0 <=? pn) && (pn <? 7)) with false by lia. done.
Qed.

Lemma rx_waveform_lookup_fails pnum n timestamp w e :
  0 < len (_rx_timings (device w)) →
  (py_index PROTOCOLS pnum = Ok None ∧ e = AttributeError)
  ∨ py_index PROTOCOLS pnum = Raise e →
  _rx_waveform pnum n timestamp w
  = (Raise e, with_touched (touched w ++ [0]) w).
Proof.
  intros Hlen Hp. unfold _rx_waveform.
  rewrite (bind_ok _ _ _ _ _ (timings_get_ok w 0 ltac:(lia))).
  unfold protocol. run_m.
  destruct Hp as [[-> ->]| ->]; done.
Qed.

Lemma rx_callback_lookup_fails timestamp w e :
  THRESHOLD_SYNC < timestamp - _rx_last_timestamp (device w) →
  1 < _rx_change_count (device w) - 1 →
  0 < len (_rx_timings (device w)) →
  (py_index PROTOCOLS (rx_proto (device w)) = Ok None ∧ e = AttributeError)
  ∨ py_index PROTOCOLS (rx_proto (device w)) = Raise e →
  rx_callback timestamp w
  = (Raise e,
     mkWorld (at_sync (device w)) (pin_level w) (wire w) (touched w ++ [0])
       (negb (debug1 w)) (negb (debug2 w))).
Proof.
  intros Hdur Hcc Hlen Hp.
  unfold rx_callback. run_m.
  replace (_ >? THRESHOLD_TICK) with true
    by (unfold THRESHOLD_SYNC, THRESHOLD_TICK in *; lia).
  replace (_ >? THRESHOLD_SYNC) with true by lia.
  cbn.
  replace (_ - 1 >? 1) with true by lia.
  set (w1 := mkWorld _ _ _ _ _ _).
  rewrite (rx_waveform_lookup_fails (rx_proto (device w))
             (_rx_change_count (device w) - 1) timestamp w1 e);
    [done | cbn; lia | done].
Qed.

Lemma irq_run_same_mailbox (P : Device → Prop) timestamps :
  (∀ d d', same_config d d' → P d → P d') →
  (∀ t w, buffer_ok (device w) → P (device w) →
          same_mailbox (device w) (device (snd (rx_callback t w)))) →
  ∀ w, buffer_ok (device w) → Forall in_buffer (touched w) → P (device w) →
       same_mailbox (device w) (device (irq_run timestamps w)).
Proof.
  intros Hcfg Hstep.
  induction timestamps as [|t rest IH]; intros w Hok Htch HP; [done|].
  change (irq_run (t :: rest) w) with (irq_run rest (snd (rx_callback t w))).
  destruct (rx_callback_in_bounds t w Hok Htch) as [Hok' Htch'].
  destruct (rx_callback_effect t w Hok) as (Hc & _).
  destruct (Hstep t w Hok HP) as [H1 H2].
  destruct (IH _ Hok' Htch' (Hcfg _ _ Hc HP)) as [H3 H4].
  split; congruence.
Qed.

(** X11. A device whose receive protocol is outside the table (possible
    with a pulse-length override, which skips the constructor's look-up):
    whatever edges arrive, the mailbox never changes; and at a sync edge
    with at least three buffered intervals the handler raises, AttributeError
    for ids 0 and -7 and IndexError for ids below -7 or above 6, after it
    has adjusted the two counters and before it resets the buffer or moves
    the last timestamp. *)
Theorem unknown_protocol_never_receives w :
  buffer_ok (device w) → Forall in_buffer (touched w) →
  ¬ (1 <= rx_proto (device w) <= 6 ∨ -6 <= rx_proto (device w) <= -1) →
  (∀ timestamps, same_mailbox (device w) (device (irq_run timestamps w)))
  ∧ (∀ timestamp,
       THRESHOLD_SYNC < timestamp - _rx_last_timestamp (device w) →
       2 < _rx_change_count (device w) →
       rx_callback timestamp w
       = (Raise (if decide (rx_proto (device w) = 0 ∨ rx_proto (device w) = -7)
                 then AttributeError else IndexError),
          mkWorld (at_sync (device w)) (pin_level w) (wire w)
            (touched w ++ [0]) (negb (debug1 w)) (negb (debug2 w)))).
Proof.
  intros Hok Htch Hpn.
  assert (Hno : ∀ d, rx_proto d = rx_proto (device w) →
                     ∀ p, py_index PROTOCOLS (rx_proto d) ≠ Ok (Some p)).
  { intros d -> p Hp.
    destruct (table_no_entry (rx_proto (device w))) as [H0 Hout].
    destruct (decide (rx_proto (device w) = 0 ∨ rx_proto (device w) = -7))
      as [Hz|Hnz].
    - rewrite (H0 Hz) in Hp. discriminate.
    - rewrite Hout in Hp by lia. discriminate. }
  split.
  - intros timestamps.
    apply (irq_run_same_mailbox
             (λ d, rx_proto d = rx_proto (device w))); [| |done..].
    + intros d d' Hc Hd. destruct Hc as (_&_&_&_&_&_&_&_&Hrp&_). congruence.
    + intros t w0 Hok0 Hp0.
      destruct (rx_callback_effect t w0 Hok0) as (_ & _ & _ & [Hs|Hnew]);
        [done|].
      destruct Hnew as (p & c & _ & _ & Hp & _).
      by destruct (Hno _ Hp0 p).
  - intros timestamp Hdur Hcc.
    destruct Hok as [Hlen _]. unfold MAX_CHANGES in Hlen.
    destruct (table_no_entry (rx_proto (device w))) as [H0 Hout].
    apply rx_callback_lookup_fails; [done | lia | unfold len; lia |].
    destruct (decide (rx_proto (device w) = 0 ∨ rx_proto (device w) = -7))
      as [Hz|Hnz].
    + left. by split; [apply H0|].
    + right. apply Hout. lia.
Qed.

Lemma unknown_protocol_never_receives_witness :
  let w := irq_run [400; 800; 1200] (world_of (new_device 6 9 350 10 24 80)) in
  (∀ timestamps, same_mailbox (device w) (device (irq_run timestamps w)))
  ∧ rx_callback 20000 w
    = (Raise IndexError,
       mkWorld (at_sync (device w)) (pin_level w) (wire w)
         (touched w ++ [0]) (negb (debug1 w)) (negb (debug2 w))).
Proof.
  destruct (unknown_protocol_never_receives
              (irq_run [400; 800; 1200]
                 (world_of (new_device 6 9 350 10 24 80)))) as [H1 H2].
  - split; [reflexivity | vm_compute; split; discriminate].
  - vm_compute. repeat constructor; discriminate.
  - vm_compute. intros [[_ H]|[_ H]]; apply H; reflexivity.
  - split; [exact H1|]. apply H2; vm_compute; reflexivity.
Defined.

(** ** Tolerance 0 *)

Lemma py_range_1_2_cons n : 1 < n → ∃ rest, py_range 1 n 2 = 1 :: rest.
Proof.
  intros Hn. unfold py_range.
  replace (n - 1 + 2 - 1) with n by lia.
  assert (1 <= n `div` 2) by (apply Z.div_le_lower_bound; lia).
  destruct (Z.to_nat (n `div` 2)) as [|k] eqn:Hk; [lia|]. by eexists.
Qed.

Lemma accepted_zero_tolerance d p n :
  rx_tolerance d = 0 → 1 < n → accepted d p n = None.
Proof.
  intros Htol Hn. unfold accepted, frame_bits.
  destruct (py_range_1_2_cons n Hn) as [rest ->].
  assert (Hw : ∀ t e, within t e (frame_tolerance d p) = false).
  { intros t e. unfold frame_tolerance. rewrite Htol.
    apply not_true_is_false. rewrite within_spec. lia. }
  assert (Hpb : pair_bit d p (frame_delay d p) (frame_tolerance d p) 1 = None).
  { unfold pair_bit, pair_matches. by rewrite !Hw. }
  cbn [mapM]. by rewrite Hpb.
Qed.

(** X12. With a receive tolerance of 0 the window [delay * 0 / 100] is
    empty, the strict comparison of the decoder fails on the first pair of
    every frame, and no code is ever published, whatever edges arrive. *)
Theorem zero_tolerance_never_receives timestamps w :
  buffer_ok (device w) → Forall in_buffer (touched w) →
  rx_tolerance (device w) = 0 →
  same_mailbox (device w) (device (irq_run timestamps w)).
Proof.
  intros Hok Htch Htol.
  apply (irq_run_same_mailbox (λ d, rx_tolerance d = 0)); [| |done..].
  - intros d d' Hc Hd. destruct Hc as (_&_&_&_&_&_&_&Hrt&_). congruence.
  - intros t w0 Hok0 Ht0.
    destruct (rx_callback_effect t w0 Hok0) as (_ & _ & _ & [Hs|Hnew]);
      [done|].
    destruct Hnew as (p & c & _ & Hcc & _ & Hacc & _).
    rewrite accepted_zero_tolerance in Hacc; [discriminate| |done].
    by cbn.
Qed.

Lemma zero_tolerance_never_receives_witness :
  let d := new_device 6 1 350 2 24 0 in
  let timestamps :=
    edge_times 0 (snd <$> transmission d (mkProtocol 350 1 31 1 3 3 1)
                            (bin 5)) in
  same_mailbox d (device (irq_run timestamps (world_of d))).
Proof.
  apply (zero_tolerance_never_receives _ (world_of (new_device 6 1 350 2 24 0))).
  - split; [reflexivity | vm_compute; split; discriminate].
  - apply Forall_nil_2.
  - reflexivity.
Defined.

(** ** Transmissions delivered to any receiver *)

(** [S n] repetitions of a frame delivered to the handler: the end state is
    synchronised (the sync gap in slot 0, [change_count = 1]); the frame is
    in the mailbox when there were at least two repetitions or the receiver
    started synchronised at the same pulse length. *)
Lemma rx_repetitions pnum p pl tol bits n :
  py_index PROTOCOLS pnum = Ok (Some p) →
  timing_ok p pl → 1 <= tol <= 100 →
  1 <= len bits <= 32 →
  ∀ w,
    rx_proto (device w) = pnum → rx_tolerance (device w) = tol →
    length (_rx_timings (device w)) = 68%nat →
    0 <= _rx_change_count (device w) <= 1 →
    ∃ w',
      rx_edges (edge_times (_rx_last_timestamp (device w))
                  (concat (replicate (S n) (frame_intervals p pl bits)))) w
        = (Ok tt, w')
      ∧ rx_proto (device w') = pnum ∧ rx_tolerance (device w') = tol
      ∧ length (_rx_timings (device w')) = 68%nat
      ∧ _rx_change_count (device w') = 1
      ∧ _rx_timings (device w') !! 0%nat
        = Some (sync_low p * pl * SCALE_TIME_US)
      ∧ _rx_last_timestamp (device w')
        = _rx_last_timestamp (device w)
          + total (concat (replicate (S n) (frame_intervals p pl bits)))
      ∧ ((1 <= n)%nat
         ∨ (_rx_change_count (device w) = 1
            ∧ _rx_timings (device w) !! 0%nat
              = Some (sync_low p * pl * SCALE_TIME_US)) →
         3 <= len bits → bits_value (bit_of <$> bits) ≠ 0 →
         rx_code (device w') = Some (bits_value (bit_of <$> bits))).
Proof.
  intros Hp Htiming Htol Hbits.
  induction n as [|n IH]; intros w Hproto Htl Hlen Hcc.
  - cbn [replicate concat]. rewrite app_nil_r.
    destruct (rx_frame pnum p pl tol Hp Htiming Htol bits w)
      as (w' & E & Hp1 & Ht1 & Hl1 & Hc1 & Hs1 & Hlast1 & Hcode);
      [done..|].
    exists w'. repeat (split; [done|]).
    intros [Hn|[Hone Hslot]] H3 Hnz; [lia|]. by apply Hcode.
  - change (concat (replicate (S (S n)) (frame_intervals p pl bits)))
      with (frame_intervals p pl bits
              ++ concat (replicate (S n) (frame_intervals p pl bits))).
    destruct (rx_frame pnum p pl tol Hp Htiming Htol bits w)
      as (w1 & E & Hp1 & Ht1 & Hl1 & Hc1 & Hs1 & Hlast1 & _);
      [done..|].
    destruct (IH w1 Hp1 Ht1 Hl1 ltac:(lia))
      as (w' & E' & Hp' & Ht' & Hl' & Hc' & Hs' & Hlast' & Hcode').
    exists w'.
    rewrite edge_times_app, (rx_edges_app _ _ _ _ E), <- Hlast1.
    split; [exact E'|]. repeat (split; [done|]).
    split; [rewrite Hlast', Hlast1, total_app; lia|].
    intros _ H3 Hnz. apply Hcode'; [|done..]. right. by split.
Qed.

(** X13.  The receiver needs nothing of its own transmit settings.  A
    transmitter and a receiver are constructed separately: their pins, pulse
    lengths, repeat counts and bit lengths may all differ, and the
    receiver's protocol id may be the negative index of the same table
    entry.  If the transmitter's pulse length suits the thresholds, a
    nonzero code that fits is decoded by the receiver, which calibrates on
    the sync gap it measured; polling then returns the code. *)
Theorem round_trip_any_receiver gt gr pnum pnr plo plr r rr l lr tolt tol
    code dt dr p :
  RFDevice gt pnum plo r l tolt = Ok dt →
  RFDevice gr pnr plr rr lr tol = Ok dr →
  1 <= pnum <= 5 →
  py_index PROTOCOLS pnum = Ok (Some p) →
  py_index PROTOCOLS pnr = Ok (Some p) →
  timing_ok p (tx_pulselength dt) →
  3 <= l <= 32 → 2 <= r → 1 <= tol <= 100 →
  0 < code → len (drop 2 (bin code)) <= l →
  ∃ wt wr,
    tx_code code (snd (enable_tx (world_of dt))) = (Ok true, wt)
    ∧ rx_edges (edge_times 0 (snd <$> wire wt)) (snd (enable_rx (world_of dr)))
      = (Ok tt, wr)
    ∧ rx_code (device wr) = Some code
    ∧ fst (received_rx wr) = Ok (Some code).
Proof.
  intros Hdt Hdr Hpn Hp Hpr Htiming Hl Hr Htol Hcode Hfits.
  destruct (RFDevice_fresh _ _ _ _ _ _ _ Hdt)
    as (Htx & Hrx & _ & _ & _ & _ & _ & _ & Htp & _ & Hrep & Hlen).
  destruct (RFDevice_fresh _ _ _ _ _ _ _ Hdr)
    as (Htx' & Hrx' & Htm & Hcc & Hlast & _ & _ & Hrp & _ & Hrt & _).
  rewrite (enable_tx_fresh dt Htx Hrx), (enable_rx_fresh dr Htx' Hrx').
  cbn [snd].
  set (dtx := set_tx_pin _ (set_tx_enabled true dt)).
  set (drx := set_rx_pin _ (set_rx_enabled true dr)).
  destruct (tx_code_fits dtx p code (world_of dtx))
    as (wt & pattern & E & _ & Hwire & Hpl & Hval);
    [done | done | by eexists | cbn; lia | cbn; by rewrite Htp | lia
    | cbn; lia |].
  change (tx_length dtx) with (tx_length dt) in Hpl.
  destruct (Z.to_nat r) as [|n] eqn:Hn; [lia|].
  destruct (rx_repetitions pnr p (tx_pulselength dt) tol pattern n
              Hpr Htiming Htol ltac:(lia) (world_of drx))
    as (wr & Erx & _ & _ & _ & _ & _ & _ & Hrc).
  { cbn. done. }
  { cbn. done. }
  { cbn. by rewrite Htm, length_replicate. }
  { cbn. lia. }
  exists wt, wr. split; [exact E|].
  assert (Hin : snd <$> wire wt
                = concat (replicate (S n)
                            (frame_intervals p (tx_pulselength dt) pattern))).
  { rewrite Hwire. cbn [wire world_of app].
    rewrite transmission_of_intervals by (cbn; lia).
    change (tx_repeat dtx) with (tx_repeat dt).
    change (tx_pulselength dtx) with (tx_pulselength dt).
    by rewrite Hrep, Hn. }
  rewrite Hin.
  change (_rx_last_timestamp (device (world_of drx)))
    with (_rx_last_timestamp dr) in Erx.
  rewrite Hlast in Erx. split; [exact Erx|].
  assert (Hmail : rx_code (device wr) = Some code).
  { rewrite Hrc, Hval; [done | left; lia | lia | lia]. }
  split; [exact Hmail|].
  rewrite received_rx_nonzero by (rewrite Hmail; intros [= ->]; lia).
  by rewrite Hmail.
Qed.

Lemma round_trip_any_receiver_witness :
  ∃ wt wr,
    tx_code 255 (snd (enable_tx (world_of (new_device 6 1 350 10 24 70))))
      = (Ok true, wt)
    ∧ rx_edges (edge_times 0 (snd <$> wire wt))
        (snd (enable_rx (world_of (new_device 7 (-6) 200 3 8 40))))
      = (Ok tt, wr)
    ∧ rx_code (device wr) = Some 255
    ∧ fst (received_rx wr) = Ok (Some 255).
Proof.
  apply (round_trip_any_receiver 6 7 1 (-6) None (Some 200) 10 3 24 8 70 40 255
           (new_device 6 1 350 10 24 70) (new_device 7 (-6) 200 3 8 40)
           (mkProtocol 350 1 31 1 3 3 1)).
  - reflexivity.
  - reflexivity.
  - lia.
  - reflexivity.
  - reflexivity.
  - apply (default_timing 1); [reflexivity | by left].
  - lia.
  - lia.
  - lia.
  - lia.
  - by vm_compute.
Defined.

(** X14.  The mailbox holds one code.  Two codes are sent one after the
    other by the same transmitter; the receiver is not polled in between.
    After the edges of the first transmission the mailbox holds the first
    code; after the edges of both it holds the second, published at the
    first repetition of the second transmission because the receiver is
    still synchronised. *)
Theorem later_code_replaces_earlier g pnum plo r l tol code1 code2 d p :
  RFDevice g pnum plo r l tol = Ok d →
  1 <= pnum <= 5 →
  py_index PROTOCOLS pnum = Ok (Some p) →
  timing_ok p (tx_pulselength d) →
  3 <= l <= 32 → 2 <= r → 1 <= tol <= 100 →
  0 < code1 → len (drop 2 (bin code1)) <= l →
  0 < code2 → len (drop 2 (bin code2)) <= l →
  ∃ wt1 wt2 wr1 wr2,
    tx_code code1 (snd (enable_tx (world_of d))) = (Ok true, wt1)
    ∧ tx_code code2 wt1 = (Ok true, wt2)
    ∧ rx_edges (edge_times 0 (snd <$> wire wt1)) (snd (enable_rx (world_of d)))
      = (Ok tt, wr1)
    ∧ rx_code (device wr1) = Some code1
    ∧ rx_edges (edge_times 0 (snd <$> wire wt2)) (snd (enable_rx (world_of d)))
      = (Ok tt, wr2)
    ∧ rx_code (device wr2) = Some code2.
Proof.
  intros Hd Hpn Hp Htiming Hl Hr Htol Hc1 Hf1 Hc2 Hf2.
  destruct (RFDevice_fresh _ _ _ _ _ _ _ Hd)
    as (Htx & Hrx & Htm & Hcc & Hlast & _ & _ & Hrp & Htp & Hrt & Hrep & Hlen).
  rewrite (enable_tx_fresh d Htx Hrx), (enable_rx_fresh d Htx Hrx).
  cbn [snd].
  set (dtx := set_tx_pin _ (set_tx_enabled true d)).
  set (drx := set_rx_pin _ (set_rx_enabled true d)).
  destruct (tx_code_fits dtx p code1 (world_of dtx))
    as (wt1 & pat1 & E1 & Hd1 & Hw1 & Hl1 & Hv1);
    [done | done | by eexists | cbn; lia | cbn; by rewrite Htp | lia
    | cbn; lia |].
  destruct (tx_code_fits dtx p code2 wt1)
    as (wt2 & pat2 & E2 & Hd2 & Hw2 & Hl2 & Hv2);
    [done | done | by eexists | cbn; lia | cbn; by rewrite Htp | lia
    | cbn; lia |].
  change (tx_length dtx) with (tx_length d) in Hl1, Hl2.
  destruct (Z.to_nat r) as [|n] eqn:Hn; [lia|].
  set (pl := tx_pulselength d).
  assert (Hin : ∀ pat, snd <$> transmission dtx p pat
                       = concat (replicate (S n) (frame_intervals p pl pat))).
  { intros pat. rewrite transmission_of_intervals by (cbn; lia).
    change (tx_repeat dtx) with (tx_repeat d).
    change (tx_pulselength dtx) with pl.
    by rewrite Hrep, Hn. }
  destruct (rx_repetitions pnum p pl tol pat1 n
              Hp Htiming Htol ltac:(lia) (world_of drx))
    as (wr1 & Er1 & Hp1 & Ht1 & Hlen1 & Hcc1 & Hs1 & Hlast1 & Hrc1).
  { cbn. done. }
  { cbn. done. }
  { cbn. by rewrite Htm, length_replicate. }
  { cbn. lia. }
  destruct (rx_repetitions pnum p pl tol pat2 n
              Hp Htiming Htol ltac:(lia) wr1 Hp1 Ht1 Hlen1 ltac:(lia))
    as (wr2 & Er2 & _ & _ & _ & _ & _ & _ & Hrc2).
  change (_rx_last_timestamp (device (world_of drx)))
    with (_rx_last_timestamp d) in Er1, Hlast1.
  rewrite Hlast in Er1, Hlast1.
  exists wt1, wt2, wr1, wr2.
  split; [exact E1|]. split; [exact E2|].
  rewrite Hw2, Hw1. cbn [wire world_of app].
  rewrite fmap_app, !Hin.
  split; [exact Er1|].
  split; [rewrite Hrc1, Hv1; [done | left; lia | lia | lia]|].
  rewrite edge_times_app, (rx_edges_app _ _ _ _ Er1), <- Hlast1.
  split; [exact Er2|].
  rewrite Hrc2, Hv2; [done | right; by split | lia | lia].
Qed.

Lemma later_code_replaces_earlier_witness :
  ∃ wt1 wt2 wr1 wr2,
    tx_code 255 (snd (enable_tx (world_of (new_device 6 1 350 10 24 70))))
      = (Ok true, wt1)
    ∧ tx_code 5 wt1 = (Ok true, wt2)
    ∧ rx_edges (edge_times 0 (snd <$> wire wt1))
        (snd (enable_rx (world_of (new_device 6 1 350 10 24 70))))
      = (Ok tt, wr1)
    ∧ rx_code (device wr1) = Some 255
    ∧ rx_edges (edge_times 0 (snd <$> wire wt2))
        (snd (enable_rx (world_of (new_device 6 1 350 10 24 70))))
      = (Ok tt, wr2)
    ∧ rx_code (device wr2) = Some 5.
Proof.
  apply (later_code_replaces_earlier 6 1 None 10 24 70 255 5
           (new_device 6 1 350 10 24 70) (mkProtocol 350 1 31 1 3 3 1)).
  - reflexivity.
  - lia.
  - reflexivity.
  - apply (default_timing 1); [reflexivity | by left].
  - lia.
  - lia.
  - lia.
  - lia.
  - by vm_compute.
  - lia.
  - by vm_compute.
Defined.

(** ** Cleanup and the handler registration *)

Lemma cleanup_idle w :
  tx_enabled (device w) = false → rx_enabled (device w) = false →
  cleanup w = (Ok tt, w).
Proof.
  intros Etx Erx. unfold cleanup. run_m. rewrite Etx. cbn. rewrite Erx. done.
Qed.

Lemma cleanup_tx w :
  tx_enabled (device w) = true → rx_enabled (device w) = false →
  cleanup w
  = (Ok tt,
     with_device
       (set_tx_enabled false
          (set_tx_pin (Some (mkPin (gpio (device w)) PinInPullDown false))
             (device w))) w).
Proof.
  intros Etx Erx. unfold cleanup, disable_tx. run_m. rewrite Etx. cbn.
  rewrite Etx. cbn. rewrite Erx. done.
Qed.

Lemma cleanup_rx w p :
  tx_enabled (device w) = false → rx_enabled (device w) = true →
  rx_pin (device w) = Some p →
  cleanup w
  = (Ok tt,
     with_device
       (set_rx_enabled false
          (set_rx_pin (Some (mkPin (pin_id p) (pin_mode p) false))
             (device w))) w).
Proof.
  intros Etx Erx Epin. unfold cleanup, disable_rx. run_m. rewrite Etx. cbn.
  rewrite Erx. cbn. rewrite Erx. cbn. rewrite Epin. done.
Qed.

Lemma cleanup_spec w :
  roles_ok (device w) →
  ∃ w', cleanup w = (Ok tt, w')
        ∧ tx_enabled (device w') = false ∧ rx_enabled (device w') = false
        ∧ (irq_ok (device w) → irq_ok (device w'))
        ∧ same_mailbox (device w) (device w')
        ∧ _rx_timings (device w') = _rx_timings (device w)
        ∧ wire w' = wire w.
Proof.
  intros [Hex Hpin]. unfold irq_ok, same_mailbox.
  destruct (tx_enabled (device w)) eqn:Etx, (rx_enabled (device w)) eqn:Erx.
  - destruct Hex. by split.
  - rewrite (cleanup_tx w Etx Erx). eexists. split; [reflexivity|]. cbn.
    by rewrite Erx.
  - destruct (Hpin eq_refl) as [pin Epin].
    rewrite (cleanup_rx w pin Etx Erx Epin). eexists. split; [reflexivity|].
    cbn. by rewrite Etx.
  - rewrite (cleanup_idle w Etx Erx). exists w. split; [reflexivity|].
    rewrite Erx. by repeat split.
Qed.

Lemma enable_idle w :
  tx_enabled (device w) = false → rx_enabled (device w) = false →
  fst (enable_tx w) = Ok true ∧ fst (enable_rx w) = Ok true.
Proof.
  intros Etx Erx. unfold enable_tx, enable_rx. run_m.
  by rewrite Etx, Erx.
Qed.

(** X15.  [cleanup] on a device with at most one role enabled (and, if it
    is the receiver, with its pin): it returns normally with both roles
    disabled, leaves the interval buffer, the mailbox and the wire as they
    were, is idempotent, and either role can be enabled afterwards. *)
Theorem cleanup_disables_both w :
  roles_ok (device w) →
  ∃ w', cleanup w = (Ok tt, w')
        ∧ tx_enabled (device w') = false ∧ rx_enabled (device w') = false
        ∧ same_mailbox (device w) (device w')
        ∧ _rx_timings (device w') = _rx_timings (device w)
        ∧ wire w' = wire w
        ∧ cleanup w' = (Ok tt, w')
        ∧ fst (enable_tx w') = Ok true ∧ fst (enable_rx w') = Ok true.
Proof.
  intros Hok.
  destruct (cleanup_spec w Hok) as (w' & E & Htx & Hrx & _ & Hmb & Htm & Hwire).
  exists w'. repeat (split; [done|]).
  split; [by apply cleanup_idle|]. by apply enable_idle.
Qed.

Lemma cleanup_disables_both_witness :
  let w := snd (enable_rx (world_of (new_device 6 1 350 10 24 70))) in
  ∃ w', cleanup w = (Ok tt, w')
        ∧ tx_enabled (device w') = false ∧ rx_enabled (device w') = false
        ∧ same_mailbox (device w) (device w')
        ∧ _rx_timings (device w') = _rx_timings (device w)
        ∧ wire w' = wire w
        ∧ cleanup w' = (Ok tt, w')
        ∧ fst (enable_tx w') = Ok true ∧ fst (enable_rx w') = Ok true.
Proof.
  apply (cleanup_disables_both
           (snd (enable_rx (world_of (new_device 6 1 350 10 24 70))))).
  split.
  - vm_compute. intros [H _]. discriminate H.
  - intros _. vm_compute. by eexists.
Defined.

Lemma do_op_irq_ok op w :
  roles_ok (device w) → irq_ok (device w) →
  ∃ b w', do_op op w = (Ok b, w')
          ∧ roles_ok (device w') ∧ irq_ok (device w').
Proof.
  intros Hok Hirq.
  destruct (do_op_roles_ok op w Hok) as (b & w' & E & Hok').
  exists b, w'. split; [exact E|]. split; [exact Hok'|].
  destruct Hok as [Hex Hpin]. unfold irq_ok in *.
  destruct op; unfold do_op, enable_tx, disable_tx, enable_rx, disable_rx in E;
    revert E; run_m;
    destruct (tx_enabled (device w)) eqn:Etx,
             (rx_enabled (device w)) eqn:Erx; cbn;
    try (destruct Hex; by split);
    try (destruct (Hpin eq_refl) as [pin Epin]; rewrite ?Epin; cbn);
    intros [= <- <-]; cbn; rewrite ?Etx, ?Erx, ?Epin in *; try done.
Qed.

Lemma do_ops_irq_ok ops : ∀ w,
  roles_ok (device w) → irq_ok (device w) →
  ∃ w', do_ops ops w = (Ok tt, w')
        ∧ roles_ok (device w') ∧ irq_ok (device w').
Proof.
  induction ops as [|op ops IH]; intros w Hok Hirq.
  - exists w. by split.
  - destruct (do_op_irq_ok op w Hok Hirq) as (b & w1 & Hop & Hok1 & Hirq1).
    destruct (IH w1 Hok1 Hirq1) as (w' & Hrun & Hok' & Hirq').
    exists w'. split; [|done].
    cbn [do_ops]. by rewrite (bind_ok _ _ _ _ _ Hop).
Qed.

(** X16.  The edge handler is registered exactly while the receive role is
    enabled.  From a constructed device, after any sequence of enable and
    disable calls the receive pin exists only if the receiver was enabled at
    some time, and its handler is set if and only if [rx_enabled] is True;
    a following [cleanup] returns normally and leaves no handler
    registered. *)
Theorem handler_registered_iff_receiving g pn pl r l tol d ops :
  RFDevice g pn pl r l tol = Ok d →
  ∃ w' w'',
    do_ops ops (world_of d) = (Ok tt, w')
    ∧ irq_ok (device w')
    ∧ cleanup w' = (Ok tt, w'')
    ∧ rx_enabled (device w'') = false
    ∧ ∀ p, rx_pin (device w'') = Some p → pin_irq p = false.
Proof.
  intros Hd.
  destruct (RFDevice_fresh _ _ _ _ _ _ _ Hd) as (Htx & Hrx & _).
  assert (Hpin : rx_pin d = None).
  { unfold RFDevice in Hd.
    destruct pl as [pl|]; [destruct (negb (pl =? 0))|];
      try destruct (py_index PROTOCOLS pn) as [[p|]|]; try discriminate;
      by injection Hd as <-. }
  destruct (do_ops_irq_ok ops (world_of d)) as (w' & E & Hok & Hirq).
  { split; cbn; [intros [? ?]|]; congruence. }
  { unfold irq_ok. cbn. by rewrite Hpin. }
  destruct (cleanup_spec w' Hok) as (w'' & Ec & _ & Hrx'' & Hirq'' & _).
  exists w', w''. repeat (split; [done|]).
  intros p Hp. specialize (Hirq'' Hirq). unfold irq_ok in Hirq''.
  rewrite Hp in Hirq''. congruence.
Qed.

Lemma handler_registered_iff_receiving_witness :
  ∃ w' w'',
    do_ops [EnableTx; DisableTx; EnableRx] (world_of (new_device 6 1 350 10 24 70))
      = (Ok tt, w')
    ∧ irq_ok (device w')
    ∧ cleanup w' = (Ok tt, w'')
    ∧ rx_enabled (device w'') = false
    ∧ ∀ p, rx_pin (device w'') = Some p → pin_irq p = false.
Proof.
  apply (handler_registered_iff_receiving 6 1 None 10 24 70
           (new_device 6 1 350 10 24 70) [EnableTx; DisableTx; EnableRx]).
  reflexivity.
Defined.

(** ** The transmitter script *)

Lemma concat_replicate_mul {A} (k n : nat) (xs : list A) :
  concat (replicate k (concat (replicate n xs)))
  = concat (replicate (k * n) xs).
Proof.
  induction k as [|k IH]; [done|].
  cbn [replicate concat Nat.mul]. by rewrite IH, replicate_add, concat_app.
Qed.

Lemma fmap_concat_replicate {A B} (f : A → B) (k : nat) (xs : list A) :
  f <$> concat (replicate k xs) = concat (replicate k (f <$> xs)).
Proof.
  induction k as [|k IH]; [done|].
  cbn [replicate concat]. by rewrite fmap_app, IH.
Qed.

Lemma script_loop d values : ∀ w,
  d = set_tx_pin (Some (mkPin 6 PinOut false))
        (set_tx_enabled true (new_device 6 1 350 10 24 70)) →
  device w = d →
  ∃ w', rf_comm_transmitt.loop values w = (Ok tt, w')
        ∧ device w' = d
        ∧ wire w' = wire w
                    ++ concat (replicate (presses values)
                                 (transmission d (mkProtocol 350 1 31 1 3 3 1)
                                    pattern_255)).
Proof.
  intros w Hd. revert w.
  induction values as [|v rest IH]; intros w Hw.
  - exists w. cbn. by rewrite app_nil_r.
  - cbn [rf_comm_transmitt.loop presses].
    unfold rf_comm_transmitt.loop_body.
    destruct (v =? 0).
    + destruct (tx_code_ok d (mkProtocol 350 1 31 1 3 3 1)
                  rf_comm_transmitt.code w) as [level E];
        [by subst d | subst d; by eexists | by subst d | by subst d
        | by subst d | done |].
      replace (take _ _) with pattern_255 in E by (by subst d).
      set (w1 := sent _ level w) in E.
      destruct (IH w1 Hw) as (w' & E' & Hd' & Hwire').
      exists w'. split.
      * rewrite (bind_ok _ _ w tt w1); [exact E'|].
        by rewrite (bind_ok _ _ _ _ _ E).
      * split; [done|]. rewrite Hwire'. cbn [wire sent w1].
        cbn [Nat.add replicate concat]. by rewrite <- !app_assoc.
    + destruct (IH w Hw) as (w' & E' & Hd' & Hwire').
      exists w'. split; [|done].
      by rewrite (bind_ok _ _ w tt w).
Qed.

(** X17.  The script [rf_comm_transmitt.py], run for any number of passes
    with any button readings: the constructor and [enable_tx] succeed, no
    pass raises, and the wire carries, for each pass in which the button
    read 0, ten frames of the 24-symbol pattern of 255 at 350 * 3
    microseconds per pulse unit, and nothing for the other passes.  If the
    button was pressed at least once, a separately constructed protocol-1
    receiver with a tolerance from 1 to 100 that is fed the edges of the
    wire ends with 255 in its mailbox. *)
Theorem script_sends_255 values :
  let d := set_tx_pin (Some (mkPin 6 PinOut false))
             (set_tx_enabled true (new_device 6 1 350 10 24 70)) in
  let p := mkProtocol 350 1 31 1 3 3 1 in
  ∃ w',
    rf_comm_transmitt.main values = Ok (Ok tt, w')
    ∧ device w' = d
    ∧ wire w' = concat (replicate (presses values)
                          (transmission d p pattern_255))
    ∧ bits_value (bit_of <$> pattern_255) = 255
    ∧ ∀ g plo r l tol dr,
        RFDevice g 1 plo r l tol = Ok dr →
        (1 <= presses values)%nat → 1 <= tol <= 100 →
        ∃ wr,
          rx_edges (edge_times 0 (snd <$> wire w'))
            (snd (enable_rx (world_of dr))) = (Ok tt, wr)
          ∧ rx_code (device wr) = Some 255.
Proof.
  intros d p.
  assert (Hmain : rf_comm_transmitt.main values
                  = Ok (rf_comm_transmitt.loop values (world_of d))).
  { unfold rf_comm_transmitt.main.
    change rf_comm_transmitt.rfdevice
      with (Ok (new_device 6 1 350 10 24 70)).
    cbv beta iota.
    by rewrite (bind_ok _ _ _ _ _
                  (enable_tx_fresh (new_device 6 1 350 10 24 70)
                     eq_refl eq_refl)). }
  destruct (script_loop d values (world_of d) eq_refl eq_refl)
    as (w' & E & Hd & Hwire).
  exists w'. rewrite Hmain, E. split; [done|]. split; [done|].
  cbn [wire world_of app] in Hwire. split; [exact Hwire|].
  split; [reflexivity|].
  intros g plo r l tol dr Hdr Hk Htol.
  destruct (RFDevice_fresh _ _ _ _ _ _ _ Hdr)
    as (Htx & Hrx & Htm & Hcc & Hlast & _ & _ & Hrp & _ & Hrt & _).
  rewrite (enable_rx_fresh dr Htx Hrx). cbn [snd].
  set (drx := set_rx_pin _ (set_rx_enabled true dr)).
  assert (Hin : snd <$> wire w'
                = concat (replicate (presses values * 10)
                            (frame_intervals p 350 pattern_255))).
  { rewrite Hwire.
    assert (Ht : snd <$> transmission d p pattern_255
                 = concat (replicate 10 (frame_intervals p 350 pattern_255)))
      by (by rewrite transmission_of_intervals).
    by rewrite <- concat_replicate_mul, <- Ht, fmap_concat_replicate. }
  rewrite Hin.
  destruct (presses values * 10)%nat as [|[|n]] eqn:Hn; [lia | lia |].
  destruct (rx_repetitions 1 p 350 tol pattern_255 (S n)
              eq_refl (default_timing 1 p eq_refl (or_introl eq_refl)) Htol
              ltac:(by vm_compute) (world_of drx))
    as (wr & Erx & _ & _ & _ & _ & _ & _ & Hrc).
  { done. }
  { done. }
  { cbn. by rewrite Htm, length_replicate. }
  { cbn. lia. }
  change (_rx_last_timestamp (device (world_of drx)))
    with (_rx_last_timestamp dr) in Erx.
  rewrite Hlast in Erx. exists wr. split; [exact Erx|].
  rewrite Hrc; [done | left; lia | by vm_compute | by vm_compute].
Qed.

Lemma script_sends_255_witness :
  ∃ w' wr,
    rf_comm_transmitt.main [1; 0; 1; 0] = Ok (Ok tt, w')
    ∧ length (wire w') = 1000%nat
    ∧ rx_edges (edge_times 0 (snd <$> wire w'))
        (snd (enable_rx (world_of (new_device 7 1 350 10 24 70))))
      = (Ok tt, wr)
    ∧ rx_code (device wr) = Some 255.
Proof.
  destruct (script_sends_255 [1; 0; 1; 0]) as (w' & E & _ & Hwire & _ & Hrx).
  destruct (Hrx 7 None 10 24 70 (new_device 7 1 350 10 24 70))
    as (wr & Erx & Hcode); [reflexivity | vm_compute; lia | lia |].
  exists w', wr. split; [exact E|]. split; [|by split].
  rewrite Hwire. reflexivity.
Defined.

(** ** The transmitter, from any state *)

Lemma whole_silent {A} (m : M A) :
  (∀ w, wire (snd (m w)) = wire w ∧ pin_level (snd (m w)) = pin_level w) →
  whole_waveforms m.
Proof.
  intros H w. exists 0%nat. destruct (H w) as [-> ->].
  cbn. by rewrite app_nil_r.
Qed.

Lemma whole_bind {A B} (m : M A) (f : A → M B) :
  whole_waveforms m → (∀ a, whole_waveforms (f a)) →
  whole_waveforms (m ≫= f).
Proof.
  intros Hm Hf w. unfold mbind, M_bind.
  destruct (Hm w) as (n1 & Hw1 & Hl1).
  destruct (m w) as [[a|e] w1]; cbn [snd] in *; [|by exists n1].
  destruct (Hf a w1) as (n2 & Hw2 & Hl2).
  exists (n1 + n2)%nat. split.
  - by rewrite Hw2, Hw1, replicate_add, concat_app, app_assoc.
  - rewrite Hl2, Hl1. by destruct n1, n2.
Qed.

Lemma whole_ret {A} (a : A) : whole_waveforms (mret a).
Proof. by apply whole_silent. Qed.

Lemma whole_lift {A} (r : result A) : whole_waveforms (lift r).
Proof. by apply whole_silent. Qed.

Lemma whole_self : whole_waveforms self.
Proof. by apply whole_silent. Qed.

Lemma whole_assign f : whole_waveforms (assign f).
Proof. by apply whole_silent. Qed.

Lemma whole_protocol pnum : whole_waveforms (protocol pnum).
Proof.
  apply whole_bind; [apply whole_lift|]. intros [p|]; by apply whole_silent.
Qed.

Lemma whole_tx_waveform high low : whole_waveforms (tx_waveform high low).
Proof.
  intros w. unfold tx_waveform, pin_write, _sleep. run_m.
  destruct (tx_enabled (device w)); cbn.
  - destruct (tx_pin (device w)) eqn:Epin; cbn; rewrite ?Epin; cbn.
    + exists 1%nat. split; [|done].
      by rewrite <- app_assoc, fmap_app.
    + exists 0%nat. by rewrite app_nil_r.
  - exists 0%nat. by rewrite app_nil_r.
Qed.

Lemma whole_tx_l0 : whole_waveforms tx_l0.
Proof.
  apply whole_bind; [apply whole_self|]. intros d.
  destruct (negb _); [apply whole_ret|].
  apply whole_bind; [apply whole_protocol|]. intros p.
  apply whole_tx_waveform.
Qed.

Lemma whole_tx_l1 : whole_waveforms tx_l1.
Proof.
  apply whole_bind; [apply whole_self|]. intros d.
  destruct (negb _); [apply whole_ret|].
  apply whole_bind; [apply whole_protocol|]. intros p.
  apply whole_tx_waveform.
Qed.

Lemma whole_tx_sync : whole_waveforms tx_sync.
Proof.
  apply whole_bind; [apply whole_self|]. intros d.
  destruct (negb _); [apply whole_ret|].
  apply whole_bind; [apply whole_protocol|]. intros p.
  apply whole_tx_waveform.
Qed.

Lemma whole_for_each {X} (xs : list X) (body : X → M bool) :
  (∀ x, whole_waveforms (body x)) → whole_waveforms (for_each xs body).
Proof.
  intros Hbody. induction xs as [|x xs IH]; [apply whole_ret|].
  cbn [for_each]. apply whole_bind; [apply Hbody|].
  intros ok. destruct (negb ok); [apply whole_ret | apply IH].
Qed.

Lemma whole_send_bit rawcode byte : whole_waveforms (send_bit rawcode byte).
Proof.
  apply whole_bind; [apply whole_lift|]. intros c.
  destruct (Ascii.eqb c "0"); [apply whole_tx_l0 | apply whole_tx_l1].
Qed.

Lemma whole_tx_bin rawcode : whole_waveforms (tx_bin rawcode).
Proof.
  apply whole_bind; [apply whole_self|]. intros d.
  apply whole_for_each. intros _.
  apply whole_bind; [apply whole_self|]. intros d1.
  apply whole_bind.
  { destruct (tx_proto d1 =? 6); [apply whole_tx_sync | apply whole_ret]. }
  intros ok. destruct (negb ok); [apply whole_ret|].
  apply whole_bind; [apply whole_self|]. intros d2.
  apply whole_bind; [apply whole_for_each, whole_send_bit|].
  intros ok2. destruct (negb ok2); [apply whole_ret | apply whole_tx_sync].
Qed.

(** X18.  The transmitter never leaves the pin keyed.  From any world,
    with any argument and in any outcome (True, False or an exception),
    every method of the transmit path adds to the wire only complete
    waveforms, the pin held high and then held low, and leaves the pin low
    if it sent anything. *)
Theorem transmitter_sends_whole_waveforms :
  (∀ high low, whole_waveforms (tx_waveform high low))
  ∧ whole_waveforms tx_l0 ∧ whole_waveforms tx_l1 ∧ whole_waveforms tx_sync
  ∧ (∀ rawcode, whole_waveforms (tx_bin rawcode))
  ∧ (∀ code, whole_waveforms (tx_code code)).
Proof.
  split; [apply whole_tx_waveform|].
  split; [apply whole_tx_l0|]. split; [apply whole_tx_l1|].
  split; [apply whole_tx_sync|]. split; [apply whole_tx_bin|].
  intros code. apply whole_bind; [apply whole_self|]. intros d.
  apply whole_bind; [|intros rawcode; apply whole_tx_bin].
  destruct (tx_proto d =? 6); [|apply whole_ret].
  apply whole_bind; [apply whole_assign|]. intros _. apply whole_ret.
Qed.

(** ** Air time *)

Lemma total_concat_replicate n xs :
  total (concat (replicate n xs)) = Z.of_nat n * total xs.
Proof.
  induction n as [|n IH]; [done|].
  cbn [replicate concat]. rewrite total_app, IH. lia.
Qed.

Lemma table_balanced pnum p :
  1 <= pnum <= 5 → py_index PROTOCOLS pnum = Ok (Some p) →
  zero_high p + zero_low p = one_high p + one_low p.
Proof.
  intros Hpn Hp.
  assert (pnum = 1 ∨ pnum = 2 ∨ pnum = 3 ∨ pnum = 4 ∨ pnum = 5) as Hc by lia.
  destruct Hc as [->|[->|[->|[->| ->]]]]; by injection Hp as <-.
Qed.

Lemma total_bit_intervals p pl bits :
  zero_high p + zero_low p = one_high p + one_low p →
  total (concat (bit_intervals p pl <$> bits))
  = len bits * ((zero_high p + zero_low p) * pl * SCALE_TIME_US).
Proof.
  intros Hbal. unfold len. induction bits as [|c bits IH]; [done|].
  cbn [fmap list_fmap concat length]. rewrite total_app, IH.
  unfold bit_intervals, total. destruct (Ascii.eqb c "0"); cbn; nia.
Qed.

(** X19.  For protocols 1 to 5 the time on air does not depend on the
    code: the zero and one waveforms of each of these protocols last the
    same number of pulse units, so [tx_code] of any integer, fitting or not,
    keeps the pin busy for exactly
    [tx_repeat * (tx_length * (zero_high + zero_low) + sync_high + sync_low)]
    pulse units of [tx_pulselength * 3] microseconds. *)
Theorem tx_code_air_time d p code w :
  device w = d →
  tx_enabled d = true → is_Some (tx_pin d) →
  1 <= tx_proto d <= 5 →
  py_index PROTOCOLS (tx_proto d) = Ok (Some p) →
  0 <= tx_length d → 0 <= tx_repeat d →
  fst (tx_code code w) = Ok true
  ∧ total (snd <$> wire (snd (tx_code code w)))
    = total (snd <$> wire w)
      + tx_repeat d
        * ((tx_length d * (zero_high p + zero_low p) + sync_high p + sync_low p)
           * tx_pulselength d * SCALE_TIME_US).
Proof.
  intros Hw Hen Hpin Hproto Hp Hl Hr.
  destruct (tx_code_ok d p code w) as [level E]; try done.
  { unfold len. cbn. lia. }
  { lia. }
  rewrite E. split; [done|]. cbn [snd sent wire].
  rewrite fmap_app, total_app, transmission_of_intervals by lia.
  rewrite total_concat_replicate. unfold frame_intervals, data_intervals.
  rewrite !total_app, total_bit_intervals
    by (by apply (table_balanced (tx_proto d))).
  pose proof (length_rawcode (tx_length d) code) as Hlen.
  unfold len in *. rewrite length_take. unfold total. cbn [foldr].
  rewrite Z2Nat.id by lia.
  replace (Z.of_nat (Z.to_nat (tx_length d) `min` _)) with (tx_length d) by lia.
  lia.
Qed.

Lemma tx_code_air_time_witness :
  let w := snd (enable_tx (world_of (new_device 6 1 350 10 24 70))) in
  fst (tx_code 255 w) = Ok true
  ∧ total (snd <$> wire (snd (tx_code 255 w))) = 1344000
  ∧ total (snd <$> wire (snd (tx_code (-1) w))) = 1344000.
Proof.
  intros w.
  destruct (tx_code_air_time (device w) (mkProtocol 350 1 31 1 3 3 1) 255 w)
    as [H1 H2];
    [reflexivity | reflexivity | by eexists | vm_compute; split; discriminate
    | reflexivity | vm_compute; discriminate | vm_compute; discriminate |].
  destruct (tx_code_air_time (device w) (mkProtocol 350 1 31 1 3 3 1) (-1) w)
    as [_ H3];
    [reflexivity | reflexivity | by eexists | vm_compute; split; discriminate
    | reflexivity | vm_compute; discriminate | vm_compute; discriminate |].
  split; [exact H1|]. split; [rewrite H2 | rewrite H3]; reflexivity.
Defined.

(** ** When the mailbox is written *)



(** ** The first repetition *)

Lemma accepted_first_pair d p n :
  1 < n →
  pair_bit d p (frame_delay d p) (frame_tolerance d p) 1 = None →
  accepted d p n = None.
Proof.
  intros Hn Hpb. unfold accepted, frame_bits.
  destruct (py_range_1_2_cons n Hn) as [rest ->].
  cbn [mapM]. by rewrite Hpb.
Qed.

(** A low interval of a bit, measured against a timing unit derived from
    the bit's own high interval instead of a sync gap, is far outside the
    window of either template. *)
Lemma first_pair_apart pnum p pl tol c m :
  pnum = 1 ∨ pnum = 2 ∨ pnum = 3 ∨ pnum = 5 →
  py_index PROTOCOLS pnum = Ok (Some p) →
  0 < pl → tol <= 100 →
  m = zero_high p ∨ m = one_high p →
  let hi := default 0 (bit_intervals p pl c !! 0%nat) in
  let lo := default 0 (bit_intervals p pl c !! 1%nat) in
  let delay := hi ÷ sync_low p in
  within lo (delay * m) (inject_Z (delay * tol) / 100)%Q = false.
Proof.
  intros Hpn Hp Hpl Htol Hm hi lo delay.
  apply not_true_is_false. rewrite within_spec.
  assert (Hq : 0 <= delay ∧ sync_low p * delay <= hi).
  { unfold delay.
    destruct (table_entry _ _ Hp) as (_ & _ & Hsl & Hzh & _ & Hoh & _).
    assert (0 <= hi).
    { unfold hi, bit_intervals, SCALE_TIME_US.
      destruct (Ascii.eqb c "0"); cbn; nia. }
    rewrite Z.quot_div_nonneg by lia.
    split; [apply Z.div_pos; lia | apply Z.mul_div_le; lia]. }
  destruct Hq as [Hq0 Hq].
  assert (Hqt : delay * tol <= 100 * delay) by nia.
  subst hi lo. clearbody delay.
  unfold bit_intervals, SCALE_TIME_US in *.
  destruct Hpn as [->|[->|[->| ->]]]; injection Hp as <-;
    destruct (Ascii.eqb c "0"); cbn in *;
    destruct Hm as [->| ->]; lia.
Qed.

Lemma first_frame_pair_fails pnum p pl tol c d :
  pnum = 1 ∨ pnum = 2 ∨ pnum = 3 ∨ pnum = 5 →
  py_index PROTOCOLS pnum = Ok (Some p) →
  0 < pl → tol <= 100 →
  rx_tolerance d = tol →
  (2 <= length (_rx_timings d))%nat →
  (∀ i, (i < 2)%nat → _rx_timings d !! i = bit_intervals p pl c !! i) →
  pair_bit d p (frame_delay d p) (frame_tolerance d p) 1 = None.
Proof.
  intros Hpn Hp Hpl Htol Ht Hlen Hslots.
  assert (H0 : slot d 0 = default 0 (bit_intervals p pl c !! 0%nat)).
  { unfold slot. change (Z.to_nat 0) with 0%nat. by rewrite Hslots by lia. }
  assert (H1 : slot d 1 = default 0 (bit_intervals p pl c !! 1%nat)).
  { unfold slot. change (Z.to_nat 1) with 1%nat. by rewrite Hslots by lia. }
  unfold pair_bit, pair_matches, frame_tolerance, frame_delay.
  rewrite H0, H1, Ht.
  rewrite (first_pair_apart pnum p pl tol c (zero_high p))
    by (try done; by left).
  rewrite (first_pair_apart pnum p pl tol c (one_high p))
    by (try done; by right).
  done.
Qed.

(** The first frame a receiver with an empty buffer is delivered: the
    handler returns normally at every edge, and at the closing sync edge the
    decoder, which takes the first data interval for the sync gap, rejects
    the frame. *)
Lemma rx_first_frame pnum p pl tol bits w :
  pnum = 1 ∨ pnum = 2 ∨ pnum = 3 ∨ pnum = 5 →
  py_index PROTOCOLS pnum = Ok (Some p) →
  timing_ok p pl → tol <= 100 →
  rx_proto (device w) = pnum → rx_tolerance (device w) = tol →
  length (_rx_timings (device w)) = 68%nat →
  _rx_change_count (device w) = 0 →
  1 <= len bits <= 33 →
  ∃ w',
    rx_edges (edge_times (_rx_last_timestamp (device w))
                (frame_intervals p pl bits)) w = (Ok tt, w')
    ∧ same_mailbox (device w) (device w')
    ∧ _rx_change_count (device w') = 1.
Proof.
  intros Hpn Hp Htiming Htol Hproto Htl Hlen Hcc Hbits.
  assert (Hpl : 0 < pl).
  { destruct (table_entry _ _ Hp) as (_ & _ & _ & Hzh & _).
    destruct Htiming as ([Hlo _] & _).
    unfold THRESHOLD_TICK, SCALE_TIME_US in *. nia. }
  pose proof (length_data_intervals p pl bits) as Hdl.
  destruct (rx_data_run (data_intervals p pl bits) w
              (data_intervals_ok p pl Htiming bits))
    as (w1 & E1 & Hd1);
    [lia | unfold len in *; unfold MAX_CHANGES; lia | done |].
  unfold frame_intervals. rewrite edge_times_app, (rx_edges_app _ _ _ _ E1).
  cbn [edge_times rx_edges].
  set (t1 := _rx_last_timestamp (device w) + total (data_intervals p pl bits)).
  assert (Hlast1 : _rx_last_timestamp (device w1) = t1) by (by rewrite Hd1).
  assert (Hcc1 : _rx_change_count (device w1) = 2 * len bits + 1)
    by (rewrite Hd1; cbn; unfold len in *; lia).
  assert (Htm1 : _rx_timings (device w1)
                 = list_inserts 0 (data_intervals p pl bits)
                     (_rx_timings (device w)))
    by (rewrite Hd1; cbn; by rewrite Hcc).
  assert (Hlen1 : length (_rx_timings (device w1)) = 68%nat)
    by (by rewrite Htm1, length_inserts).
  destruct Htiming as (_ & _ & _ & _ & _ & Hgap).
  set (sync_gap := sync_low p * pl * SCALE_TIME_US) in *.
  destruct (rx_callback_sync (t1 + sync_gap) p w1) as (v & E2 & _ & _).
  { rewrite Hlast1. lia. }
  { intros _. rewrite Hd1. cbn. by rewrite Hproto. }
  { unfold len. lia. }
  { unfold len in *. lia. }
  rewrite (bind_ok _ _ _ _ _ E2). eexists. split; [done|].
  cbn [device].
  set (d1 := set__rx_change_count _ (set__rx_repeat_count _ (device w1))).
  assert (Hr : (if _rx_change_count (device w1) - 1 >? 1
                then accepted d1 p (_rx_change_count (device w1) - 1)
                else None) = None).
  { replace (_ - 1 >? 1) with true by lia.
    destruct bits as [|c rest]; [unfold len in Hbits; cbn in Hbits; lia|].
    apply accepted_first_pair; [lia|].
    apply (first_frame_pair_fails pnum p pl tol c);
      [done.. | cbn; by rewrite Hd1 | cbn; lia |].
    intros i Hi. change (_rx_timings d1) with (_rx_timings (device w1)).
    rewrite Htm1, list_lookup_inserts by (unfold len in *; lia).
    rewrite Nat.sub_0_r. unfold data_intervals.
    cbn [fmap list_fmap concat]. rewrite <- app_assoc.
    apply lookup_app_l.
    unfold bit_intervals. by destruct (Ascii.eqb c "0"). }
  rewrite Hr. cbn [publish]. unfold same_mailbox. cbn.
  by rewrite Hd1.
Qed.

(** X21.  One repetition is never received.  A transmitter with
    [tx_repeat = 1] and protocol 1, 2, 3 or 5 sends any code; a fresh
    receiver that is delivered the edges of the transmission, with a
    tolerance from 0 to 100, handles every edge without an exception and
    ends with an empty mailbox: the decoder has no earlier sync gap to
    calibrate on. *)
Theorem single_repetition_is_not_received g pnum plo l tol code d p :
  RFDevice g pnum plo 1 l tol = Ok d →
  pnum = 1 ∨ pnum = 2 ∨ pnum = 3 ∨ pnum = 5 →
  py_index PROTOCOLS pnum = Ok (Some p) →
  timing_ok p (tx_pulselength d) →
  1 <= l <= 33 → 0 <= tol <= 100 →
  ∃ wt wr,
    tx_code code (snd (enable_tx (world_of d))) = (Ok true, wt)
    ∧ rx_edges (edge_times 0 (snd <$> wire wt)) (snd (enable_rx (world_of d)))
      = (Ok tt, wr)
    ∧ rx_code (device wr) = None.
Proof.
  intros Hd Hpn Hp Htiming Hl Htol.
  destruct (RFDevice_fresh _ _ _ _ _ _ _ Hd)
    as (Htx & Hrx & Htm & Hcc & Hlast & _ & Hcode & Hrp & Htp & Hrt & Hrep & Hlen).
  rewrite (enable_tx_fresh d Htx Hrx), (enable_rx_fresh d Htx Hrx).
  cbn [snd].
  set (dtx := set_tx_pin _ (set_tx_enabled true d)).
  set (drx := set_rx_pin _ (set_rx_enabled true d)).
  destruct (tx_code_ok dtx p code (world_of dtx)) as [level E];
    [done | by eexists | cbn; rewrite Htp; unfold len; cbn; lia
    | cbn; lia | cbn; by rewrite Htp | done |].
  set (bits := take _ _) in E.
  assert (Hbl : len bits = l).
  { pose proof (length_rawcode (tx_length dtx) code) as Hraw.
    unfold bits, len in *. rewrite length_take.
    change (tx_length dtx) with (tx_length d) in *. lia. }
  destruct (rx_first_frame pnum p (tx_pulselength d) tol bits (world_of drx))
    as (wr & Erx & [Hmb _] & _); try done; try lia.
  { cbn. by rewrite Htm, length_replicate. }
  rewrite E. eexists _, wr. split; [done|].
  cbn [wire sent world_of app].
  rewrite transmission_of_intervals by (cbn; lia).
  change (tx_repeat dtx) with (tx_repeat d).
  change (tx_pulselength dtx) with (tx_pulselength d). rewrite Hrep.
  change (Z.to_nat 1) with 1%nat. cbn [replicate concat].
  rewrite app_nil_r.
  change (_rx_last_timestamp (device (world_of drx)))
    with (_rx_last_timestamp d) in Erx.
  rewrite Hlast in Erx. split; [exact Erx|].
  rewrite Hmb. exact Hcode.
Qed.

Lemma single_repetition_is_not_received_witness :
  ∃ wt wr,
    tx_code 255 (snd (enable_tx (world_of (new_device 6 1 350 1 24 70))))
      = (Ok true, wt)
    ∧ rx_edges (edge_times 0 (snd <$> wire wt))
        (snd (enable_rx (world_of (new_device 6 1 350 1 24 70))))
      = (Ok tt, wr)
    ∧ rx_code (device wr) = None.
Proof.
  apply (single_repetition_is_not_received 6 1 None 24 70 255
           (new_device 6 1 350 1 24 70) (mkProtocol 350 1 31 1 3 3 1)).
  - reflexivity.
  - by left.
  - reflexivity.
  - apply (default_timing 1); [reflexivity | by left].
  - lia.
  - lia.
Defined.
